(** * dashboard-wehub: day store, tiered cache and multi-account aggregation

    A shallow embedding of the modules that make up the reporting core of
    the backend:

    - [gam-data-store.js]   (module [Store]): per-day persistent store,
      [aggregateDays], [getDataForRange], the smart worker and
      [manualRefresh];
    - [google-ad-manager.js] (module [Gam]): [extractDomainFromAdUnit],
      [convertToUSD], [transformReportData], the access tokens of the client
      and of the accounts, [pollOperation], [getAccountStatistics],
      [aggregateMetrics], [getMultiAccountStatistics];
    - [redis-cache.js]      (module [Cache]): the Redis + SQLite cache;
    - [facebook-cache.js]   (module [FbCache]): the in-memory cache, its
      keys and its invalidation;
    - [index.js]            (module [Route]): the handler of
      [GET /api/googleadmanager/statistics].

    Modelling conventions.

    - JavaScript numbers are exact rationals ([Qc]); [toFixed(2)] followed by
      [parseFloat] is the decimal rounding [toFixed2].  Binary floating point
      error is outside the model.
    - Strings are sequences of code units below 256; [toLowerCase] and the
      class [\s] are those of Latin-1.
    - A field that may be missing from a JSON object is an [option]; the
      idiom [x || d] is [or0], [orStr], [orList].
    - A plain object used as a dictionary is [JsObject.t]: an association
      list in creation order.  Keys are assumed not to name a property that
      every object inherits from [Object.prototype].
    - Calendar dates ("YYYY-MM-DD") are day numbers in [Z]; the text order of
      ISO dates is the order of the day numbers, and the process is assumed
      to run on a clock without daylight-saving shifts, so that adding one
      day moves to the next calendar date.
    - Promises are run to completion: an [async] function is a function that
      returns [Resolved v] or [Rejected e]; everything it awaits is supplied
      by an explicit environment, and so is every reading of the clock. *)

From Stdlib Require Import ZArith QArith Qcanon Qround String Ascii List Lia.
From stdpp Require Import gmap strings list pretty sorting.

Open Scope string_scope.

(* ====================================================================== *)
(** ** JavaScript values *)
(* ====================================================================== *)

Module Js.

Open Scope Qc_scope.

(** Integer and decimal literals. *)
Definition num (z : Z) : Qc := Q2Qc (inject_Z z).
Definition frac (n : Z) (d : positive) : Qc := Q2Qc (n # d).

(** [parseFloat(x.toFixed(2))] for a non-negative magnitude: the multiple
    of 1/100 nearest to [x], the larger one on a tie. *)
Definition round2 (x : Qc) : Qc :=
  frac (Qfloor (x * num 100 + frac 1 2)%Qc) 100.

(** [Number.prototype.toFixed] works on the magnitude and restores the
    sign. *)
Definition toFixed2 (x : Qc) : Qc :=
  if decide (x < 0) then - round2 (- x) else round2 x.

(** [x || 0] on an optional number. *)
Definition or0 (x : option Qc) : Qc := default 0 x.

(** [x || 0] on an optional count. *)
Definition orZ (x : option Z) : Z := default 0%Z x.

(** A string is truthy when it is present and not empty. *)
Definition truthyStr (x : option string) : bool :=
  match x with
  | Some s => negb (String.eqb s "")
  | None => false
  end.

(** [x || d] on an optional string. *)
Definition orStr (x : option string) (d : string) : string :=
  match x with
  | Some s => if String.eqb s "" then d else s
  | None => d
  end.

(** [x || []]: an array is always truthy, even when empty. *)
Definition orList {A} (x : option (list A)) : list A := default [] x.

(** [arr.includes(s)] on an array of strings. *)
Definition includes (s : string) (arr : list string) : bool :=
  existsb (String.eqb s) arr.

(** [if (!arr.includes(s)) arr.push(s)]. *)
Definition pushNew (arr : list string) (s : string) : list string :=
  if includes s arr then arr else arr ++ [s].

(** [for (const s of xs) if (!arr.includes(s)) arr.push(s)]. *)
Definition pushAllNew (arr xs : list string) : list string :=
  fold_left pushNew xs arr.

(** The sum of [f x] over the elements [x] of [l]. *)
Definition sumBy {A} (f : A -> Qc) (l : list A) : Qc :=
  fold_right (fun x acc => f x + acc) 0 l.


(** The outcome of awaiting a promise. *)
Inductive Settled (A E : Type) : Type :=
| Resolved (v : A)
| Rejected (e : E).
Arguments Resolved {A E} v.
Arguments Rejected {A E} e.

(** [s.includes(sub)] *)
Definition strIncludes (sub s : string) : bool :=
  match String.index 0 sub s with
  | Some _ => true
  | None => false
  end.

(** A thrown [Error]: [error.response?.status] and [error.message]. *)
Record JsError := mkJsError {
  e_status : option Z;
  e_message : string
}.

(** The value of an [error] property: a message, or the [Error] object
    itself. *)
Inductive ErrorValue :=
| ErrText (message : string)
| ErrObject (error : JsError).

(** Truthiness of an optional [error] property. *)
Definition orError (x : option ErrorValue) (d : string) : ErrorValue :=
  match x with
  | Some (ErrText m) => if String.eqb m "" then ErrText d else ErrText m
  | Some (ErrObject e) => ErrObject e
  | None => ErrText d
  end.

End Js.

(* ====================================================================== *)
(** ** Text *)
(* ====================================================================== *)

(** Strings are sequences of code units below 256 (Latin-1), which is all
    the functions below are meant for: ad unit names and domains. *)
Module JsString.

(** The class [\s] of regular expressions: tab, line feed, vertical tab,
    form feed, carriage return, space and no-break space. *)
Definition isSpace (c : ascii) : bool :=
  let n := N_of_ascii c in
  ((9 <=? n) && (n <=? 13) || (n =? 32) || (n =? 160))%N.

(** The lower-case letter of an upper-case one, [A-Z] and [À-Þ] without the
    multiplication sign; every other character is kept. *)
Definition lowerChar (c : ascii) : ascii :=
  let n := N_of_ascii c in
  if ((65 <=? n) && (n <=? 90)
      || (192 <=? n) && (n <=? 222) && negb (n =? 215))%N
  then ascii_of_N (n + 32)
  else c.

(** [s.toLowerCase()] *)
Fixpoint toLowerCase (s : string) : string :=
  match s with
  | EmptyString => EmptyString
  | String c s' => String (lowerChar c) (toLowerCase s')
  end.

(** [s.endsWith(suffix)] *)
Definition endsWith (suffix s : string) : bool :=
  (String.length suffix <=? String.length s)%nat
  && String.eqb (substring (String.length s - String.length suffix)
                           (String.length suffix) s)
                suffix.

(** [s] without its last [String.length suffix] characters. *)
Definition withoutSuffix (suffix s : string) : string :=
  substring 0 (String.length s - String.length suffix) s.

(** The class [[a-z]]. *)
Definition isLowerLetter (c : ascii) : bool :=
  let n := N_of_ascii c in ((97 <=? n) && (n <=? 122))%N.

End JsString.

(* ====================================================================== *)
(** ** Plain objects used as dictionaries *)
(* ====================================================================== *)

Module JsObject.

Section Obj.
Context {V : Type}.

(** Own properties in creation order. *)
Definition t : Type := list (string * V).

(** [o[k]] *)
Fixpoint get (k : string) (o : t) : option V :=
  match o with
  | [] => None
  | (k', v) :: o' => if String.eqb k k' then Some v else get k o'
  end.

(** [o[k] = v]: an existing property keeps its place. *)
Fixpoint set (k : string) (v : V) (o : t) : t :=
  match o with
  | [] => [(k, v)]
  | (k', v') :: o' =>
      if String.eqb k k' then (k', v) :: o' else (k', v') :: set k v o'
  end.

(** In-place mutation of the object stored under [k]. *)
Fixpoint update (k : string) (f : V -> V) (o : t) : t :=
  match o with
  | [] => []
  | (k', v') :: o' =>
      if String.eqb k k' then (k', f v') :: o' else (k', v') :: update k f o'
  end.
End Obj.

Arguments t V : clear implicits.

(** *** Enumeration order

    [Object.values] and [Object.entries] list the keys that are array
    indices first, in ascending numeric order, and then every other key in
    creation order. *)

Definition digit (c : ascii) : option N :=
  let n := N_of_ascii c in
  if ((48 <=? n) && (n <=? 57))%N then Some (n - 48)%N else None.

Fixpoint digits (s : string) (acc : N) : option N :=
  match s with
  | EmptyString => Some acc
  | String c s' =>
      match digit c with
      | Some d => digits s' (10 * acc + d)%N
      | None => None
      end
  end.

(** The canonical decimal strings of the integers 0 .. 2^32 - 2. *)
Definition arrayIndex (s : string) : option N :=
  match s with
  | EmptyString => None
  | String c EmptyString => digit c
  | String c _ =>
      if Ascii.eqb c "0"%char then None
      else match digits s 0 with
           | Some n => if (n <=? 4294967294)%N then Some n else None
           | None => None
           end
  end.

Section Order.
Context {V : Type}.

Fixpoint insertIdx (e : N * (string * V)) (l : list (N * (string * V)))
  : list (N * (string * V)) :=
  match l with
  | [] => [e]
  | e' :: l' =>
      if (fst e <? fst e')%N then e :: l else e' :: insertIdx e l'
  end.

Definition sortIdx (l : list (N * (string * V))) : list (N * (string * V)) :=
  fold_right insertIdx [] l.

Definition indexed (o : t V) : list (N * (string * V)) :=
  omap (fun e => match arrayIndex (fst e) with
                 | Some n => Some (n, e)
                 | None => None
                 end) o.

Definition named (o : t V) : t V :=
  filter (fun e => arrayIndex (fst e) = None) (o : list (string * V)).

(** [Object.entries(o)] *)
Definition entries (o : t V) : list (string * V) :=
  map snd (sortIdx (indexed o)) ++ named o.

(** [Object.values(o)] *)
Definition values (o : t V) : list V := map snd (entries o).
End Order.

(** *** Grouping

    The idiom [if (!m[key]) m[key] = init; m[key].field += ...] shared by
    [aggregateDays] and [aggregateMetrics], and the value it leaves under
    one key. *)

Section Group.
Context {R G : Type}.
Variable key : R -> string.
Variable init : string -> R -> G.
Variable step : G -> R -> G.




End Group.

End JsObject.

(* ====================================================================== *)
(** ** Report objects *)
(* ====================================================================== *)

Module Data.

(** One row of a report.  Rows travel as JSON, so every property may be
    missing.  [r_adUnitName], [r_orderName], [r_lineItemName] are the
    dimension properties written by [transformReportData];
    [r_ad_unit_name], [r_order_name], [r_line_item_name] and [r_name] are
    the properties read by [aggregateMetrics]. *)
Record Row := mkRow {
  r_date : option string;
  r_impressions : option Qc;
  r_clicks : option Qc;
  r_ctr : option Qc;
  r_revenue : option Qc;
  r_ecpm : option Qc;
  r_unfilled : option Qc;
  r_unfilled_impressions : option Qc;
  r_adUnitName : option string;
  r_domain : option string;
  r_orderName : option string;
  r_lineItemName : option string;
  r_ad_unit_name : option string;
  r_order_name : option string;
  r_line_item_name : option string;
  r_name : option string;
  r_original_currency : option string;
  r_accounts : option (list string);
  r_currencies : option (list string)
}.

Record Totals := mkTotals {
  t_impressions : Qc;
  t_clicks : Qc;
  t_revenue : Qc;
  t_unfilled_impressions : Qc;
  t_ctr : Qc;
  t_ecpm : Qc;
  t_requests_served : Qc;
  t_pmr : Qc;
  t_active_view : Qc
}.

(** [{ id, name, success, dataCount }] *)
Record AccountInfo := mkAccountInfo {
  ai_id : Z;
  ai_name : string;
  ai_success : bool;
  ai_dataCount : Z
}.

(** [{ account, error }] *)
Record FailedAccount := mkFailedAccount {
  fa_account : string;
  fa_error : Js.ErrorValue
}.

(** The body of a statistics response, which is also what the day store
    keeps for one day. *)
Record Report := mkReport {
  rep_success : bool;
  rep_data : option (list Row);
  rep_totals : option Totals;
  rep_FloatingNumbers : option (JsObject.t Qc);
  rep_accountCount : option Z;
  rep_successfulAccounts : option Z;
  rep_failedAccounts : option Z;
  rep_accounts : option (list AccountInfo);
  rep_errors : option (list FailedAccount);
  rep_message : option string;
  rep_error : option string
}.

(** What a route handler does with its [res] object: [res.json(body)] or
    [res.status(code).json(body)]. *)
Inductive Response :=
| Json (body : Report)
| Status (code : Z) (body : Report).

End Data.

(* ====================================================================== *)
(** ** gam-data-store.js: aggregation over days *)
(* ====================================================================== *)

Module Store.
Import Js Data.
Open Scope Qc_scope.

(** An element of the array returned by [getRangeData]:
    [{ date, data, updated_at }].  [de_data] is [None] when the stored
    text is the JSON [null]. *)
Record DayEntry := mkDayEntry {
  de_date : Z;
  de_data : option Report;
  de_updated_at : Z
}.

(** A value of [domainMap]. *)
Record Group := mkGroup {
  g_date : option string;
  g_impressions : Qc;
  g_clicks : Qc;
  g_revenue : Qc;
  g_unfilled : Qc;
  g_unfilled_impressions : Qc;
  g_adUnitName : string;
  g_domain : string;
  g_original_currency : string;
  g_accounts : list string;
  g_currencies : list string;
  g_ctr : Qc;
  g_ecpm : Qc
}.

(** [record.domain || record.adUnitName || 'unknown'] *)
Definition domainKey (record : Row) : string :=
  orStr (r_domain record) (orStr (r_adUnitName record) "unknown").

(** The object created for a key that is not yet in [domainMap].
    [accounts] and [currencies] are the record's own arrays when it has
    them: the pushes below go to those arrays, which nothing else reads
    afterwards. *)
Definition newGroup (key : string) (record : Row) : Group :=
  {| g_date := r_date record;
     g_impressions := 0; g_clicks := 0; g_revenue := 0;
     g_unfilled := 0; g_unfilled_impressions := 0;
     g_adUnitName := orStr (r_adUnitName record) "";
     g_domain := orStr (r_domain record) key;
     g_original_currency := orStr (r_original_currency record) "USD";
     g_accounts := orList (r_accounts record);
     g_currencies := orList (r_currencies record);
     g_ctr := 0; g_ecpm := 0 |}.

(** The body of the inner loop after [const d = domainMap[key]]. *)
Definition accumulate (d : Group) (record : Row) : Group :=
  {| g_date := g_date d;
     g_impressions := g_impressions d + or0 (r_impressions record);
     g_clicks := g_clicks d + or0 (r_clicks record);
     g_revenue := g_revenue d + or0 (r_revenue record);
     g_unfilled := g_unfilled d + or0 (r_unfilled record);
     g_unfilled_impressions :=
       g_unfilled_impressions d + or0 (r_unfilled_impressions record);
     g_adUnitName := g_adUnitName d;
     g_domain := g_domain d;
     g_original_currency := g_original_currency d;
     g_accounts := pushAllNew (g_accounts d) (orList (r_accounts record));
     g_currencies := pushAllNew (g_currencies d) (orList (r_currencies record));
     g_ctr := g_ctr d; g_ecpm := g_ecpm d |}.

(** One iteration of [for (const record of day.data)]. *)
Definition addRecord (domainMap : JsObject.t Group) (record : Row)
  : JsObject.t Group :=
  let key := domainKey record in
  let domainMap :=
    match JsObject.get key domainMap with
    | None => JsObject.set key (newGroup key record) domainMap
    | Some _ => domainMap
    end in
  JsObject.update key (fun d => accumulate d record) domainMap.

(** The variables of the outer loop. *)
Record Loop := mkLoop {
  domainMap : JsObject.t Group;
  allAccounts : list AccountInfo;
  accountCount : Z;
  successfulAccounts : Z;
  failedAccounts : Z
}.

Definition loop0 : Loop :=
  {| domainMap := []; allAccounts := []; accountCount := 0;
     successfulAccounts := 0; failedAccounts := 0 |}.

(** [day.accounts && day.accounts.length > allAccounts.length] *)
Definition longerAccounts (cur : list AccountInfo)
           (dayAccounts : option (list AccountInfo)) : list AccountInfo :=
  match dayAccounts with
  | Some l => if (length cur <? length l)%nat then l else cur
  | None => cur
  end.

(** One iteration of [for (const dayEntry of daysData)]. *)
Definition addDay (st : Loop) (dayEntry : DayEntry) : Loop :=
  match de_data dayEntry with
  | None => st
  | Some day =>
      match rep_data day with
      | None => st
      | Some records =>
          {| domainMap := fold_left addRecord records (domainMap st);
             allAccounts := longerAccounts (allAccounts st) (rep_accounts day);
             accountCount :=
               Z.max (accountCount st) (orZ (rep_accountCount day));
             successfulAccounts :=
               Z.max (successfulAccounts st) (orZ (rep_successfulAccounts day));
             failedAccounts :=
               Z.max (failedAccounts st) (orZ (rep_failedAccounts day)) |}
      end
  end.

(** [x > 0 ? parseFloat(((a / x) * k).toFixed(2)) : 0] *)
Definition ratio (a x k : Qc) : Qc :=
  if decide (0 < x) then toFixed2 ((a / x) * k) else 0.

(** The callback of [Object.values(domainMap).map]. *)
Definition finish (d : Group) : Group :=
  {| g_date := g_date d;
     g_impressions := g_impressions d; g_clicks := g_clicks d;
     g_revenue := g_revenue d; g_unfilled := g_unfilled d;
     g_unfilled_impressions := g_unfilled_impressions d;
     g_adUnitName := g_adUnitName d; g_domain := g_domain d;
     g_original_currency := g_original_currency d;
     g_accounts := g_accounts d; g_currencies := g_currencies d;
     g_ctr := ratio (g_clicks d) (g_impressions d) (num 100);
     g_ecpm := ratio (g_revenue d) (g_impressions d) (num 1000) |}.

Definition sumOf (f : Group -> Qc) (data : list Group) : Qc :=
  fold_left (fun acc d => acc + f d) data 0.

Definition totalsOf (data : list Group) : Totals :=
  let impressions := sumOf g_impressions data in
  let clicks := sumOf g_clicks data in
  let revenue := sumOf g_revenue data in
  let unfilled_impressions := sumOf g_unfilled_impressions data in
  let requests_served := impressions + unfilled_impressions in
  let pmr := ratio impressions requests_served (num 100) in
  {| t_impressions := impressions;
     t_clicks := clicks;
     t_revenue := revenue;
     t_unfilled_impressions := unfilled_impressions;
     t_ctr := ratio clicks impressions (num 100);
     t_ecpm := ratio revenue impressions (num 1000);
     t_requests_served := requests_served;
     t_pmr := pmr;
     t_active_view := pmr |}.

Definition floatingNumbersOf (data : list Group) (totals : Totals)
  : JsObject.t Qc :=
  let fn :=
    fold_left (fun fn d => JsObject.set (g_domain d) (toFixed2 (g_revenue d)) fn)
              data [] in
  let fn := JsObject.set "impressions" (t_impressions totals) fn in
  let fn := JsObject.set "clicks" (t_clicks totals) fn in
  let fn := JsObject.set "revenue" (toFixed2 (t_revenue totals)) fn in
  let fn := JsObject.set "ctr" (t_ctr totals) fn in
  let fn := JsObject.set "ecpm" (t_ecpm totals) fn in
  let fn := JsObject.set "pmr" (t_pmr totals) fn in
  let fn := JsObject.set "active_view" (t_active_view totals) fn in
  let fn := JsObject.set "requests_served" (t_requests_served totals) fn in
  JsObject.set "unfilled_impressions" (t_unfilled_impressions totals) fn.

(** A group as a row of the returned report. *)
Definition rowOfGroup (d : Group) : Row :=
  {| r_date := g_date d;
     r_impressions := Some (g_impressions d);
     r_clicks := Some (g_clicks d);
     r_ctr := Some (g_ctr d);
     r_revenue := Some (g_revenue d);
     r_ecpm := Some (g_ecpm d);
     r_unfilled := Some (g_unfilled d);
     r_unfilled_impressions := Some (g_unfilled_impressions d);
     r_adUnitName := Some (g_adUnitName d);
     r_domain := Some (g_domain d);
     r_orderName := None; r_lineItemName := None;
     r_ad_unit_name := None; r_order_name := None;
     r_line_item_name := None; r_name := None;
     r_original_currency := Some (g_original_currency d);
     r_accounts := Some (g_accounts d);
     r_currencies := Some (g_currencies d) |}.

(** The rows of the merged report, before they are packed as [Row]s. *)
Definition mergedGroups (daysData : list DayEntry) : list Group :=
  map finish (JsObject.values (domainMap (fold_left addDay daysData loop0))).

Definition aggregateDays (daysData : list DayEntry) : option Report :=
  match daysData with
  | [] => None
  | [dayEntry] => de_data dayEntry
  | _ =>
      let st := fold_left addDay daysData loop0 in
      let data := mergedGroups daysData in
      let totals := totalsOf data in
      Some {| rep_success := true;
              rep_data := Some (map rowOfGroup data);
              rep_totals := Some totals;
              rep_FloatingNumbers := Some (floatingNumbersOf data totals);
              rep_accountCount := Some (accountCount st);
              rep_successfulAccounts := Some (successfulAccounts st);
              rep_failedAccounts := Some (failedAccounts st);
              rep_accounts := Some (allAccounts st);
              rep_errors := None;
              rep_message := None;
              rep_error := None |}
  end.


(** *** Vocabulary for statements about [aggregateDays] *)






(** *** The table [gam_daily_data] *)

(** The columns of one row.  [dr_data] is [None] when the stored text is not
    valid JSON, [Some None] when it is the JSON [null]. *)
Record DayRow := mkDayRow {
  dr_data : option (option Report);
  dr_account_count : Z;
  dr_successful_accounts : Z;
  dr_updated_at : Z
}.

(** The database handle.  [UNIQUE(user_id, date, dimension_type)] makes the
    table a finite map.  [dbError] is the error SQLite reports, if any. *)
Record Db := mkDb {
  dayTable : gmap (Z * Z * string) DayRow;
  dbError : option string
}.

(** [{ data, updated_at }] *)
Record DayResult := mkDayResult {
  dres_data : option Report;
  dres_updated_at : Z
}.

Definition getDayData (db : Db) (userId date : Z) (dimensionType : string)
  : Settled (option DayResult) string :=
  match dbError db with
  | Some err => Rejected err
  | None =>
      match dayTable db !! (userId, date, dimensionType) with
      | None => Resolved None
      | Some row =>
          match dr_data row with
          | Some parsed => Resolved (Some (mkDayResult parsed (dr_updated_at row)))
          | None => Resolved None
          end
      end
  end.

(** The loop [while (current <= end) { allDates.push(...); current.setDate(...) }]:
    the dates from [startDate] to [endDate], both included. *)
Definition datesBetween (startDate endDate : Z) : list Z :=
  map (fun i => (startDate + Z.of_nat i)%Z)
      (seq 0 (Z.to_nat (endDate - startDate + 1))).

(** The row of one date as [getRangeData] maps it; rows whose text does not
    parse are dropped by [filter(Boolean)]. *)
Definition rangeEntry (db : Db) (userId : Z) (dimensionType : string) (date : Z)
  : option DayEntry :=
  match dayTable db !! (userId, date, dimensionType) with
  | Some row =>
      match dr_data row with
      | Some parsed => Some (mkDayEntry date parsed (dr_updated_at row))
      | None => None
      end
  | None => None
  end.

(** [SELECT ... WHERE date >= ? AND date <= ? ... ORDER BY date]: the rows of
    the range, in date order. *)
Definition getRangeData (db : Db) (userId startDate endDate : Z)
           (dimensionType : string) : Settled (list DayEntry) string :=
  match dbError db with
  | Some err => Rejected err
  | None =>
      Resolved (omap (rangeEntry db userId dimensionType)
                     (datesBetween startDate endDate))
  end.

(** [existingDates.has(d)] *)
Definition hasDate (existingDates : list Z) (d : Z) : bool :=
  existsb (Z.eqb d) existingDates.

Definition getMissingDates (db : Db) (userId startDate endDate : Z)
           (dimensionType : string) : Settled (list Z) string :=
  let allDates := datesBetween startDate endDate in
  match dbError db with
  | Some err => Rejected err
  | None =>
      let existingDates :=
        filter (fun d => bool_decide (is_Some (dayTable db !! (userId, d, dimensionType))))
               allDates in
      Resolved (filter (fun d => negb (hasDate existingDates d)) allDates)
  end.

Definition saveDayData (nowSec : Z) (db : Db) (userId date : Z)
           (dimensionType : string) (data : Report) : Settled Db string :=
  match dbError db with
  | Some err => Rejected err
  | None =>
      Resolved
        (mkDb (<[ (userId, date, dimensionType) :=
                   mkDayRow (Some (Some data))
                            (orZ (rep_accountCount data))
                            (orZ (rep_successfulAccounts data))
                            nowSec ]> (dayTable db))
              None)
  end.

(** [Math.floor((Date.now() - new Date(updated_at + 'Z').getTime()) / 60000)],
    with [updated_at] in seconds and [Date.now()] in milliseconds. *)
Definition ageMinutes (nowMs updated_at : Z) : Z :=
  ((nowMs - updated_at * 1000) / 60000)%Z.

Record DataInfoRow := mkDataInfoRow {
  di_updated_at : Z;
  di_account_count : Z;
  di_successful_accounts : Z;
  di_age_minutes : Z
}.

Definition getDataInfo (nowMs : Z) (db : Db) (userId date : Z)
           (dimensionType : string) : Settled (option DataInfoRow) string :=
  match dbError db with
  | Some err => Rejected err
  | None =>
      match dayTable db !! (userId, date, dimensionType) with
      | None => Resolved None
      | Some row =>
          Resolved (Some (mkDataInfoRow (dr_updated_at row)
                                        (dr_account_count row)
                                        (dr_successful_accounts row)
                                        (ageMinutes nowMs (dr_updated_at row))))
      end
  end.

(** *** [getDataForRange] *)

(** The [_data_info] property. *)
Record DataInfo := mkDataInfo {
  info_updated_at : Z;
  info_age_minutes : Z;
  info_is_stale : bool;
  info_from_store : bool;
  info_days_count : option nat
}.

(** The report with its [_data_info]. *)
Record RangeResult := mkRangeResult {
  rr_report : option Report;
  rr_info : DataInfo
}.

(** The callback of [daysData.reduce]. *)
Definition older (oldest : Z) (d : DayEntry) : Z :=
  if (de_updated_at d <? oldest)%Z then de_updated_at d else oldest.

Definition getDataForRange (nowMs : Z) (db : Db) (userId startDate endDate : Z)
           (dimensionType : string) : Settled (option RangeResult) string :=
  let today := (nowMs / 86400000)%Z in
  if (startDate =? endDate)%Z then
    match getDayData db userId startDate dimensionType with
    | Rejected err => Rejected err
    | Resolved None => Resolved None
    | Resolved (Some dayResult) =>
        let age := ageMinutes nowMs (dres_updated_at dayResult) in
        let isStale := (startDate =? today)%Z && (20 <? age)%Z in
        Resolved (Some (mkRangeResult
                          (dres_data dayResult)
                          (mkDataInfo (dres_updated_at dayResult) age isStale true None)))
    end
  else
    match getRangeData db userId startDate endDate dimensionType with
    | Rejected err => Rejected err
    | Resolved daysData =>
        let allDates := datesBetween startDate endDate in
        let existingDates := map de_date daysData in
        let missingDates := filter (fun d => negb (hasDate existingDates d)) allDates in
        if (0 <? length missingDates)%nat then Resolved None
        else
          match aggregateDays daysData, daysData with
          | Some aggregated, first :: _ =>
              let oldestUpdate := fold_left older daysData (de_updated_at first) in
              let age := ageMinutes nowMs oldestUpdate in
              Resolved (Some (mkRangeResult
                                (Some aggregated)
                                (mkDataInfo oldestUpdate age
                                            (hasDate allDates today && (20 <? age)%Z)
                                            true (Some (length daysData)))))
          | _, _ => Resolved None
          end
    end.

(** *** The smart worker *)

(** The module variables [workerRunning] and [userRequestInProgress]. *)
Record Flags := mkFlags {
  workerRunning : bool;
  userRequestInProgress : bool
}.

(** Everything the worker reads and writes. *)
Record World := mkWorld {
  flags : Flags;
  db : Db;
  upstreamCalls : list (Z * Z * string);
  cacheWrites : list (Z * Z * string * Report);
  sleeps : list Z
}.

(** What the worker awaits.  [gamGetMultiAccountStatistics] is the handler
    given to [init]; [busyAt i] is the value of [userRequestInProgress] that
    foreground requests have left behind when the worker resumes from its
    [i]-th wait. *)
Record Env := mkEnv {
  nowMs : Z;
  gamGetMultiAccountStatistics : Z -> Z -> string -> Response;
  gamCache : bool;
  adminUsers : Settled (list Z) string;
  busyAt : nat -> bool
}.

Definition setFlags (f : Flags) (w : World) : World :=
  mkWorld f (db w) (upstreamCalls w) (cacheWrites w) (sleeps w).

Definition setUserRequestActive (active : bool) (w : World) : World :=
  setFlags (mkFlags (workerRunning (flags w)) active) w.

Definition setWorkerRunning (running : bool) (w : World) : World :=
  setFlags (mkFlags running (userRequestInProgress (flags w))) w.

Definition isWorkerRunning (w : World) : bool := workerRunning (flags w).

(** The worker resumes from a wait: foreground requests have run meanwhile. *)
Definition resume (env : Env) (i : nat) (w : World) : World :=
  setUserRequestActive (busyAt env i) w.

(** The promise built around the fake [res] object. *)
Definition settle (r : Response) : Settled Report string :=
  match r with
  | Json body => Resolved body
  | Status code body =>
      if (400 <=? code)%Z then Rejected (orStr (rep_error body) "API Error")
      else Resolved body
  end.

Definition fetchAndStoreDay (env : Env) (w : World) (userId date : Z)
           (dimensionType : string) : World * Settled (option Report) string :=
  if userRequestInProgress (flags w) then (w, Resolved None)
  else
    let w := mkWorld (flags w) (db w)
                     (upstreamCalls w ++ [(userId, date, dimensionType)])
                     (cacheWrites w) (sleeps w) in
    match settle (gamGetMultiAccountStatistics env userId date dimensionType) with
    | Rejected err => (w, Rejected err)
    | Resolved result =>
        match saveDayData (nowMs env / 1000) (db w) userId date dimensionType result with
        | Rejected err => (w, Rejected err)
        | Resolved db' =>
            let writes :=
              if gamCache env
              then (cacheWrites w ++ [(userId, date, dimensionType, result)])%list
              else cacheWrites w in
            (mkWorld (flags w) db' (upstreamCalls w) writes (sleeps w),
             Resolved (Some result))
        end
    end.

(** [!yesterdayInfo || successful_accounts < account_count || age_minutes > 360] *)
Definition shouldRefreshYesterday (yesterdayInfo : option DataInfoRow) : bool :=
  match yesterdayInfo with
  | None => true
  | Some info =>
      (di_successful_accounts info <? di_account_count info)%Z
      || (360 <? di_age_minutes info)%Z
  end.

(** The [try] block of [runSmartWorker]. *)
Definition workerBody (env : Env) (w : World) : World * Settled unit string :=
  match adminUsers env with
  | Rejected err => (w, Rejected err)
  | Resolved [] => (w, Resolved tt)
  | Resolved (userId :: _) =>
      let today := (nowMs env / 86400000)%Z in
      let hour := ((nowMs env / 3600000) mod 24)%Z in
      let dimensionType := "AD_UNIT" in
      match fetchAndStoreDay env (resume env 0 w) userId today dimensionType with
      | (w, Rejected err) => (w, Rejected err)
      | (w, Resolved _) =>
          if (3 <=? hour)%Z && (hour <=? 6)%Z then
            let yesterday := (today - 1)%Z in
            match getDataInfo (nowMs env) (db w) userId yesterday dimensionType with
            | Rejected err => (w, Rejected err)
            | Resolved yesterdayInfo =>
                if shouldRefreshYesterday yesterdayInfo then
                  let w := mkWorld (flags w) (db w) (upstreamCalls w)
                                   (cacheWrites w) (sleeps w ++ [15000%Z]) in
                  let w := resume env 1 w in
                  if userRequestInProgress (flags w) then (w, Resolved tt)
                  else
                    match fetchAndStoreDay env w userId yesterday dimensionType with
                    | (w, Rejected err) => (w, Rejected err)
                    | (w, Resolved _) => (w, Resolved tt)
                    end
                else (w, Resolved tt)
            end
          else (w, Resolved tt)
      end
  end.

(** What a call of [runSmartWorker] did. *)
Inductive Tick :=
| SkippedRunning
| SkippedUserRequest
| PassDone
| PassFailed (message : string).

Definition runSmartWorker (env : Env) (w : World) : World * Tick :=
  if workerRunning (flags w) then (w, SkippedRunning)
  else if userRequestInProgress (flags w) then (w, SkippedUserRequest)
  else
    let w := setWorkerRunning true w in
    match workerBody env w with
    | (w, Resolved _) => (setWorkerRunning false w, PassDone)
    | (w, Rejected err) => (setWorkerRunning false w, PassFailed err)
    end.

(** The value [manualRefresh] resolves to. *)
Record Outcome := mkOutcome {
  out_success : bool;
  out_error : option string;
  out_domains : option Z;
  out_accounts : option Z;
  out_total_accounts : option Z
}.

(** The message of the [TypeError] raised by reading [.data] of [null]. *)
Definition nullDataError : string :=
  "Cannot read properties of null (reading 'data')".

Definition manualRefresh (env : Env) (w : World) (userId date : Z)
           (dimensionType : string) : World * Outcome :=
  if workerRunning (flags w) then
    (w, mkOutcome false (Some "Worker is already running. Please wait.") None None None)
  else
    let w := setFlags (mkFlags true true) w in
    let (w, settled) := fetchAndStoreDay env w userId date dimensionType in
    let outcome :=
      match settled with
      | Resolved (Some result) =>
          mkOutcome true None
                    (Some (match rep_data result with
                           | Some rows => Z.of_nat (length rows)
                           | None => 0%Z
                           end))
                    (Some (orZ (rep_successfulAccounts result)))
                    (Some (orZ (rep_accountCount result)))
      | Resolved None => mkOutcome false (Some nullDataError) None None None
      | Rejected err => mkOutcome false (Some err) None None None
      end in
    (setFlags (mkFlags false false) w, outcome).

(** *** Passes in flight

    Between the synchronous prologue of a pass and its [finally] block the
    pass only waits and reads the flags; other handlers run in the gaps.  The
    transition system below keeps the prologue and the [finally] block of
    each function and forgets what happens in between. *)

Inductive Pass := WorkerPass | ManualPass.

Record Sched := mkSched {
  sflags : Flags;
  inFlight : list Pass
}.

(** The synchronous prologue of [runSmartWorker]: [None] when it returns at
    once. *)
Definition workerBegin (f : Flags) : option Flags :=
  if workerRunning f then None
  else if userRequestInProgress f then None
  else Some (mkFlags true (userRequestInProgress f)).

(** The synchronous prologue of [manualRefresh]. *)
Definition manualBegin (f : Flags) : option Flags :=
  if workerRunning f then None else Some (mkFlags true true).

(** The [finally] blocks. *)
Definition passFinally (p : Pass) (f : Flags) : Flags :=
  match p with
  | WorkerPass => mkFlags false (userRequestInProgress f)
  | ManualPass => mkFlags false false
  end.

Fixpoint removePass (p : Pass) (l : list Pass) : list Pass :=
  match l with
  | [] => []
  | q :: l' =>
      match p, q with
      | WorkerPass, WorkerPass | ManualPass, ManualPass => l'
      | _, _ => q :: removePass p l'
      end
  end.

Inductive Event :=
| TickArrives
| ManualArrives
| PassExits (p : Pass)
| ForegroundSets (active : bool).

Inductive step : Sched -> Event -> Sched -> Prop :=
| step_tick_start s f' :
    workerBegin (sflags s) = Some f' ->
    step s TickArrives (mkSched f' (WorkerPass :: inFlight s))
| step_tick_skip s :
    workerBegin (sflags s) = None ->
    step s TickArrives s
| step_manual_start s f' :
    manualBegin (sflags s) = Some f' ->
    step s ManualArrives (mkSched f' (ManualPass :: inFlight s))
| step_manual_skip s :
    manualBegin (sflags s) = None ->
    step s ManualArrives s
| step_exit s p :
    In p (inFlight s) ->
    step s (PassExits p) (mkSched (passFinally p (sflags s)) (removePass p (inFlight s)))
| step_foreground s active :
    step s (ForegroundSets active)
         (mkSched (mkFlags (workerRunning (sflags s)) active) (inFlight s)).

Inductive reachable : Sched -> Prop :=
| reach_init : reachable (mkSched (mkFlags false false) [])
| reach_step s e s' : reachable s -> step s e s' -> reachable s'.

(** The invariant of the passes in flight. *)
Definition singleFlight (s : Sched) : Prop :=
  match inFlight s with
  | [] => workerRunning (sflags s) = false
  | [_] => workerRunning (sflags s) = true
  | _ => False
  end.

End Store.

(* ====================================================================== *)
(** ** google-ad-manager.js *)
(* ====================================================================== *)

Module Gam.
Import Js Data.
Open Scope Qc_scope.

(** *** Currency conversion *)

(** [exchangeRatesCache.rates] *)
Record Rates := mkRates {
  USD : Qc;
  EUR : Qc;
  GBP : Qc;
  BRL : Qc
}.

(** The table the module starts with. *)
Definition fallbackRates : Rates :=
  mkRates (num 1) (frac 118 100) (frac 127 100) (frac 17 100).

(** [rates[fromCurrency]] *)
Definition rateOf (rates : Rates) (currency : string) : option Qc :=
  if String.eqb currency "USD" then Some (USD rates)
  else if String.eqb currency "EUR" then Some (EUR rates)
  else if String.eqb currency "GBP" then Some (GBP rates)
  else if String.eqb currency "BRL" then Some (BRL rates)
  else None.

Definition convertToUSD (rates : Rates) (amount : Qc) (fromCurrency : string) : Qc :=
  if String.eqb fromCurrency "USD" then amount
  else
    match rateOf rates fromCurrency with
    | Some rate => if decide (rate = 0) then amount else amount * rate
    | None => amount
    end.

(** *** Rows of an upstream report *)

(** A row of the upstream answer after [parseInt] / [parseFloat]:
    [api_dimension] is [dimensionValues[0]?.stringValue ||
    dimensionValues[0]?.intValue?.toString()]. *)
Record ApiRow := mkApiRow {
  api_dimension : option string;
  api_impressions : Qc;
  api_clicks : Qc;
  api_revenue : Qc;
  api_ecpm : Qc;
  api_ctr : Qc;
  api_unfilled : Qc
}.

Definition parseDateValue (nowIso : string) (dateValue : string) : string :=
  if String.eqb dateValue "" then nowIso
  else if (String.length dateValue =? 8)%nat then
    (substring 0 4 dateValue ++ "-" ++ substring 4 2 dateValue ++ "-"
       ++ substring 6 2 dateValue ++ "T00:00:00.000Z")%string
  else dateValue.

Section Transform.

(** [extractDomainFromAdUnit(adUnitName, accountDomain)], a text clean-up of
    the ad unit name; nothing below depends on what it returns. *)
Variable extractDomainFromAdUnit : string -> option string -> string.

(** [this.domain] of the client *)
Variable clientDomain : option string.

(** [new Date().toISOString()] *)
Variable nowIso : string.

(** The callback of [reportResult.rows.map]. *)
Definition transformRow (dimensionType : string) (row : ApiRow) : Row :=
  let dimensionValue := orStr (api_dimension row) "" in
  let base (date : string) (adUnitName domain orderName lineItemName : option string)
           (unfilled_impressions : option Qc) : Row :=
    {| r_date := Some date;
       r_impressions := Some (api_impressions row);
       r_clicks := Some (api_clicks row);
       r_ctr := Some (api_ctr row * num 100);
       r_revenue := Some (api_revenue row);
       r_ecpm := Some (api_ecpm row);
       r_unfilled := Some (api_unfilled row);
       r_unfilled_impressions := unfilled_impressions;
       r_adUnitName := adUnitName;
       r_domain := domain;
       r_orderName := orderName;
       r_lineItemName := lineItemName;
       r_ad_unit_name := None; r_order_name := None;
       r_line_item_name := None; r_name := None;
       r_original_currency := None;
       r_accounts := None; r_currencies := None |} in
  if String.eqb dimensionType "AD_UNIT" then
    base nowIso (Some dimensionValue)
         (Some (extractDomainFromAdUnit dimensionValue clientDomain))
         None None (Some (api_unfilled row))
  else if String.eqb dimensionType "ORDER" then
    base nowIso None None (Some dimensionValue) None None
  else if String.eqb dimensionType "LINE_ITEM" then
    base nowIso None None None (Some dimensionValue) None
  else if String.eqb dimensionType "DATE" then
    base (parseDateValue nowIso dimensionValue) None None None None None
  else base nowIso None None None None None.

Definition transformReportData (rows : list ApiRow) (dimensionType : string)
  : list Row :=
  map (transformRow dimensionType) rows.

End Transform.

(** *** The domain of an ad unit *)

(** The character class [[_\s]], whose complement the pattern
    [/^([^_\s]+)/i] collects: no character of it has another case. *)
Definition separator (c : ascii) : bool :=
  Ascii.eqb c "_"%char || JsString.isSpace c.

(** [adUnitName.match(/^([^_\s]+)/i)]: the longest prefix without underscore
    or white space; the match fails exactly when this prefix is empty. *)
Fixpoint leading (s : string) : string :=
  match s with
  | EmptyString => EmptyString
  | String c s' => if separator c then EmptyString else String c (leading s')
  end.

(** [extracted.replace(/^[a-z]{2}\./, '')]: a language prefix such as
    [es.] or [pt.] is dropped. *)
Definition dropLanguage (s : string) : string :=
  match s with
  | String a (String b (String "."%char rest)) =>
      if JsString.isLowerLetter a && JsString.isLowerLetter b then rest else s
  | _ => s
  end.

(** [s.replace(/\.com\.br$|\.com$|\.net\.br$|\.online$|\.info$|\.xyz$/, '')].
    No string ends with two of these suffixes, so the order in which they are
    tried does not matter. *)
Definition dropTld (s : string) : string :=
  if JsString.endsWith ".com.br" s then JsString.withoutSuffix ".com.br" s
  else if JsString.endsWith ".com" s then JsString.withoutSuffix ".com" s
  else if JsString.endsWith ".net.br" s then JsString.withoutSuffix ".net.br" s
  else if JsString.endsWith ".online" s then JsString.withoutSuffix ".online" s
  else if JsString.endsWith ".info" s then JsString.withoutSuffix ".info" s
  else if JsString.endsWith ".xyz" s then JsString.withoutSuffix ".xyz" s
  else s.

(** [accountDomain.toLowerCase().replace(...)], for a domain that is set. *)
Definition accountSite (accountDomain : option string) : string :=
  dropTld (JsString.toLowerCase (default "" accountDomain)).

Definition extractDomainFromAdUnit (adUnitName : string) (accountDomain : option string)
  : string :=
  if String.eqb adUnitName "" then orStr accountDomain "unknown"
  else if truthyStr accountDomain
          && (String.eqb (JsString.toLowerCase adUnitName) "default"
              || (String.length adUnitName <? 3)%nat)
  then accountSite accountDomain
  else
    let matched := leading adUnitName in
    if negb (String.eqb matched "") then
      let extracted := dropLanguage (JsString.toLowerCase matched) in
      if truthyStr accountDomain
         && (String.eqb extracted "default" || String.eqb extracted "unknown")
      then accountSite accountDomain
      else extracted
    else if truthyStr accountDomain then accountSite accountDomain
    else JsString.toLowerCase adUnitName.

(** *** One account *)

(** A row of [google_ad_manager_accounts]. *)
Record Account := mkAccount {
  id : Z;
  account_name : string;
  network_code : string;
  currency_code : option string;
  timezone : option string;
  domain : option string
}.

(** What [getAccountStatistics] returns. *)
Record AccountResult := mkAccountResult {
  accountId : Z;
  accountName : string;
  networkCode : string;
  currencyCode : option string;
  ar_timezone : option string;
  ar_success : bool;
  ar_error : option ErrorValue;
  ar_data : list Row
}.

(** What [accountClient.getStatistics] returns. *)
Record Stats := mkStats {
  st_success : bool;
  st_data : option (list Row);
  st_error : option string
}.

(** One pass through the [try] block: the token refresh or the report
    workflow threw, or the workflow returned. *)
Inductive Attempt :=
| Threw (error : JsError)
| Returned (stats : Stats).

(** The variable [lastError]. *)
Inductive LastError :=
| NoError
| Thrown (error : JsError)
| Reported (message : option string).

Definition is429 (error : JsError) : bool :=
  match e_status error with
  | Some status => (status =? 429)%Z
  | None => false
  end
  || strIncludes "429" (e_message error)
  || strIncludes "RESOURCE_EXHAUSTED" (e_message error).

(** [lastError?.message || lastError || 'Unknown error after retries'] *)
Definition finalError (lastError : LastError) : ErrorValue :=
  match lastError with
  | NoError => ErrText "Unknown error after retries"
  | Thrown error =>
      if String.eqb (e_message error) "" then ErrObject error
      else ErrText (e_message error)
  | Reported message => ErrText (orStr message "Unknown error after retries")
  end.

Definition failureResult (account : Account) (lastError : LastError)
  : AccountResult :=
  {| accountId := id account;
     accountName := account_name account;
     networkCode := network_code account;
     currencyCode := None;
     ar_timezone := None;
     ar_success := false;
     ar_error := Some (finalError lastError);
     ar_data := [] |}.

Definition successResult (account : Account) (stats : Stats) : AccountResult :=
  {| accountId := id account;
     accountName := account_name account;
     networkCode := network_code account;
     currencyCode := Some (orStr (currency_code account) "USD");
     ar_timezone := Some (orStr (timezone account) "America/New_York");
     ar_success := st_success stats;
     ar_error := None;
     ar_data := orList (st_data stats) |}.

(** What happened while fetching: how many attempts were made, and the
    waits, in milliseconds, in the order they were taken. *)
Record FetchLog := mkFetchLog {
  attempts : nat;
  waits : list Z
}.

Definition maxRetries : nat := 3.

(** [5000 * Math.pow(2, attempt - 1)] *)
Definition waitTime (attempt : nat) : Z :=
  (5000 * 2 ^ (Z.of_nat attempt - 1))%Z.

(** The loop [for (let attempt = 1; attempt <= maxRetries; attempt++)], with
    [remaining] the number of iterations still allowed. *)
Fixpoint retryLoop (upstream : nat -> Attempt) (account : Account)
         (remaining attempt : nat) (lastError : LastError) (log : FetchLog)
  : AccountResult * FetchLog :=
  match remaining with
  | O => (failureResult account lastError, log)
  | S remaining' =>
      let log := mkFetchLog (S (attempts log)) (waits log) in
      match upstream attempt with
      | Returned stats =>
          if st_success stats then (successResult account stats, log)
          else retryLoop upstream account remaining' (S attempt)
                         (Reported (st_error stats)) log
      | Threw error =>
          if is429 error && (attempt <? maxRetries)%nat then
            retryLoop upstream account remaining' (S attempt) (Thrown error)
                      (mkFetchLog (attempts log) (waits log ++ [waitTime attempt]))
          else (failureResult account (Thrown error), log)
      end
  end.

Definition getAccountStatistics (upstream : nat -> Attempt) (account : Account)
  : AccountResult * FetchLog :=
  retryLoop upstream account maxRetries 1 NoError (mkFetchLog 0 []).



(** *** Aggregation over accounts *)

(** The [switch] that defines [key]. *)
Definition groupKey (dimensionType : string) (accountName : string) (row : Row)
  : string :=
  let named (own : option string) : string :=
    (orStr own (orStr (r_name row) "Unknown") ++ " (" ++ accountName ++ ")")%string in
  if String.eqb dimensionType "AD_UNIT" then named (r_ad_unit_name row)
  else if String.eqb dimensionType "ORDER" then named (r_order_name row)
  else if String.eqb dimensionType "LINE_ITEM" then named (r_line_item_name row)
  else default "undefined" (r_date row).

(** [{ ...row, impressions: 0, clicks: 0, revenue: 0, original_currency,
    unfilled_impressions: 0, accounts: [], currencies: [] }] *)
Definition newAggregate (row : Row) (accountCurrency : string) : Row :=
  {| r_date := r_date row;
     r_impressions := Some 0;
     r_clicks := Some 0;
     r_ctr := r_ctr row;
     r_revenue := Some 0;
     r_ecpm := r_ecpm row;
     r_unfilled := r_unfilled row;
     r_unfilled_impressions := Some 0;
     r_adUnitName := r_adUnitName row;
     r_domain := r_domain row;
     r_orderName := r_orderName row;
     r_lineItemName := r_lineItemName row;
     r_ad_unit_name := r_ad_unit_name row;
     r_order_name := r_order_name row;
     r_line_item_name := r_line_item_name row;
     r_name := r_name row;
     r_original_currency := Some accountCurrency;
     r_accounts := Some [];
     r_currencies := Some [] |}.

(** The updates of [aggregated[key]] for one row. *)
Definition addToAggregate (accountName accountCurrency : string) (row : Row)
           (agg : Row) : Row :=
  {| r_date := r_date agg;
     r_impressions := Some (or0 (r_impressions agg) + or0 (r_impressions row));
     r_clicks := Some (or0 (r_clicks agg) + or0 (r_clicks row));
     r_ctr := r_ctr agg;
     r_revenue := Some (or0 (r_revenue agg) + or0 (r_revenue row));
     r_ecpm := r_ecpm agg;
     r_unfilled := r_unfilled agg;
     r_unfilled_impressions :=
       Some (or0 (r_unfilled_impressions agg) + or0 (r_unfilled_impressions row));
     r_adUnitName := r_adUnitName agg;
     r_domain := r_domain agg;
     r_orderName := r_orderName agg;
     r_lineItemName := r_lineItemName agg;
     r_ad_unit_name := r_ad_unit_name agg;
     r_order_name := r_order_name agg;
     r_line_item_name := r_line_item_name agg;
     r_name := r_name agg;
     r_original_currency := r_original_currency agg;
     r_accounts := Some (orList (r_accounts agg) ++ [accountName])%list;
     r_currencies := Some (pushNew (orList (r_currencies agg)) accountCurrency) |}.

(** The variables of the two nested [forEach] loops. *)
Record Sums := mkSums {
  aggregated : JsObject.t Row;
  totalImpressions : Qc;
  totalClicks : Qc;
  totalRevenue : Qc;
  totalUnfilled : Qc
}.

Definition sums0 : Sums := mkSums [] 0 0 0 0.

(** The body of [accountResult.data.forEach]. *)
Definition addRow (rates : Rates) (dimensionType accountName accountCurrency : string)
           (st : Sums) (row : Row) : Sums :=
  let key := groupKey dimensionType accountName row in
  let aggregated :=
    match JsObject.get key (aggregated st) with
    | None => JsObject.set key (newAggregate row accountCurrency) (aggregated st)
    | Some _ => aggregated st
    end in
  let revenueOriginal := or0 (r_revenue row) in
  let revenueInUSD := convertToUSD rates revenueOriginal accountCurrency in
  {| aggregated :=
       JsObject.update key (addToAggregate accountName accountCurrency row) aggregated;
     totalImpressions := totalImpressions st + or0 (r_impressions row);
     totalClicks := totalClicks st + or0 (r_clicks row);
     totalRevenue := totalRevenue st + revenueInUSD;
     totalUnfilled := totalUnfilled st + or0 (r_unfilled_impressions row) |}.

(** The body of [accountsData.forEach]. *)
Definition addAccount (rates : Rates) (dimensionType : string) (st : Sums)
           (accountResult : AccountResult) : Sums :=
  if negb (ar_success accountResult) then st
  else
    let accountCurrency := orStr (currencyCode accountResult) "USD" in
    fold_left (addRow rates dimensionType (accountName accountResult) accountCurrency)
              (ar_data accountResult) st.

(** [x > 0 ? (a / x) * k : 0], later passed through [toFixed(2)]. *)
Definition rate (a x k : Qc) : Qc :=
  if decide (0 < x) then toFixed2 ((a / x) * k) else toFixed2 0.

(** The callback of [Object.entries(aggregated).map]. *)
Definition finishRow (data : Row) : Row :=
  let impressions := or0 (r_impressions data) in
  {| r_date := r_date data;
     r_impressions := r_impressions data;
     r_clicks := r_clicks data;
     r_ctr := Some (rate (or0 (r_clicks data)) impressions (num 100));
     r_revenue := r_revenue data;
     r_ecpm := Some (rate (or0 (r_revenue data)) impressions (num 1000));
     r_unfilled := r_unfilled data;
     r_unfilled_impressions := r_unfilled_impressions data;
     r_adUnitName := r_adUnitName data;
     r_domain := r_domain data;
     r_orderName := r_orderName data;
     r_lineItemName := r_lineItemName data;
     r_ad_unit_name := r_ad_unit_name data;
     r_order_name := r_order_name data;
     r_line_item_name := r_line_item_name data;
     r_name := r_name data;
     r_original_currency := r_original_currency data;
     r_accounts := r_accounts data;
     r_currencies := r_currencies data |}.

(** [{ data, totals, FloatingNumbers }] *)
Record Aggregated := mkAggregated {
  ag_data : list Row;
  ag_totals : Totals;
  ag_FloatingNumbers : JsObject.t Qc
}.

Definition totalsOfSums (st : Sums) : Totals :=
  let totalRequests := totalImpressions st + totalUnfilled st in
  {| t_impressions := totalImpressions st;
     t_clicks := totalClicks st;
     t_revenue := totalRevenue st;
     t_unfilled_impressions := totalUnfilled st;
     t_ctr := rate (totalClicks st) (totalImpressions st) (num 100);
     t_ecpm := rate (totalRevenue st) (totalImpressions st) (num 1000);
     t_requests_served := totalRequests;
     t_pmr := rate (totalImpressions st) totalRequests (num 100);
     t_active_view :=
       rate (totalImpressions st - totalUnfilled st) (totalImpressions st) (num 100) |}.

Definition floatingNumbersOfTotals (t : Totals) : JsObject.t Qc :=
  [("impressions", t_impressions t); ("clicks", t_clicks t);
   ("revenue", t_revenue t); ("ctr", t_ctr t); ("ecpm", t_ecpm t);
   ("pmr", t_pmr t); ("active_view", t_active_view t);
   ("requests_served", t_requests_served t);
   ("unfilled_impressions", t_unfilled_impressions t)].

(** The state of the loops once every account has been visited. *)
Definition collect (rates : Rates) (accountsData : list AccountResult)
           (dimensionType : string) : Sums :=
  fold_left (addAccount rates dimensionType) accountsData sums0.

Definition aggregateMetrics (rates : Rates) (accountsData : list AccountResult)
           (dimensionType : string) : Aggregated :=
  let st := collect rates accountsData dimensionType in
  let totals := totalsOfSums st in
  {| ag_data := map (fun e => finishRow (snd e)) (JsObject.entries (aggregated st));
     ag_totals := totals;
     ag_FloatingNumbers := floatingNumbersOfTotals totals |}.

(** *** Vocabulary for statements about [aggregateMetrics] *)









(** *** All accounts of a user *)

Definition BATCH_SIZE : nat := 3.
Definition BATCH_DELAY_MS : Z := 6000.

(** What the handler awaits: the account query, the exchange-rate table in
    force after [getExchangeRates], and the settled promise of each
    account's fetch. *)
Record Env := mkEnv {
  activeAccounts : Settled (list Account) JsError;
  rates : Rates;
  fetchAccount : Account -> Settled AccountResult JsError
}.

(** The loop [for (let i = 0; i < accounts.length; i += BATCH_SIZE)]:
    the settled results in account order, and the pauses taken. *)
Fixpoint batchLoop (fetch : Account -> Settled AccountResult JsError)
         (fuel : nat) (accounts : list Account)
  : list (Settled AccountResult JsError) * list Z :=
  match fuel, accounts with
  | O, _ | _, [] => ([], [])
  | S fuel', _ =>
      let batch := firstn BATCH_SIZE accounts in
      let rest := skipn BATCH_SIZE accounts in
      let batchResults := map fetch batch in
      let pause := match rest with [] => [] | _ => [BATCH_DELAY_MS] end in
      let (more, pauses) := batchLoop fetch fuel' rest in
      ((batchResults ++ more)%list, (pause ++ pauses)%list)
  end.

(** [result.status === 'fulfilled' && result.value?.success === true] *)
Definition succeeded (result : Settled AccountResult JsError) : option AccountResult :=
  match result with
  | Resolved value => if ar_success value then Some value else None
  | Rejected _ => None
  end.

(** The callback of [accountsPromises.forEach], for the account at the same
    index. *)
Definition failureOf (account : Account) (result : Settled AccountResult JsError)
  : option FailedAccount :=
  match result with
  | Rejected reason =>
      Some (mkFailedAccount (account_name account)
                            (ErrText (orStr (Some (e_message reason)) "Unknown error")))
  | Resolved value =>
      if ar_success value then None
      else Some (mkFailedAccount (account_name account)
                                 (orError (ar_error value) "Unknown error (success=false)"))
  end.

Definition failuresOf (accounts : list Account)
           (results : list (Settled AccountResult JsError)) : list FailedAccount :=
  omap (fun p => failureOf (fst p) (snd p)) (zip accounts results).

Definition accountInfo (a : AccountResult) : AccountInfo :=
  mkAccountInfo (accountId a) (accountName a) (ar_success a)
                (Z.of_nat (length (ar_data a))).

Definition errorBody (message : string) : Report :=
  {| rep_success := false; rep_data := Some []; rep_totals := None;
     rep_FloatingNumbers := None; rep_accountCount := None;
     rep_successfulAccounts := None; rep_failedAccounts := None;
     rep_accounts := None; rep_errors := None; rep_message := None;
     rep_error := Some message |}.

Definition noAccountsBody : Report :=
  {| rep_success := true; rep_data := Some []; rep_totals := None;
     rep_FloatingNumbers := None; rep_accountCount := Some 0%Z;
     rep_successfulAccounts := None; rep_failedAccounts := None;
     rep_accounts := None; rep_errors := None;
     rep_message := Some "No active Google Ad Manager accounts found";
     rep_error := None |}.

Definition getMultiAccountStatistics (env : Env) (dimensionType : string)
  : Response * list Z :=
  match activeAccounts env with
  | Rejected error => (Status 500 (errorBody (e_message error)), [])
  | Resolved [] => (Json noAccountsBody, [])
  | Resolved accounts =>
      let (accountsPromises, pauses) :=
        batchLoop (fetchAccount env) (length accounts) accounts in
      let accountsData := omap succeeded accountsPromises in
      let failedAccounts := failuresOf accounts accountsPromises in
      let aggregatedResults := aggregateMetrics (rates env) accountsData dimensionType in
      (Json {| rep_success := true;
               rep_data := Some (ag_data aggregatedResults);
               rep_totals := Some (ag_totals aggregatedResults);
               rep_FloatingNumbers := Some (ag_FloatingNumbers aggregatedResults);
               rep_accountCount := Some (Z.of_nat (length accounts));
               rep_successfulAccounts := Some (Z.of_nat (length accountsData));
               rep_failedAccounts := Some (Z.of_nat (length failedAccounts));
               rep_accounts := Some (map accountInfo accountsData);
               rep_errors := match failedAccounts with
                             | [] => None
                             | _ => Some failedAccounts
                             end;
               rep_message := None;
               rep_error := None |},
       pauses)
  end.

(** *** Access tokens *)

(** The fields of a [GoogleAdManagerClient] that change: [accessToken] and
    [tokenExpiry], in milliseconds; [None] stands for a value that is
    [undefined], [null] or [NaN]. *)
Record Client := mkClient {
  accessToken : option string;
  tokenExpiry : option Z
}.

(** The body of an answer of the token endpoint. *)
Record TokenData := mkTokenData {
  access_token : option string;
  expires_in : option Z
}.

(** What a token request meets: the clock when the function is called, the
    answer of the token endpoint, and the clock when that answer arrives. *)
Record TokenEnv := mkTokenEnv {
  calledAt : Z;
  tokenEndpoint : Settled TokenData JsError;
  answeredAt : Z
}.

(** [this.accessToken && this.tokenExpiry && Date.now() < this.tokenExpiry] *)
Definition tokenValid (token : option string) (expiry : option Z) (now : Z) : bool :=
  truthyStr token
  && match expiry with
     | Some t => negb (t =? 0)%Z && (now <? t)%Z
     | None => false
     end.

Definition authError : JsError :=
  mkJsError None "Failed to authenticate with Google Ad Manager".

(** The client afterwards, whether the token endpoint was called, and the
    token or the error. *)
Definition getAccessToken (env : TokenEnv) (c : Client)
  : Client * bool * Settled (option string) JsError :=
  if tokenValid (accessToken c) (tokenExpiry c) (calledAt env)
  then (c, false, Resolved (accessToken c))
  else
    match tokenEndpoint env with
    | Resolved data =>
        (mkClient (access_token data)
                  (option_map (fun e => (answeredAt env + (e - 300) * 1000)%Z)
                              (expires_in data)),
         true, Resolved (access_token data))
    | Rejected _ => (c, true, Rejected authError)
    end.

(** The columns [access_token] and [token_expiry] of a row of
    [google_ad_manager_accounts]. *)
Record Credentials := mkCredentials {
  cr_access_token : option string;
  cr_token_expiry : option Z
}.

(** The table by account [id]; [accountsError] is the error SQLite reports,
    if any. *)
Record AccountsDb := mkAccountsDb {
  credentials : gmap Z Credentials;
  accountsError : option JsError
}.

(** [{ access_token, token_expiry: Date.now() + expires_in * 1000 }] *)
Definition refreshAccountToken (env : TokenEnv) : Settled Credentials JsError :=
  match tokenEndpoint env with
  | Resolved data =>
      Resolved (mkCredentials
                  (access_token data)
                  (option_map (fun e => (answeredAt env + e * 1000)%Z) (expires_in data)))
  | Rejected error => Rejected error
  end.

(** [account] is the row as it was read: [id] and the two columns.  The
    table afterwards, whether the token endpoint was called, and the token
    or the error. *)
Definition getValidAccessToken (env : TokenEnv) (accountId : Z) (account : Credentials)
           (db : AccountsDb) : AccountsDb * bool * Settled (option string) JsError :=
  if truthyStr (cr_access_token account)
     && match cr_token_expiry account with
        | Some t => negb (t =? 0)%Z && (calledAt env <? t - 300000)%Z
        | None => false
        end
  then (db, false, Resolved (cr_access_token account))
  else
    match refreshAccountToken env with
    | Rejected error => (db, true, Rejected error)
    | Resolved fresh =>
        match accountsError db with
        | Some error => (db, true, Rejected error)
        | None =>
            (mkAccountsDb
               (match credentials db !! accountId with
                | Some _ => <[accountId := fresh]> (credentials db)
                | None => credentials db
                end)
               None,
             true, Resolved (cr_access_token fresh))
        end
    end.

(** The client that [getAccountStatistics] builds for an attempt: the token
    just obtained, and the expiry time of the row as it was read. *)
Definition accountClient (accessToken : option string) (account : Credentials) : Client :=
  mkClient accessToken (cr_token_expiry account).

(** *** Polling *)

(** The body of a polled operation. *)
Record Operation := mkOperation {
  op_done : bool;
  op_reportResult : option string
}.

Definition pollTimeout : JsError :=
  mkJsError None "Report processing timeout - exceeded maximum polling attempts".

(** The loop [for (let attempt = 1; attempt <= maxAttempts; attempt++)] of
    [pollOperation], with [remaining] the number of iterations still
    allowed; the log counts the requests and lists the waits. *)
Fixpoint pollLoop (get : nat -> Settled Operation JsError) (remaining attempt : nat)
         (log : FetchLog) : Settled Operation JsError * FetchLog :=
  match remaining with
  | O => (Rejected pollTimeout, log)
  | S remaining' =>
      let log := mkFetchLog (S (attempts log)) (waits log) in
      match get attempt with
      | Resolved data =>
          if op_done data then (Resolved data, log)
          else pollLoop get remaining' (S attempt)
                        (mkFetchLog (attempts log) (waits log ++ [1000%Z]))
      | Rejected error => (Rejected error, log)
      end
  end.

Definition pollOperation (env : TokenEnv) (c : Client)
           (get : nat -> Settled Operation JsError) (maxAttempts : nat)
  : Client * (Settled Operation JsError * FetchLog) :=
  match getAccessToken env c with
  | (c, _, Rejected error) => (c, (Rejected error, mkFetchLog 0 []))
  | (c, _, Resolved _) => (c, pollLoop get maxAttempts 1 (mkFetchLog 0 []))
  end.

(** Case analysis on the 256 characters. *)
Ltac each_char c :=
  destruct c as [[] [] [] [] [] [] [] []]; try reflexivity; try discriminate.

End Gam.

(* ====================================================================== *)
(** ** redis-cache.js *)
(* ====================================================================== *)

Module Cache.
Import Js.

(** [gam:${userId}:${startDate}:${endDate}:${dimensionType}] *)
Definition generateCacheKey (userId : Z) (startDate endDate dimensionType : string)
  : string :=
  ("gam:" ++ pretty userId ++ ":" ++ startDate ++ ":" ++ endDate ++ ":"
     ++ dimensionType)%string.

(** A text that holds a colon, which a date [YYYY-MM-DD] does not. *)
Fixpoint hasColon (s : string) : bool :=
  match s with
  | EmptyString => false
  | String c s' => Ascii.eqb c ":"%char || hasColon s'
  end.

(** The commands sent to the Redis client. *)
Inductive RedisOp :=
| OpGet (key : string)
| OpSetEx (key : string)
| OpKeys (pattern : string)
| OpDel.

(** The hot tier: the module variables [redisEnabled] and [redisClient]
    (here: whether it is set), what the server holds (a text and the time it
    expires, in milliseconds), and which commands fail. *)
Record Redis := mkRedis {
  redisEnabled : bool;
  redisClient : bool;
  contents : gmap string (string * Z);
  throws : RedisOp -> bool
}.

(** A row of the table [gam_cache], which is unique on [cache_key]. *)
Record CacheRow := mkCacheRow {
  c_user_id : Z;
  c_data : string;
  c_start_date : string;
  c_end_date : string;
  c_dimension_type : string;
  c_expires_at : Z
}.

(** The durable tier; [sqliteError] is the error SQLite reports, if any. *)
Record Sqlite := mkSqlite {
  table : gmap string CacheRow;
  sqliteError : option string
}.

Record Tiers := mkTiers {
  redis : Redis;
  sqlite : Sqlite
}.

Section Tiered.

(** Cached values and their JSON text: [parse] is [JSON.parse], [None] when
    it throws; [truthy] is the test [if (value)]. *)
Context {V : Type}.
Variable parse : string -> option V.
Variable stringify : V -> string.
Variable truthy : V -> bool.

(** [Date.now()] *)
Variable now : Z.

Definition available (r : Redis) : bool := redisEnabled r && redisClient r.

Definition getFromRedis (r : Redis) (cacheKey : string) : option V :=
  if negb (available r) then None
  else if throws r (OpGet cacheKey) then None
  else
    match contents r !! cacheKey with
    | Some (cached, expires) =>
        if (now <? expires)%Z && negb (String.eqb cached "") then parse cached
        else None
    | None => None
    end.

Definition saveToRedis (r : Redis) (cacheKey : string) (data : V) (ttlSeconds : Z)
  : Redis :=
  if negb (available r) then r
  else if throws r (OpSetEx cacheKey) then r
  else mkRedis (redisEnabled r) (redisClient r)
               (<[cacheKey := (stringify data, (now + ttlSeconds * 1000)%Z)]> (contents r))
               (throws r).

Definition getFromSQLite (s : Sqlite) (userId : Z) (cacheKey : string)
  : Settled (option V) string :=
  match sqliteError s with
  | Some err => Rejected err
  | None =>
      match table s !! cacheKey with
      | Some row =>
          if (c_user_id row =? userId)%Z && (now <? c_expires_at row)%Z
          then Resolved (parse (c_data row))
          else Resolved None
      | None => Resolved None
      end
  end.

Definition saveToSQLite (s : Sqlite) (userId : Z) (cacheKey : string) (data : V)
           (startDate endDate dimensionType : string) (ttlSeconds : Z)
  : Settled Sqlite string :=
  match sqliteError s with
  | Some err => Rejected err
  | None =>
      Resolved
        (mkSqlite (<[cacheKey := mkCacheRow userId (stringify data) startDate endDate
                                            dimensionType (now + ttlSeconds * 1000)%Z]>
                     (table s))
                  None)
  end.

(** [if (value)] on a value that may be [null]. *)
Definition present (x : option V) : bool :=
  match x with
  | Some v => truthy v
  | None => false
  end.

Definition getCachedData (t : Tiers) (userId : Z) (startDate endDate dimensionType : string)
  : Tiers * Settled (option V) string :=
  let cacheKey := generateCacheKey userId startDate endDate dimensionType in
  let redisData := getFromRedis (redis t) cacheKey in
  if present redisData then (t, Resolved redisData)
  else
    match getFromSQLite (sqlite t) userId cacheKey with
    | Rejected err => (t, Rejected err)
    | Resolved sqliteData =>
        let r :=
          match sqliteData with
          | Some v =>
              if truthy v && redisEnabled (redis t)
              then saveToRedis (redis t) cacheKey v 300
              else redis t
          | None => redis t
          end in
        (mkTiers r (sqlite t), Resolved sqliteData)
    end.

(** [Promise.all] of the two writes: both are started, and the call fails
    only when one of them rejects. *)
Definition setCachedData (t : Tiers) (userId : Z) (startDate endDate dimensionType : string)
           (data : V) (ttlSeconds : Z) : Tiers * Settled unit string :=
  let cacheKey := generateCacheKey userId startDate endDate dimensionType in
  let r := saveToRedis (redis t) cacheKey data ttlSeconds in
  match saveToSQLite (sqlite t) userId cacheKey data startDate endDate dimensionType
                     ttlSeconds with
  | Rejected err => (mkTiers r (sqlite t), Rejected err)
  | Resolved s => (mkTiers r s, Resolved tt)
  end.

(** The keys matching [gam:${userId}:*]. *)
Definition userKey (userId : Z) (key : string) : bool :=
  String.prefix ("gam:" ++ pretty userId ++ ":")%string key.

Definition clearUserCache (t : Tiers) (userId : Z) : Tiers * Settled nat string :=
  let r := redis t in
  let r :=
    if negb (available r) then r
    else if throws r (OpKeys ("gam:" ++ pretty userId ++ ":*")%string) then r
    else
      let keys := filter (fun kv => userKey userId (fst kv) = true) (contents r) in
      if (0 <? size keys)%nat then
        if throws r OpDel then r
        else mkRedis (redisEnabled r) (redisClient r)
                     (filter (fun kv => userKey userId (fst kv) = false) (contents r))
                     (throws r)
      else r in
  match sqliteError (sqlite t) with
  | Some err => (mkTiers r (sqlite t), Rejected err)
  | None =>
      let kept := filter (fun kv => c_user_id (snd kv) <> userId) (table (sqlite t)) in
      (mkTiers r (mkSqlite kept None),
       Resolved (size (table (sqlite t)) - size kept)%nat)
  end.

(** [DELETE FROM gam_cache WHERE expires_at < ?] with the current time: the
    table afterwards and [this.changes]. *)
Definition clearExpiredCache (s : Sqlite) : Sqlite * Settled nat string :=
  match sqliteError s with
  | Some err => (s, Rejected err)
  | None =>
      let kept := filter (fun kv => ~ (c_expires_at (snd kv) < now)%Z) (table s) in
      (mkSqlite kept None, Resolved (size (table s) - size kept)%nat)
  end.

(** [{ total, valid, expired }]: the count of the user's rows and two
    [SUM]s, which are [NULL] over no row at all. *)
Record CacheStats := mkCacheStats {
  cs_total : nat;
  cs_valid : option nat;
  cs_expired : option nat
}.

Definition getCacheStats (s : Sqlite) (userId : Z) : Settled CacheStats string :=
  match sqliteError s with
  | Some err => Rejected err
  | None =>
      let rows := filter (fun kv => c_user_id (snd kv) = userId) (table s) in
      let valid := filter (fun kv => (now < c_expires_at (snd kv))%Z) rows in
      let expired := filter (fun kv => (c_expires_at (snd kv) <= now)%Z) rows in
      Resolved (if decide (size rows = 0%nat) then mkCacheStats 0 None None
                else mkCacheStats (size rows) (Some (size valid)) (Some (size expired)))
  end.

End Tiered.

End Cache.

(* ====================================================================== *)
(** ** facebook-cache.js *)
(* ====================================================================== *)

(** The in-memory cache behind the single-account statistics route and
    [clearGAMCache].  It keeps four [NodeCache] instances.  Of [node-cache]
    the module relies on this much, which is what [NodeCache] below does: an
    entry lives for the [stdTTL] seconds of its cache from the moment it is
    set; [get] of an entry past that moment deletes it and returns
    [undefined]; [keys] lists the entries still held.  Values are never
    [undefined]. *)
Module FbCache.
Import Js.

(** The keys of [caches] and of [CACHE_CONFIGS]. *)
Inductive Level := Short | Medium | Long | Insights.

(** [Object.keys(caches)] *)
Definition levels : list Level := [Short; Medium; Long; Insights].

Definition levelName (l : Level) : string :=
  match l with
  | Short => "short"
  | Medium => "medium"
  | Long => "long"
  | Insights => "insights"
  end.

(** [caches[cacheType]] *)
Definition levelOf (cacheType : string) : option Level :=
  if String.eqb cacheType "short" then Some Short
  else if String.eqb cacheType "medium" then Some Medium
  else if String.eqb cacheType "long" then Some Long
  else if String.eqb cacheType "insights" then Some Insights
  else None.

(** [CACHE_CONFIGS[type].ttl], which is the [stdTTL] of the cache. *)
Definition ttl (l : Level) : Z :=
  match l with
  | Short => 300
  | Medium => 900
  | Long => 3600
  | Insights => 1800
  end.

(** [generateCacheKey(prefix, params)]: the parameters by name in ascending
    order of code units, each as [name=JSON.stringify(value)], joined by
    [&]. *)
Section Keys.
Context {V : Type}.

(** [JSON.stringify] of a parameter as a template literal renders it. *)
Variable stringify : V -> string.

Fixpoint join (sep : string) (l : list string) : string :=
  match l with
  | [] => ""
  | [x] => x
  | x :: l' => x ++ sep ++ join sep l'
  end.

(** [Object.keys(params).sort()] *)
Definition sortedKeys (params : JsObject.t V) : list string :=
  merge_sort String.le (map fst (JsObject.entries params)).

(** [`${key}=${JSON.stringify(params[key])}`] *)
Definition renderParam (params : JsObject.t V) (key : string) : string :=
  (key ++ "="
       ++ match JsObject.get key params with
          | Some v => stringify v
          | None => "undefined"
          end)%string.

Definition generateCacheKey (prefix : string) (params : JsObject.t V) : string :=
  let sortedParams := join "&" (map (renderParam params) (sortedKeys params)) in
  if String.eqb sortedParams "" then prefix
  else (prefix ++ ":" ++ sortedParams)%string.

End Keys.

Section Cached.
Context {V : Type}.

(** A [NodeCache] is the finite map of the entries held: the value and the
    time of expiry, in milliseconds, of each; a time of 0 means that the
    entry never expires. *)

(** [cache.get(key)] *)
Definition ncGet (now : Z) (key : string) (c : gmap string (V * Z))
  : gmap string (V * Z) * option V :=
  match c !! key with
  | Some (v, t) =>
      if negb (t =? 0)%Z && (t <? now)%Z then (delete key c, None) else (c, Some v)
  | None => (c, None)
  end.

(** [cache.set(key, value)] *)
Definition ncSet (now stdTTL : Z) (key : string) (v : V) (c : gmap string (V * Z))
  : gmap string (V * Z) :=
  <[key := (v, if (stdTTL =? 0)%Z then 0%Z else (now + stdTTL * 1000)%Z)]> c.

(** [{ hits, misses }] *)
Record Stats := mkStats {
  hits : nat;
  misses : nat
}.

(** The module variables [caches] and [stats]. *)
Record State := mkState {
  short : gmap string (V * Z);
  medium : gmap string (V * Z);
  long : gmap string (V * Z);
  insights : gmap string (V * Z);
  shortStats : Stats; mediumStats : Stats; longStats : Stats; insightsStats : Stats
}.

Definition cacheOf (l : Level) (st : State) : gmap string (V * Z) :=
  match l with
  | Short => short st
  | Medium => medium st
  | Long => long st
  | Insights => insights st
  end.

Definition statsOf (l : Level) (st : State) : Stats :=
  match l with
  | Short => shortStats st
  | Medium => mediumStats st
  | Long => longStats st
  | Insights => insightsStats st
  end.

Definition withCache (l : Level) (c : gmap string (V * Z)) (st : State) : State :=
  match l with
  | Short => mkState c (medium st) (long st) (insights st)
                     (shortStats st) (mediumStats st) (longStats st) (insightsStats st)
  | Medium => mkState (short st) c (long st) (insights st)
                      (shortStats st) (mediumStats st) (longStats st) (insightsStats st)
  | Long => mkState (short st) (medium st) c (insights st)
                    (shortStats st) (mediumStats st) (longStats st) (insightsStats st)
  | Insights => mkState (short st) (medium st) (long st) c
                        (shortStats st) (mediumStats st) (longStats st) (insightsStats st)
  end.

Definition withStats (l : Level) (s : Stats) (st : State) : State :=
  match l with
  | Short => mkState (short st) (medium st) (long st) (insights st)
                     s (mediumStats st) (longStats st) (insightsStats st)
  | Medium => mkState (short st) (medium st) (long st) (insights st)
                      (shortStats st) s (longStats st) (insightsStats st)
  | Long => mkState (short st) (medium st) (long st) (insights st)
                    (shortStats st) (mediumStats st) s (insightsStats st)
  | Insights => mkState (short st) (medium st) (long st) (insights st)
                        (shortStats st) (mediumStats st) (longStats st) s
  end.

(** What [cachedRequest] resolves to: the result of [fn] as it is, or the
    cached value with [_cached], [_cacheType] and [_cacheTimestamp]. *)
Inductive Answer :=
| Fresh (result : V)
| Cached (value : V) (cacheType : string) (cacheTimestamp : Z).

Definition invalidType (cacheType : string) : JsError :=
  mkJsError None ("Invalid cache type: " ++ cacheType
                    ++ ". Valid types: short, medium, long, insights").

(** [now] is the clock when the function is called, [fn] what [await fn()]
    gives and [settledAt] the clock at that moment.  The state afterwards,
    whether [fn] was called, and the answer or the error. *)
Definition cachedRequest (now : Z) (st : State) (cacheType key : string)
           (fn : Settled V JsError) (settledAt : Z)
  : State * bool * Settled Answer JsError :=
  match levelOf cacheType with
  | None => (st, false, Rejected (invalidType cacheType))
  | Some l =>
      let (cache, cachedValue) := ncGet now key (cacheOf l st) in
      let st := withCache l cache st in
      match cachedValue with
      | Some value =>
          (withStats l (mkStats (S (hits (statsOf l st))) (misses (statsOf l st))) st,
           false, Resolved (Cached value cacheType now))
      | None =>
          let st := withStats l (mkStats (hits (statsOf l st))
                                         (S (misses (statsOf l st)))) st in
          match fn with
          | Rejected error => (st, true, Rejected error)
          | Resolved result =>
              (withCache l (ncSet settledAt (ttl l) key result (cacheOf l st)) st,
               true, Resolved (Fresh result))
          end
      end
  end.

(** [{ total, byType }] *)
Record Cleared := mkCleared {
  total : nat;
  byType : JsObject.t nat
}.

(** The callback of [typesToClear.forEach]. *)
Definition clearOne (pattern : option string) (acc : State * Cleared)
           (cacheType : string) : State * Cleared :=
  let (st, cleared) := acc in
  match levelOf cacheType with
  | None => (st, cleared)
  | Some l =>
      let cache := cacheOf l st in
      match pattern with
      | Some p =>
          if String.eqb p "" then
            (withCache l ∅ st,
             mkCleared (total cleared + size cache)
                       (JsObject.set cacheType (size cache) (byType cleared)))
          else
            let matchingKeys :=
              filter (fun kv => strIncludes p (fst kv) = true) cache in
            (withCache l (filter (fun kv => strIncludes p (fst kv) <> true) cache) st,
             mkCleared (total cleared + size matchingKeys)
                       (JsObject.set cacheType (size matchingKeys) (byType cleared)))
      | None =>
          (withCache l ∅ st,
           mkCleared (total cleared + size cache)
                     (JsObject.set cacheType (size cache) (byType cleared)))
      end
  end.

Definition clearCache (type pattern : option string) (st : State) : State * Cleared :=
  let typesToClear :=
    match type with
    | Some t => if String.eqb t "" then map levelName levels else [t]
    | None => map levelName levels
    end in
  fold_left (clearOne pattern) typesToClear (st, mkCleared 0 []).

(** The caches and the counters as the module is loaded. *)
Definition initial : State :=
  mkState ∅ ∅ ∅ ∅ (mkStats 0 0) (mkStats 0 0) (mkStats 0 0) (mkStats 0 0).

(** A call of the module from outside, with what it meets: the clock and,
    for [cachedRequest], the outcome of [fn]. *)
Inductive Call :=
| CachedRequest (now : Z) (cacheType key : string) (fn : Settled V JsError)
                (settledAt : Z)
| ClearCache (type pattern : option string).

Definition step (st : State) (call : Call) : State :=
  match call with
  | CachedRequest now cacheType key fn settledAt =>
      fst (fst (cachedRequest now st cacheType key fn settledAt))
  | ClearCache type pattern => fst (clearCache type pattern st)
  end.

(** The module after a sequence of calls. *)
Definition run (calls : list Call) : State := fold_left step calls initial.

(** The calls of [cachedRequest] for the cache [l]. *)
Definition asks (l : Level) (call : Call) : bool :=
  match call with
  | CachedRequest _ cacheType _ _ _ => String.eqb cacheType (levelName l)
  | ClearCache _ _ => false
  end.

End Cached.

End FbCache.

(* ====================================================================== *)
(** ** index.js: the statistics route *)
(* ====================================================================== *)

(** The handler of [GET /api/googleadmanager/statistics], which puts the
    modules above together: the day store first, then the Redis + SQLite
    cache, then the upstream, raced against a timer of 90 seconds.  The
    handler runs to completion on two readings of the clock: one as the
    request arrives and one as the upstream promise settles.  The dates of
    a request are calendar dates of the years 0000 to 9999, report bodies
    are JSON objects, and SQLite is in the same state of health for the
    whole of a request. *)
Module Route.
Import Js Data.

(** [parseInt(days)] of a [days] parameter that is not empty. *)
Inductive Days :=
| NotANumber
| Whole (n : Z).

(** [req.query] and [req.user.id].  [q_startDate], [q_endDate] and [q_days]
    are [None] for a parameter that is missing or empty, [q_dimensionType]
    for one that is missing. *)
Record Request := mkRequest {
  q_startDate : option Z;
  q_endDate : option Z;
  q_dimensionType : option string;
  q_days : option Days;
  user_id : Z
}.

(** The year, the month and the day of a day number, in the proleptic
    Gregorian calendar that [Date] uses. *)
Definition civil (day : Z) : Z * Z * Z :=
  let z := (day + 719468)%Z in
  let era := (z / 146097)%Z in
  let doe := (z - era * 146097)%Z in
  let yoe := ((doe - doe / 1460 + doe / 36524 - doe / 146096) / 365)%Z in
  let doy := (doe - (365 * yoe + yoe / 4 - yoe / 100))%Z in
  let mp := ((5 * doy + 2) / 153)%Z in
  let d := (doy - (153 * mp + 2) / 5 + 1)%Z in
  let m := if (mp <? 10)%Z then (mp + 3)%Z else (mp - 9)%Z in
  let y := (yoe + era * 400 + (if (m <=? 2)%Z then 1 else 0))%Z in
  (y, m, d).

Fixpoint zeros (n : nat) : string :=
  match n with
  | O => ""
  | S n' => String "0" (zeros n')
  end.

(** A number in [width] digits at least. *)
Definition padded (width : nat) (n : Z) : string :=
  (zeros (width - String.length (pretty n)) ++ pretty n)%string.

(** The text [YYYY-MM-DD] of a day number, which is what the cache takes
    for a date. *)
Definition isoDate (day : Z) : string :=
  let '(y, m, d) := civil day in
  (padded 4 y ++ "-" ++ padded 2 m ++ "-" ++ padded 2 d)%string.

(** The [RangeError] of [toISOString] on a time value that is [NaN] or
    beyond 100 000 000 days from the epoch. *)
Definition invalidTime : string := "Invalid time value".

(** [new Date(ms).toISOString().split("T")[0]], as a day number. *)
Definition isoDay (ms : Z) : Settled Z string :=
  if (Z.abs ms <=? 8640000000000000)%Z then Resolved (ms / 86400000)%Z
  else Rejected invalidTime.

(** [new Date(Date.now() - parseInt(days) * 24 * 60 * 60 * 1000)], as a day
    number. *)
Definition daysBefore (now : Z) (days : Days) : Settled Z string :=
  match days with
  | NotANumber => Rejected invalidTime
  | Whole n => isoDay (now - n * 86400000)
  end.

(** The variables [start] and [end] after the two [if] statements. *)
Definition requestedRange (now : Z) (req : Request) : Settled (Z * Z) string :=
  let today := (now / 86400000)%Z in
  let computed : Settled (option Z * option Z) string :=
    match q_days req, q_startDate req, q_endDate req with
    | Some days, None, None =>
        match daysBefore now days with
        | Rejected error => Rejected error
        | Resolved start => Resolved (Some start, Some today)
        end
    | _, startDate, endDate => Resolved (startDate, endDate)
    end in
  match computed with
  | Rejected error => Rejected error
  | Resolved (Some start, Some end_) => Resolved (start, end_)
  | Resolved _ =>
      match isoDay (now - 30 * 86400000) with
      | Rejected error => Rejected error
      | Resolved start => Resolved (start, today)
      end
  end.

(** What the handler awaits: [nowMs] is the clock as the request arrives,
    [upstream] what [gamGetMultiAccountStatistics] does with the [res] it
    is given for a request, and [elapsed] the milliseconds it takes to do
    so. *)
Record Env := mkEnv {
  nowMs : Z;
  upstream : Request -> Response;
  elapsed : Z
}.

(** What the handler reads and writes: the variables of the day store, the
    two tiers of the cache, and the requests handed to the upstream so
    far. *)
Record World := mkWorld {
  store : Store.World;
  tiers : Cache.Tiers;
  fetched : list Request
}.

(** The property [_cache_info] of an answer. *)
Record CacheInfo := mkCacheInfo {
  cached : bool;
  cache_type : string;
  cache_timestamp : Z
}.

(** What the handler sends: [res.json] of a report, with its [_data_info]
    when it has one, and [_cache_info]; or [res.status(code).json] of
    [{ success: false, error, data: [] }], with [timeout] when it is set. *)
Inductive Reply :=
| Sent (report : option Report) (data_info : option Store.DataInfo)
       (cache_info : CacheInfo)
| Failed (code : Z) (error : string) (timeout : bool).

Definition timeoutMs : Z := 90000.

Definition timeoutMessage : string := "TIMEOUT: GAM API took too long".

Definition tooLong : string :=
  "GAM API is taking too long. Data will be available once cached. Please try again in a few minutes.".

Definition withStore (s : Store.World) (w : World) : World :=
  mkWorld s (tiers w) (fetched w).

Definition withTiers (t : Cache.Tiers) (w : World) : World :=
  mkWorld (store w) t (fetched w).

Definition withDb (db : Store.Db) (s : Store.World) : Store.World :=
  Store.mkWorld (Store.flags s) db (Store.upstreamCalls s) (Store.cacheWrites s)
                (Store.sleeps s).

(** The [catch] block. *)
Definition caught (w : World) (message : string) : World * Reply :=
  (withStore (Store.setUserRequestActive false (store w)) w,
   if strIncludes "TIMEOUT" message then Failed 504 tooLong true
   else Failed 500 message false).

(** [Promise.race] of the upstream and the timer. *)
Definition raced (env : Env) (req : Request) : Settled Report string :=
  if (elapsed env <? timeoutMs)%Z then Store.settle (upstream env req)
  else Rejected timeoutMessage.

Section Handler.

(** [JSON.parse] and [JSON.stringify] on reports; [parse] is [None] for a
    text that does not parse, or that parses to [null]. *)
Variable parse : string -> option Report.
Variable stringify : Report -> string.

(** [if (cachedData)]: an object is truthy. *)
Definition truthy (cachedData : Report) : bool := true.

Definition statistics (env : Env) (w : World) (req : Request) : World * Reply :=
  let dimensionType := default "DATE" (q_dimensionType req) in
  let userId := user_id req in
  match requestedRange (nowMs env) req with
  | Rejected error => caught w error
  | Resolved (start, end_) =>
      match Store.getDataForRange (nowMs env) (Store.db (store w)) userId start end_
                                  dimensionType with
      | Rejected error => caught w error
      | Resolved (Some persistentData) =>
          (w, Sent (Store.rr_report persistentData)
                   (Some (Store.rr_info persistentData))
                   (mkCacheInfo true "persistent_store" (nowMs env)))
      | Resolved None =>
          let (t, cachedData) :=
            Cache.getCachedData parse stringify truthy (nowMs env) (tiers w) userId
                                (isoDate start) (isoDate end_) dimensionType in
          let w := withTiers t w in
          match cachedData with
          | Rejected error => caught w error
          | Resolved (Some cachedData) =>
              (w, Sent (Some cachedData) None
                       (mkCacheInfo true "redis_or_sqlite" (nowMs env)))
          | Resolved None =>
              let w := mkWorld (Store.setUserRequestActive true (store w)) (tiers w)
                               (fetched w ++ [req]) in
              match raced env req with
              | Rejected error => caught w error
              | Resolved result =>
                  let settledAt := (nowMs env + elapsed env)%Z in
                  let (t, saved) :=
                    Cache.setCachedData stringify settledAt (tiers w) userId
                                        (isoDate start) (isoDate end_) dimensionType
                                        result 300 in
                  let w := withTiers t w in
                  match saved with
                  | Rejected error => caught w error
                  | Resolved _ =>
                      let w :=
                        if (start =? end_)%Z then
                          match Store.saveDayData (settledAt / 1000) (Store.db (store w))
                                                  userId start dimensionType result with
                          | Resolved db' => withStore (withDb db' (store w)) w
                          | Rejected _ => w
                          end
                        else w in
                      (withStore (Store.setUserRequestActive false (store w)) w,
                       Sent (Some result) None (mkCacheInfo false "fresh" settledAt))
                  end
              end
          end
      end
  end.

End Handler.

End Route.

(* ====================================================================== *)
(** ** Sample data *)
(* ====================================================================== *)

Module Samples.
Import Js Data.

(** [{ domain, impressions, clicks, accounts }] *)
Definition domainRow (domain : string) (impressions clicks : Z)
           (accounts : list string) : Row :=
  mkRow None (Some (num impressions)) (Some (num clicks)) None None None None None
        None (Some domain) None None None None None None None (Some accounts) None.

(** A stored report with the rows given. *)
Definition reportOf (rows : list Row) : Report :=
  mkReport true (Some rows) None None None None None None None None None.

(** Two days (2025-01-12 and 2025-01-13, as day numbers) with one row each
    for [a.com]: 1 impression and 1 click, then 2 impressions and no click. *)
Definition twoDays : list Store.DayEntry :=
  [ Store.mkDayEntry 20100 (Some (reportOf [domainRow "a.com" 1 1 ["A"; "A"]])) 0;
    Store.mkDayEntry 20101 (Some (reportOf [domainRow "a.com" 2 0 ["B"]])) 0 ].

(** A store that holds the two days above for user 1 and nothing else. *)
Definition twoDayStore : Store.Db :=
  Store.mkDb
    (<[ (1%Z, 20100%Z, "AD_UNIT") :=
          Store.mkDayRow (Some (Some (reportOf [domainRow "a.com" 1 1 ["A"; "A"]]))) 1 1 0 ]>
       (<[ (1%Z, 20101%Z, "AD_UNIT") :=
             Store.mkDayRow (Some (Some (reportOf [domainRow "a.com" 2 0 ["B"]]))) 1 1 0 ]>
          ∅))
    None.

(** An idle worker over that store on 2025-01-15, and an upstream that
    answers every request with a report of one row. *)
Definition idleWorld : Store.World :=
  Store.mkWorld (Store.mkFlags false false) twoDayStore [] [] [].

Definition healthyEnv : Store.Env :=
  Store.mkEnv 1736899200000
              (fun _ _ _ => Json (reportOf [domainRow "a.com" 5 1 ["A"]]))
              true (Resolved [1%Z]) (fun _ => false).

(** An upstream row for the ad unit [adUnit] with the given impressions,
    unfilled impressions and revenue. *)
Definition adUnitRow (adUnit : string) (impressions unfilled : Z) (revenue : Qc)
  : Gam.ApiRow :=
  Gam.mkApiRow (Some adUnit) (num impressions) 0%Qc revenue 0%Qc 0%Qc (num unfilled).

(** [transformReportData] with a domain clean-up that keeps the name as it
    is. *)
Definition transformed (rows : list Gam.ApiRow) : list Row :=
  Gam.transformReportData (fun adUnit _ => adUnit) None "2025-01-15T00:00:00.000Z"
                          rows "AD_UNIT".

(** The result of a successful fetch for an account. *)
Definition fetched (accountId : Z) (name currency : string) (rows : list Gam.ApiRow)
  : Gam.AccountResult :=
  Gam.mkAccountResult accountId name "1234" (Some currency) None true None
                      (transformed rows).


(** One account with two ad units. *)
Definition twoAdUnits : list Gam.AccountResult :=
  [ fetched 1 "Conta A" "USD"
            [ adUnitRow "site-a.com_top" 100 50 (num 3);
              adUnitRow "site-b.com_side" 40 0 (num 1) ] ].


(** Upstream behaviours for one account: the rate limit at every attempt, at
    the first attempt only, and a failure of another kind. *)
Definition rateLimited : JsError :=
  mkJsError (Some 429%Z) "Request failed with status code 429".

Definition forbidden : JsError :=
  mkJsError (Some 403%Z) "Request failed with status code 403".

Definition goodStats : Gam.Stats :=
  Gam.mkStats true (Some (transformed [adUnitRow "site-a.com_top" 100 50 (num 3)])) None.

Definition alwaysRateLimited (attempt : nat) : Gam.Attempt := Gam.Threw rateLimited.

Definition rateLimitedOnce (attempt : nat) : Gam.Attempt :=
  match attempt with
  | 1%nat => Gam.Threw rateLimited
  | _ => Gam.Returned goodStats
  end.

Definition contaA : Gam.Account :=
  Gam.mkAccount 1 "Conta A" "1234" (Some "USD") None None.

Definition contaB : Gam.Account :=
  Gam.mkAccount 2 "Conta B" "5678" (Some "EUR") None None.

(** A user with two accounts: the fetch of the first succeeds at its second
    attempt, the fetch of the second meets the rate limit every time. *)
Definition oneOfTwoFails : Gam.Env :=
  Gam.mkEnv (Resolved [contaA; contaB]) Gam.fallbackRates
            (fun account =>
               if (Gam.id account =? 1)%Z
               then Resolved (fst (Gam.getAccountStatistics rateLimitedOnce account))
               else Resolved (fst (Gam.getAccountStatistics alwaysRateLimited account))).

(** A cache whose Redis client is connected but fails at every command,
    over an empty durable tier; cached values are texts stored as they
    are. *)
Definition brokenRedis : Cache.Redis :=
  Cache.mkRedis true true ∅ (fun _ => true).

Definition brokenHotTier : Cache.Tiers :=
  Cache.mkTiers brokenRedis (Cache.mkSqlite ∅ None).

(** An empty cache whose Redis client is connected and works. *)
Definition emptyTiers : Cache.Tiers :=
  Cache.mkTiers (Cache.mkRedis true true ∅ (fun _ => false)) (Cache.mkSqlite ∅ None).

(** A cache whose hot tier works and is empty, and whose durable tier holds
    a report of user 1 for the first week of 2025 that expires at 600000. *)
Definition coldTiers : Cache.Tiers :=
  Cache.mkTiers
    (Cache.mkRedis true true ∅ (fun _ => false))
    (Cache.mkSqlite
       (<[ Cache.generateCacheKey 1 "2025-01-01" "2025-01-07" "AD_UNIT" :=
             Cache.mkCacheRow 1 "report" "2025-01-01" "2025-01-07" "AD_UNIT" 600000 ]> ∅)
       None).

(** The in-memory caches as the module starts: empty, no hit and no miss;
    the values are texts. *)
Definition emptyCaches : FbCache.State (V := string) :=
  FbCache.mkState ∅ ∅ ∅ ∅ (FbCache.mkStats 0 0) (FbCache.mkStats 0 0)
                  (FbCache.mkStats 0 0) (FbCache.mkStats 0 0).

Definition textParse (s : string) : option string := Some s.
Definition textStringify (s : string) : string := s.
Definition textTruthy (s : string) : bool := negb (String.eqb s "").

(** The statistics route on 2025-01-15 at 00:00 UTC, over the store above
    and an empty cache.  The upstream answers every request with a report
    of one row: after 2 seconds for [routeEnv], after 90 seconds for
    [slowEnv]. *)
Definition oneRow : Report := reportOf [domainRow "a.com" 5 1 ["A"]].

Definition routeEnv : Route.Env :=
  Route.mkEnv 1736899200000 (fun _ => Json oneRow) 2000.


Definition routeWorld : Route.World := Route.mkWorld idleWorld emptyTiers [].

(** One minute and one hour later, with an upstream that fails. *)
Definition soonEnv : Route.Env :=
  Route.mkEnv 1736899260000 (fun _ => Status 500 (reportOf [])) 2000.

Definition laterEnv : Route.Env :=
  Route.mkEnv 1736902800000 (fun _ => Status 500 (reportOf [])) 2000.

(** Requests of user 1 by ad unit: for 2025-01-15, and for 2025-01-12 to
    2025-01-15. *)
Definition todayRequest : Route.Request :=
  Route.mkRequest (Some 20103%Z) (Some 20103%Z) (Some "AD_UNIT") None 1.

Definition rangeRequest : Route.Request :=
  Route.mkRequest (Some 20100%Z) (Some 20103%Z) (Some "AD_UNIT") None 1.

(** A JSON codec that knows the report [oneRow] only. *)
Definition stringifyOneRow (report : Report) : string := "oneRow".

Definition parseOneRow (text : string) : option Report :=
  if String.eqb text "oneRow" then Some oneRow else None.

End Samples.

(* ====================================================================== *)
(** ** Facts about dictionaries *)
(* ====================================================================== *)

Module JsObjectFacts.
Import JsObject.

Section Facts.
Context {V : Type}.
Implicit Types (o : t V) (k : string) (v : V).







Lemma get_In k v o : get k o = Some v -> In (k, v) o.
Proof.
  induction o as [|[k0 v0] o IH]; simpl; [discriminate|].
  destruct (String.eqb_spec k k0) as [->|Hk].
  - intros [= ->]. now left.
  - intros H. right. now apply IH.
Qed.

Lemma In_get k v o : NoDup (map fst o) -> In (k, v) o -> get k o = Some v.
Proof.
  induction o as [|[k0 v0] o IH]; simpl; [tauto|].
  intros Hnd [Heq|Hin].
  - injection Heq as -> ->. now rewrite String.eqb_refl.
  - apply NoDup_cons in Hnd as [Hnotin Hnd].
    destruct (String.eqb_spec k k0) as [->|Hk].
    + exfalso. apply Hnotin. apply list_elem_of_In.
      now apply (in_map fst) in Hin.
    + now apply IH.
Qed.


(** Enumeration is a rearrangement of the stored properties. *)






End Facts.

(** The value that grouping leaves under each key. *)

Section GroupFacts.
Context {R G : Type}.
Variable key : R -> string.
Variable init : string -> R -> G.
Variable step : G -> R -> G.







End GroupFacts.


(** [Object.entries] rearranges the stored properties and loses none. *)

Lemma insertIdx_Permutation {V} (e : N * (string * V)) l :
  insertIdx e l ≡ₚ e :: l.
Proof.
  induction l as [|e' l IH]; simpl; [reflexivity|].
  destruct (fst e <? fst e')%N; [reflexivity|].
  rewrite IH. apply Permutation_swap.
Qed.

Lemma sortIdx_Permutation {V} (l : list (N * (string * V))) : sortIdx l ≡ₚ l.
Proof.
  induction l as [|e l IH]; simpl; [reflexivity|].
  now rewrite insertIdx_Permutation, IH.
Qed.

Lemma entries_Permutation {V} (o : t V) : entries o ≡ₚ o.
Proof.
  unfold entries. rewrite sortIdx_Permutation. unfold indexed, named.
  induction o as [|e o IH]; [reflexivity|].
  cbn [omap list_omap]. rewrite filter_cons.
  destruct (arrayIndex (fst e)) as [n|] eqn:E.
  - rewrite decide_False by congruence. cbn [map snd app]. now rewrite IH.
  - rewrite decide_True by reflexivity. cbn [map app].
    rewrite <- Permutation_middle. now rewrite IH.
Qed.

Lemma length_entries {V} (o : t V) : length (entries o) = length o.
Proof. apply Permutation_length, entries_Permutation. Qed.

End JsObjectFacts.

(* ====================================================================== *)
(** ** Facts about JavaScript values *)
(* ====================================================================== *)

Module JsFacts.
Import Js.
Open Scope Qc_scope.







Lemma Qc_Some_eq (x y : Qc) : (x == y)%Q -> Some x = Some y.
Proof. intros H. f_equal. now apply Qc_is_canon. Qed.


Lemma sumBy_nil {A} (f : A -> Qc) : sumBy f [] = 0.
Proof. reflexivity. Qed.

Lemma sumBy_cons {A} (f : A -> Qc) x l : sumBy f (x :: l) = f x + sumBy f l.
Proof. reflexivity. Qed.

Lemma toFixed2_0 : toFixed2 0 = 0.
Proof. apply Qc_is_canon. reflexivity. Qed.


End JsFacts.

(* ====================================================================== *)
(** ** Sums over the groups of a dictionary *)
(* ====================================================================== *)

Module SumFacts.
Import Js JsObject JsObjectFacts JsFacts.
Open Scope Qc_scope.

Lemma sumBy_app {A} (f : A -> Qc) l1 l2 :
  sumBy f (l1 ++ l2) = sumBy f l1 + sumBy f l2.
Proof.
  induction l1 as [|x l1 IH]; cbn [app].
  - rewrite sumBy_nil. ring.
  - rewrite !sumBy_cons, IH. ring.
Qed.




Lemma sumBy_flat_map {A B} (g : A -> list B) (f : B -> Qc) l :
  sumBy f (flat_map g l) = sumBy (fun x => sumBy f (g x)) l.
Proof.
  induction l as [|x l IH]; cbn [flat_map]; [reflexivity|].
  now rewrite sumBy_app, sumBy_cons, IH.
Qed.


(** A quantity [mu] of the groups that every item increases by its own
    [nu], and that a new group starts at 0: summed over the dictionary, it
    is the sum of [nu] over the items seen. *)
Section Additive.
Context {R G : Type}.
Variable key : R -> string.
Variable init : string -> R -> G.
Variable step : G -> R -> G.
Variable mu : G -> Qc.
Variable nu : R -> Qc.
Hypothesis mu_init : forall k r, mu (init k r) = 0.
Hypothesis mu_step : forall g r, mu (step g r) = mu g + nu r.

Let total (m : t G) : Qc := sumBy (fun e => mu (snd e)) m.






End Additive.

End SumFacts.

(* ====================================================================== *)
(** ** Facts about the day store *)
(* ====================================================================== *)

Module StoreFacts.
Import Js Data Store JsObject JsObjectFacts JsFacts.
Open Scope Qc_scope.

(** *** The loops of [aggregateDays] *)










(** *** One group *)






(** *** [aggregateDays] *)

(** The merged report of two or more days. *)
Lemma aggregateDays_many d1 d2 rest :
  let daysData := d1 :: d2 :: rest in
  let st := fold_left addDay daysData loop0 in
  let data := mergedGroups daysData in
  aggregateDays daysData =
  Some {| rep_success := true;
          rep_data := Some (map rowOfGroup data);
          rep_totals := Some (totalsOf data);
          rep_FloatingNumbers := Some (floatingNumbersOf data (totalsOf data));
          rep_accountCount := Some (accountCount st);
          rep_successfulAccounts := Some (successfulAccounts st);
          rep_failedAccounts := Some (failedAccounts st);
          rep_accounts := Some (allAccounts st);
          rep_errors := None; rep_message := None; rep_error := None |}.
Proof. reflexivity. Qed.





(** On the same two days the first row lists the account [A] twice; the
    merged row keeps both and adds [B]. *)
Example aggregateDays_keeps_repeated_account :
  map g_accounts (mergedGroups Samples.twoDays) = [["A"; "A"; "B"]].
Proof. reflexivity. Qed.

(** *** [getDataForRange] *)

Lemma In_datesBetween startDate endDate date :
  In date (datesBetween startDate endDate) <-> (startDate <= date <= endDate)%Z.
Proof.
  unfold datesBetween. rewrite in_map_iff. split.
  - intros (i & <- & Hin). apply in_seq in Hin. lia.
  - intros H. exists (Z.to_nat (date - startDate)). split; [lia|].
    apply in_seq. lia.
Qed.

Lemma length_datesBetween startDate endDate :
  length (datesBetween startDate endDate) = Z.to_nat (endDate - startDate + 1).
Proof. unfold datesBetween. now rewrite length_map, length_seq. Qed.

Lemma hasDate_In existingDates d : hasDate existingDates d = true <-> In d existingDates.
Proof.
  unfold hasDate. rewrite existsb_exists. split.
  - intros (x & Hin & Heq). apply Z.eqb_eq in Heq. now subst.
  - intros Hin. exists d. split; auto. apply Z.eqb_refl.
Qed.

Lemma rangeEntry_date db userId dimensionType date entry :
  rangeEntry db userId dimensionType date = Some entry -> de_date entry = date.
Proof.
  unfold rangeEntry. destruct (dayTable db !! _) as [row|]; [|discriminate].
  destruct (dr_data row); [|discriminate]. now intros [= <-].
Qed.

Lemma In_range_dates db userId dimensionType dates d :
  In d (map de_date (omap (rangeEntry db userId dimensionType) dates)) <->
  In d dates /\ is_Some (rangeEntry db userId dimensionType d).
Proof.
  rewrite in_map_iff. split.
  - intros (entry & <- & Hin). apply list_elem_of_In, list_elem_of_omap in Hin.
    destruct Hin as (x & Hx & Hentry). apply list_elem_of_In in Hx.
    pose proof (rangeEntry_date _ _ _ _ _ Hentry) as ->.
    split; [exact Hx|]. rewrite Hentry. eauto.
  - intros (Hin & entry & Hentry). exists entry. split.
    + eapply rangeEntry_date; eauto.
    + apply list_elem_of_In, list_elem_of_omap. exists d.
      split; auto. now apply list_elem_of_In.
Qed.

(** The test [missingDates.length > 0]. *)
Lemma missing_iff db userId dimensionType startDate endDate :
  let allDates := datesBetween startDate endDate in
  let daysData := omap (rangeEntry db userId dimensionType) allDates in
  (0 <? length (filter (fun d => negb (hasDate (map de_date daysData) d)) allDates))%nat = true
  <-> exists d, (startDate <= d <= endDate)%Z
                /\ rangeEntry db userId dimensionType d = None.
Proof.
  cbv zeta. rewrite Nat.ltb_lt. split.
  - intros Hlen.
    destruct (filter _ (datesBetween startDate endDate)) as [|d l] eqn:E;
      [simpl in Hlen; lia|].
    assert (Hd : d ∈ filter (fun d => negb (hasDate (map de_date
                 (omap (rangeEntry db userId dimensionType)
                       (datesBetween startDate endDate))) d))
                            (datesBetween startDate endDate)).
    { rewrite E. apply list_elem_of_here. }
    apply list_elem_of_filter in Hd. destruct Hd as [Hno Hin].
    apply list_elem_of_In in Hin. exists d. split; [now apply In_datesBetween|].
    destruct (rangeEntry db userId dimensionType d) eqn:Hr; auto.
    exfalso. apply negb_prop_elim in Hno. apply Hno. apply Is_true_eq_left.
    apply hasDate_In, In_range_dates. split; [exact Hin|]. rewrite Hr. eauto.
  - intros (d & Hd & Hnone).
    assert (Hin : d ∈ filter (fun d => negb (hasDate (map de_date
                 (omap (rangeEntry db userId dimensionType)
                       (datesBetween startDate endDate))) d))
                            (datesBetween startDate endDate)).
    { apply list_elem_of_filter. split.
      - apply negb_prop_intro. intros H. apply Is_true_eq_true in H.
        apply hasDate_In, In_range_dates in H. destruct H as [_ [e He]]. congruence.
      - apply list_elem_of_In, In_datesBetween, Hd. }
    destruct (filter _ (datesBetween startDate endDate)); simpl; [|lia].
    now apply not_elem_of_nil in Hin.
Qed.



Lemma length_omap_total {A B} (f : A -> option B) l :
  (forall x, In x l -> is_Some (f x)) -> length (omap f l) = length l.
Proof.
  induction l as [|x l IH]; intros H; [reflexivity|].
  cbn [omap list_omap]. destruct (H x) as [y Hy]; [now left|].
  rewrite Hy. simpl. f_equal. apply IH. intros z Hz. apply H. now right.
Qed.

(** The dates 2025-01-12 to 2025-01-14 against a store that holds the first
    two: the third is missing. *)
Example getMissingDates_sample :
  getMissingDates Samples.twoDayStore 1 20100 20102 "AD_UNIT" = Resolved [20102%Z].
Proof. reflexivity. Qed.



(** When every date of the range has a row that parses, the answer is the
    aggregate of all of them. *)
Lemma getDataForRange_complete nowMs db userId startDate endDate dimensionType :
  (startDate < endDate)%Z ->
  dbError db = None ->
  (forall date, (startDate <= date <= endDate)%Z ->
                is_Some (rangeEntry db userId dimensionType date)) ->
  exists result daysData,
    getDataForRange nowMs db userId startDate endDate dimensionType
    = Resolved (Some result)
    /\ map de_date daysData = datesBetween startDate endDate
    /\ rr_report result = aggregateDays daysData
    /\ is_Some (aggregateDays daysData).
Proof.
  intros Hlt Herr Hall. unfold getDataForRange.
  destruct (Z.eqb_spec startDate endDate) as [Heq|_]; [lia|].
  unfold getRangeData. rewrite Herr.
  pose proof (missing_iff db userId dimensionType startDate endDate) as Hmiss.
  cbv zeta in Hmiss.
  destruct (0 <? length _)%nat eqn:Htest.
  { destruct Hmiss as [Hmiss _]. destruct (Hmiss eq_refl) as (d & Hd & Hnone).
    destruct (Hall d Hd) as [e He]. congruence. }
  clear Hmiss Htest.
  set (daysData := omap (rangeEntry db userId dimensionType)
                        (datesBetween startDate endDate)).
  assert (Hlen : length daysData = Z.to_nat (endDate - startDate + 1)).
  { subst daysData. rewrite length_omap_total, length_datesBetween; auto.
    intros x Hx. apply Hall. now apply In_datesBetween. }
  assert (Hdates : map de_date daysData = datesBetween startDate endDate).
  { subst daysData. clear Hlen.
    assert (H : forall x, In x (datesBetween startDate endDate) ->
                          is_Some (rangeEntry db userId dimensionType x)).
    { intros x Hx. apply Hall. now apply In_datesBetween. }
    induction (datesBetween startDate endDate) as [|x l IH]; [reflexivity|].
    cbn [omap list_omap]. destruct (H x) as [e He]; [now left|].
    rewrite He. cbn [map]. f_equal.
    - eapply rangeEntry_date; eauto.
    - apply IH. intros z Hz. apply H. now right. }
  destruct daysData as [|d1 [|d2 rest]] eqn:E; [simpl in Hlen; lia..|].
  rewrite aggregateDays_many. cbv zeta.
  eexists. exists (d1 :: d2 :: rest).
  split; [reflexivity|]. split; [exact Hdates|].
  cbn [rr_report]. rewrite aggregateDays_many. split; [reflexivity|eauto].
Qed.

(** *** The worker and [manualRefresh] *)

Lemma fetchAndStoreDay_busy env w userId date dimensionType :
  userRequestInProgress (flags w) = true ->
  fetchAndStoreDay env w userId date dimensionType = (w, Resolved None).
Proof. unfold fetchAndStoreDay. now intros ->. Qed.

(** C1.  Whatever the state and whatever the upstream would answer,
    [manualRefresh] never reports success, never calls the upstream and
    never writes to the store: with the worker idle it raises
    [userRequestInProgress] itself, so [fetchAndStoreDay] returns [null] at
    once and reading the result fails; with the worker running it refuses. *)
Theorem manualRefresh_never_fetches env w userId date dimensionType :
  out_success (snd (manualRefresh env w userId date dimensionType)) = false
  /\ upstreamCalls (fst (manualRefresh env w userId date dimensionType))
     = upstreamCalls w
  /\ db (fst (manualRefresh env w userId date dimensionType)) = db w
  /\ (workerRunning (flags w) = false ->
      out_error (snd (manualRefresh env w userId date dimensionType))
      = Some nullDataError)
  /\ (workerRunning (flags w) = true ->
      manualRefresh env w userId date dimensionType
      = (w, mkOutcome false (Some "Worker is already running. Please wait.")
                      None None None)).
Proof.
  unfold manualRefresh. destruct (workerRunning (flags w)) eqn:Hrun.
  - repeat split; auto; discriminate.
  - rewrite fetchAndStoreDay_busy by reflexivity.
    repeat split; auto; discriminate.
Qed.

(** The same on an idle worker whose upstream answers with a report. *)
Example manualRefresh_idle_fails :
  manualRefresh Samples.healthyEnv Samples.idleWorld 1 20102 "AD_UNIT"
  = (Samples.idleWorld, mkOutcome false (Some nullDataError) None None None).
Proof. reflexivity. Qed.

(** On the same state the worker's own call does fetch and store. *)
Example fetchAndStoreDay_idle_fetches :
  upstreamCalls
    (fst (fetchAndStoreDay Samples.healthyEnv Samples.idleWorld 1 20102 "AD_UNIT"))
  = [(1%Z, 20102%Z, "AD_UNIT")].
Proof. reflexivity. Qed.

Lemma singleFlight_reachable s : reachable s -> singleFlight s.
Proof.
  induction 1 as [|s e s' Hreach IH Hstep]; [reflexivity|].
  unfold singleFlight in *.
  destruct Hstep as [s f' Hb|s Hb|s f' Hb|s Hb|s p Hin|s active];
    cbn [inFlight sflags] in *; auto.
  - unfold workerBegin in Hb.
    destruct (workerRunning (sflags s)) eqn:Hrun; [discriminate|].
    destruct (userRequestInProgress (sflags s)); [discriminate|].
    injection Hb as <-.
    destruct (inFlight s) as [|p [|q l]]; [reflexivity|congruence|contradiction].
  - unfold manualBegin in Hb.
    destruct (workerRunning (sflags s)) eqn:Hrun; [discriminate|].
    injection Hb as <-.
    destruct (inFlight s) as [|p [|q l]]; [reflexivity|congruence|contradiction].
  - destruct (inFlight s) as [|q [|q' l]]; [destruct Hin| |contradiction].
    destruct Hin as [->|[]]. destruct p; reflexivity.
Qed.

(** The two functions are their prologue, their body and their [finally]
    block: the transition system and the functions share [workerBegin],
    [manualBegin] and [passFinally]. *)
Lemma runSmartWorker_frame env w :
  fst (runSmartWorker env w) =
  match workerBegin (flags w) with
  | None => w
  | Some started =>
      let w' := fst (workerBody env (setFlags started w)) in
      setFlags (passFinally WorkerPass (flags w')) w'
  end.
Proof.
  unfold runSmartWorker, workerBegin.
  destruct (workerRunning (flags w)); [reflexivity|].
  destruct (userRequestInProgress (flags w)) eqn:Hbusy; [reflexivity|].
  unfold setWorkerRunning. rewrite Hbusy. cbv zeta.
  now destruct (workerBody env _) as [w' [[]|err]].
Qed.

Lemma manualRefresh_frame env w userId date dimensionType :
  fst (manualRefresh env w userId date dimensionType) =
  match manualBegin (flags w) with
  | None => w
  | Some started =>
      let w' := fst (fetchAndStoreDay env (setFlags started w) userId date
                                      dimensionType) in
      setFlags (passFinally ManualPass (flags w')) w'
  end.
Proof.
  unfold manualRefresh, manualBegin.
  destruct (workerRunning (flags w)); [reflexivity|].
  cbv zeta. now destruct (fetchAndStoreDay env _ _ _ _).
Qed.

(** A tick starts a pass; a manual refresh and a second tick that arrive
    before it ends leave the state as it is. *)
Example second_tick_is_skipped :
  let busy := mkSched (mkFlags true false) [WorkerPass] in
  reachable busy /\ step busy TickArrives busy /\ step busy ManualArrives busy.
Proof.
  cbv zeta. split; [|split].
  - eapply reach_step; [apply reach_init|].
    now apply (step_tick_start (mkSched (mkFlags false false) [])).
  - now apply step_tick_skip.
  - now apply step_manual_skip.
Qed.

(** C8.  In every reachable state at most one pass is in flight, and one is
    in flight exactly when [workerRunning] is set.  A tick or a manual
    refresh that finds [workerRunning] set changes nothing; a tick that finds
    [userRequestInProgress] set changes nothing; and a pass that starts
    leaves [workerRunning] clear when it ends, whether its body completed or
    threw. *)
Theorem single_flight :
  (forall s, reachable s ->
             (length (inFlight s) <= 1)%nat
             /\ (workerRunning (sflags s) = true <-> inFlight s <> []))
  /\ (forall s s', workerRunning (sflags s) = true ->
                   step s TickArrives s' \/ step s ManualArrives s' -> s' = s)
  /\ (forall s s', userRequestInProgress (sflags s) = true ->
                   step s TickArrives s' -> s' = s)
  /\ (forall env w, workerRunning (flags w) = true ->
                    runSmartWorker env w = (w, SkippedRunning))
  /\ (forall env w userId date dimensionType,
         workerRunning (flags w) = true ->
         fst (manualRefresh env w userId date dimensionType) = w
         /\ out_success (snd (manualRefresh env w userId date dimensionType)) = false)
  /\ (forall env w, workerRunning (flags w) = false ->
                    userRequestInProgress (flags w) = true ->
                    runSmartWorker env w = (w, SkippedUserRequest))
  /\ (forall env w,
         workerRunning (flags w) = false ->
         userRequestInProgress (flags w) = false ->
         workerRunning (flags (fst (runSmartWorker env w))) = false
         /\ (snd (runSmartWorker env w) = PassDone
             \/ exists message, snd (runSmartWorker env w) = PassFailed message))
  /\ (forall env w userId date dimensionType,
         workerRunning (flags w) = false ->
         flags (fst (manualRefresh env w userId date dimensionType))
         = mkFlags false false)
  /\ (forall p f, workerRunning (passFinally p f) = false).
Proof.
  split.
  { intros s Hs. apply singleFlight_reachable in Hs. unfold singleFlight in Hs.
    destruct (inFlight s) as [|p [|q l]]; [| |contradiction].
    - split; [simpl; lia|]. rewrite Hs. split; [discriminate|congruence].
    - split; [simpl; lia|]. rewrite Hs. split; [discriminate|reflexivity]. }
  split.
  { intros s s' Hrun [Hstep|Hstep]; inversion Hstep; subst; auto.
    - unfold workerBegin in *. rewrite Hrun in *. discriminate.
    - unfold manualBegin in *. rewrite Hrun in *. discriminate. }
  split.
  { intros s s' Hbusy Hstep. inversion Hstep; subst; auto.
    unfold workerBegin in *. rewrite Hbusy in *.
    destruct (workerRunning (sflags s)); discriminate. }
  split.
  { intros env w Hrun. unfold runSmartWorker. now rewrite Hrun. }
  split.
  { intros env w userId date dimensionType Hrun.
    unfold manualRefresh. now rewrite Hrun. }
  split.
  { intros env w Hrun Hbusy. unfold runSmartWorker. now rewrite Hrun, Hbusy. }
  split.
  { intros env w Hrun Hbusy. unfold runSmartWorker. rewrite Hrun, Hbusy.
    destruct (workerBody env (setWorkerRunning true w)) as [w' [[]|err]];
      cbn [fst snd]; split; eauto. }
  split.
  { intros env w userId date dimensionType Hrun.
    unfold manualRefresh. rewrite Hrun.
    now destruct (fetchAndStoreDay _ _ _ _ _). }
  intros [] f; reflexivity.
Qed.

(** *** Totals of a merged report *)

Import SumFacts.




(** *** Writing a day and reading it back *)

(** What [saveDayData] writes under a user, a date and a dimension is what
    [getDayData], [getDataInfo] and the single-day path of
    [getDataForRange] return for them afterwards, stamped with the time of
    the write; the rows of every other user, date or dimension read as
    before. *)
Theorem saveDayData_then_read nowSec nowMs db userId date dimensionType data db' :
  saveDayData nowSec db userId date dimensionType data = Resolved db' ->
  getDayData db' userId date dimensionType
  = Resolved (Some (mkDayResult (Some data) nowSec))
  /\ getDataInfo nowMs db' userId date dimensionType
     = Resolved (Some (mkDataInfoRow nowSec
                                     (orZ (rep_accountCount data))
                                     (orZ (rep_successfulAccounts data))
                                     (ageMinutes nowMs nowSec)))
  /\ getDataForRange nowMs db' userId date date dimensionType
     = Resolved (Some (mkRangeResult
                         (Some data)
                         (mkDataInfo nowSec (ageMinutes nowMs nowSec)
                                     ((date =? nowMs / 86400000)%Z
                                      && (20 <? ageMinutes nowMs nowSec)%Z)
                                     true None)))
  /\ (forall u d dim,
         (u, d, dim) <> (userId, date, dimensionType) ->
         getDayData db' u d dim = getDayData db u d dim
         /\ getDataInfo nowMs db' u d dim = getDataInfo nowMs db u d dim).
Proof.
  unfold saveDayData. destruct (dbError db) as [err|] eqn:Herr; [discriminate|].
  intros [= <-].
  assert (Hget : getDayData
                   (mkDb (<[(userId, date, dimensionType) :=
                              mkDayRow (Some (Some data)) (orZ (rep_accountCount data))
                                       (orZ (rep_successfulAccounts data)) nowSec]>
                            (dayTable db)) None)
                   userId date dimensionType
                 = Resolved (Some (mkDayResult (Some data) nowSec))).
  { unfold getDayData. cbn [dbError dayTable]. now rewrite lookup_insert_eq. }
  split; [exact Hget|]. split; [|split].
  - unfold getDataInfo. cbn [dbError dayTable]. now rewrite lookup_insert_eq.
  - unfold getDataForRange. rewrite Z.eqb_refl, Hget. reflexivity.
  - intros u d dim Hne. unfold getDayData, getDataInfo.
    cbn [dbError dayTable]. rewrite Herr.
    rewrite lookup_insert_ne by congruence. split; reflexivity.
Qed.

(** (witness) Day 20102 written into the store of the two sample days. *)
Lemma saveDayData_then_read_witness :
  exists db',
    saveDayData 1736899200 Samples.twoDayStore 1 20102 "AD_UNIT"
                (Samples.reportOf []) = Resolved db'
    /\ getDayData db' 1 20102 "AD_UNIT"
       = Resolved (Some (mkDayResult (Some (Samples.reportOf [])) 1736899200)).
Proof.
  eexists. split; [reflexivity|].
  apply (saveDayData_then_read 1736899200 0 Samples.twoDayStore 1 20102 "AD_UNIT"
                               (Samples.reportOf []) _ eq_refl).
Defined.

(** *** The dates a range lacks *)





(** *** The age of an answer *)





(** *** What a tick of the worker fetches and stores *)

(** [fetchAndStoreDay] touches the flags and the pauses never, the table at
    the date it was asked for or not at all, and the upstream once at
    most. *)
Lemma fetchAndStoreDay_effect env w userId date dimensionType :
  let w' := fst (fetchAndStoreDay env w userId date dimensionType) in
  flags w' = flags w
  /\ sleeps w' = sleeps w
  /\ (upstreamCalls w' = upstreamCalls w
      \/ userRequestInProgress (flags w) = false
         /\ upstreamCalls w' = (upstreamCalls w ++ [(userId, date, dimensionType)])%list)
  /\ (forall k, k <> (userId, date, dimensionType) ->
                dayTable (db w') !! k = dayTable (db w) !! k)
  /\ (dbError (db w) = None -> dbError (db w') = None).
Proof.
  cbv zeta. unfold fetchAndStoreDay.
  destruct (userRequestInProgress (flags w)) eqn:Hbusy; [cbn [fst]; tauto|].
  destruct (settle _) as [result|err]; [|cbn [fst flags sleeps upstreamCalls db]; tauto].
  unfold saveDayData. cbn [db].
  destruct (dbError (db w)) as [err|]; cbn [fst flags sleeps upstreamCalls db];
    [split; [|split; [|split; [|split]]]; auto; discriminate|].
  split; [reflexivity|]. split; [reflexivity|]. split; [auto|]. split; [|reflexivity].
  intros k Hk. cbn [dayTable]. apply lookup_insert_ne. congruence.
Qed.

(** With no user request in the way, an upstream that answers and a store
    that accepts the write, [fetchAndStoreDay] stores the answer. *)
Lemma fetchAndStoreDay_stores env w userId date dimensionType body :
  userRequestInProgress (flags w) = false ->
  settle (gamGetMultiAccountStatistics env userId date dimensionType) = Resolved body ->
  dbError (db w) = None ->
  exists w1,
    fetchAndStoreDay env w userId date dimensionType = (w1, Resolved (Some body))
    /\ dayTable (db w1) !! (userId, date, dimensionType)
       = Some (mkDayRow (Some (Some body)) (orZ (rep_accountCount body))
                        (orZ (rep_successfulAccounts body)) (nowMs env / 1000)%Z)
    /\ dbError (db w1) = None
    /\ flags w1 = flags w
    /\ sleeps w1 = sleeps w
    /\ upstreamCalls w1 = (upstreamCalls w ++ [(userId, date, dimensionType)])%list.
Proof.
  intros Hbusy Hup Herr. unfold fetchAndStoreDay. rewrite Hbusy, Hup.
  unfold saveDayData. cbn [db]. rewrite Herr.
  eexists. split; [reflexivity|]. cbn [db dayTable dbError flags sleeps upstreamCalls].
  split; [apply lookup_insert_eq|]. repeat split.
Qed.

(** A tick that finds the worker idle, an administrator and an upstream
    that answers stores today's report for the first administrator, whatever
    happens to yesterday's afterwards, and leaves [workerRunning] cleared. *)
Theorem runSmartWorker_stores_today env w userId others body :
  flags w = mkFlags false false ->
  adminUsers env = Resolved (userId :: others) ->
  busyAt env 0 = false ->
  settle (gamGetMultiAccountStatistics env userId (nowMs env / 86400000)%Z "AD_UNIT")
  = Resolved body ->
  dbError (db w) = None ->
  let w' := fst (runSmartWorker env w) in
  getDayData (db w') userId (nowMs env / 86400000)%Z "AD_UNIT"
  = Resolved (Some (mkDayResult (Some body) (nowMs env / 1000)%Z))
  /\ workerRunning (flags w') = false
  /\ In (userId, (nowMs env / 86400000)%Z, "AD_UNIT") (upstreamCalls w').
Proof.
  intros Hflags Hadmin Hbusy Hup Herr. cbv zeta.
  set (today := (nowMs env / 86400000)%Z) in *.
  assert (Hbody : let w' := fst (workerBody env (setWorkerRunning true w)) in
                  dayTable (db w') !! (userId, today, "AD_UNIT")
                  = Some (mkDayRow (Some (Some body)) (orZ (rep_accountCount body))
                                   (orZ (rep_successfulAccounts body))
                                   (nowMs env / 1000)%Z)
                  /\ dbError (db w') = None
                  /\ In (userId, today, "AD_UNIT") (upstreamCalls w')).
  { cbv zeta. unfold workerBody. rewrite Hadmin. fold today.
    destruct (fetchAndStoreDay_stores env (resume env 0 (setWorkerRunning true w))
                                      userId today "AD_UNIT" body)
      as (w1 & Heq & Hrow & Hnone & _ & _ & Hcalls); [exact Hbusy|exact Hup|exact Herr|].
    rewrite Heq.
    assert (Hcall : In (userId, today, "AD_UNIT") (upstreamCalls w1)).
    { rewrite Hcalls. apply in_app_iff. right. now left. }
    pose (P := fun w' : World =>
                 dayTable (db w') !! (userId, today, "AD_UNIT")
                 = Some (mkDayRow (Some (Some body)) (orZ (rep_accountCount body))
                                  (orZ (rep_successfulAccounts body))
                                  (nowMs env / 1000)%Z)
                 /\ dbError (db w') = None
                 /\ In (userId, today, "AD_UNIT") (upstreamCalls w')).
    assert (HP1 : P w1) by (now split).
    assert (Hres : forall w2 i,
               P w2 ->
               P (resume env i (mkWorld (flags w2) (db w2) (upstreamCalls w2)
                                        (cacheWrites w2) (sleeps w2 ++ [15000%Z])))).
    { intros w2 i HP. exact HP. }
    assert (Hfetch : forall w2,
               P w2 -> P (fst (fetchAndStoreDay env w2 userId (today - 1)%Z "AD_UNIT"))).
    { intros w2 (H1 & H2 & H3).
      destruct (fetchAndStoreDay_effect env w2 userId (today - 1)%Z "AD_UNIT")
        as (_ & _ & Hc & Hframe & Herr3).
      split; [|split].
      - rewrite Hframe by (intros [= H]; lia). exact H1.
      - now apply Herr3.
      - destruct Hc as [->|[_ ->]]; [exact H3|]. apply in_app_iff. now left. }
    change (P (fst
      (if (3 <=? (nowMs env / 3600000) mod 24)%Z && ((nowMs env / 3600000) mod 24 <=? 6)%Z
       then
         match getDataInfo (nowMs env) (db w1) userId (today - 1)%Z "AD_UNIT" with
         | Rejected err => (w1, Rejected err)
         | Resolved yesterdayInfo =>
             if shouldRefreshYesterday yesterdayInfo
             then
               let w := mkWorld (flags w1) (db w1) (upstreamCalls w1)
                                (cacheWrites w1) (sleeps w1 ++ [15000%Z]) in
               let w := resume env 1 w in
               if userRequestInProgress (flags w) then (w, Resolved tt)
               else
                 match fetchAndStoreDay env w userId (today - 1)%Z "AD_UNIT" with
                 | (w, Rejected err) => (w, Rejected err)
                 | (w, Resolved _) => (w, Resolved tt)
                 end
             else (w1, Resolved tt)
         end
       else (w1, Resolved tt)))).
    destruct ((3 <=? _)%Z && (_ <=? 6)%Z); [|exact HP1].
    destruct (getDataInfo _ _ _ _ _) as [yesterdayInfo|err]; [|exact HP1].
    destruct (shouldRefreshYesterday yesterdayInfo); [|exact HP1].
    cbv zeta.
    destruct (userRequestInProgress _); [apply Hres, HP1|].
    specialize (Hfetch _ (Hres w1 1%nat HP1)).
    destruct (fetchAndStoreDay env _ userId (today - 1)%Z "AD_UNIT") as [w3 [r|e]];
      exact Hfetch. }
  unfold runSmartWorker. rewrite Hflags. cbn [workerRunning userRequestInProgress].
  cbv zeta in Hbody.
  destruct (workerBody env (setWorkerRunning true w)) as [w' [r|e]];
    cbn [fst] in *; destruct Hbody as (Hrow & Hnone & Hcall).
  all: split; [|split; [reflexivity|exact Hcall]].
  all: unfold getDayData; cbn [setWorkerRunning setFlags db]; now rewrite Hnone, Hrow.
Qed.

(** (witness) The sample worker on 2025-01-15 at 00:00 UTC. *)
Lemma runSmartWorker_stores_today_witness :
  getDayData (db (fst (runSmartWorker Samples.healthyEnv Samples.idleWorld)))
             1 (nowMs Samples.healthyEnv / 86400000)%Z "AD_UNIT"
  = Resolved (Some (mkDayResult
                      (Some (Samples.reportOf [Samples.domainRow "a.com" 5 1 ["A"]]))
                      (nowMs Samples.healthyEnv / 1000)%Z)).
Proof.
  exact (proj1 (runSmartWorker_stores_today
                  Samples.healthyEnv Samples.idleWorld 1 []
                  (Samples.reportOf [Samples.domainRow "a.com" 5 1 ["A"]])
                  eq_refl eq_refl eq_refl eq_refl eq_refl)).
Defined.

(** A tick calls the upstream twice at most, and only for the first
    administrator and the dimension AD_UNIT: for today, when no user request
    is in progress as the tick starts, and for yesterday, between 03:00 and
    06:59 UTC, after a pause of 15 seconds at the end of which no user
    request is in progress.  A tick that finds the worker running, a user
    request in progress or no administrator calls nothing. *)
Theorem runSmartWorker_fetches env w :
  let w' := fst (runSmartWorker env w) in
  let today := (nowMs env / 86400000)%Z in
  let hour := ((nowMs env / 3600000) mod 24)%Z in
  exists calls,
    upstreamCalls w' = (upstreamCalls w ++ calls)%list
    /\ (length calls <= 2)%nat
    /\ (forall call,
           In call calls ->
           flags w = mkFlags false false
           /\ exists userId others,
               adminUsers env = Resolved (userId :: others)
               /\ (call = (userId, today, "AD_UNIT") /\ busyAt env 0 = false
                   \/ call = (userId, (today - 1)%Z, "AD_UNIT")
                      /\ (3 <= hour <= 6)%Z
                      /\ busyAt env 1 = false
                      /\ sleeps w' = (sleeps w ++ [15000%Z])%list)).
Proof.
  cbv zeta. unfold runSmartWorker.
  assert (Hnil : forall w0 : World,
             upstreamCalls w0 = upstreamCalls w ->
             exists calls : list (Z * Z * string),
               upstreamCalls w0 = (upstreamCalls w ++ calls)%list
               /\ (length calls <= 2)%nat
               /\ (forall call,
                      In call calls ->
                      flags w = mkFlags false false
                      /\ exists userId others,
                          adminUsers env = Resolved (userId :: others)
                          /\ (call = (userId, (nowMs env / 86400000)%Z, "AD_UNIT")
                              /\ busyAt env 0 = false
                              \/ call = (userId, (nowMs env / 86400000 - 1)%Z, "AD_UNIT")
                                 /\ (3 <= (nowMs env / 3600000) mod 24 <= 6)%Z
                                 /\ busyAt env 1 = false
                                 /\ sleeps w0 = (sleeps w ++ [15000%Z])%list))).
  { intros w0 H0. exists []. rewrite app_nil_r. split; [exact H0|].
    split; [simpl; lia|]. intros ? []. }
  destruct (workerRunning (flags w)) eqn:Hrun; [now apply Hnil|].
  destruct (userRequestInProgress (flags w)) eqn:Hreq; [now apply Hnil|].
  assert (Hflags : flags w = mkFlags false false).
  { destruct (flags w); cbn in *; congruence. }
  unfold workerBody.
  destruct (adminUsers env) as [[|userId others]|err] eqn:Hadmin;
    cbn [fst]; try (now apply Hnil).
  rewrite <- Hadmin. clear Hnil.
  set (today := (nowMs env / 86400000)%Z).
  set (hour := ((nowMs env / 3600000) mod 24)%Z).
  set (wA := resume env 0 (setWorkerRunning true w)).
  destruct (fetchAndStoreDay_effect env wA userId today "AD_UNIT")
    as (Hf1 & Hs1 & Hc1 & _ & _).
  assert (HA : upstreamCalls wA = upstreamCalls w /\ sleeps wA = sleeps w
               /\ userRequestInProgress (flags wA) = busyAt env 0) by (now split).
  destruct HA as (HAc & HAs & HAb).
  destruct (fetchAndStoreDay env wA userId today "AD_UNIT") as [wB rB].
  cbn [fst] in Hf1, Hs1, Hc1.
  assert (HB : exists callsB,
             upstreamCalls wB = (upstreamCalls w ++ callsB)%list
             /\ (callsB = [] \/ callsB = [(userId, today, "AD_UNIT")]
                                /\ busyAt env 0 = false)).
  { destruct Hc1 as [Hc1|[Hb Hc1]]; rewrite Hc1, HAc.
    - exists []. rewrite app_nil_r. auto.
    - exists [(userId, today, "AD_UNIT")]. rewrite <- HAb. auto. }
  destruct HB as (callsB & HBc & HBcase).
  assert (Hstop : forall w0 : World,
             upstreamCalls w0 = upstreamCalls wB ->
             exists calls : list (Z * Z * string),
               upstreamCalls w0 = (upstreamCalls w ++ calls)%list
               /\ (length calls <= 2)%nat
               /\ (forall call,
                      In call calls ->
                      flags w = mkFlags false false
                      /\ exists userId others,
                          adminUsers env = Resolved (userId :: others)
                          /\ (call = (userId, today, "AD_UNIT") /\ busyAt env 0 = false
                              \/ call = (userId, (today - 1)%Z, "AD_UNIT")
                                 /\ (3 <= hour <= 6)%Z
                                 /\ busyAt env 1 = false
                                 /\ sleeps w0 = (sleeps w ++ [15000%Z])%list))).
  { intros w0 H0. exists callsB. rewrite H0. split; [exact HBc|]. split.
    - destruct HBcase as [->|[-> _]]; simpl; lia.
    - intros call Hin. split; [exact Hflags|]. exists userId, others.
      split; [exact Hadmin|]. left.
      destruct HBcase as [->|[-> Hb]]; [destruct Hin|].
      destruct Hin as [<-|[]]. auto. }
  destruct rB as [rB|errB]; [|now apply Hstop].
  destruct ((3 <=? hour)%Z && (hour <=? 6)%Z) eqn:Hhour; [|now apply Hstop].
  destruct (getDataInfo _ _ _ _ _) as [yesterdayInfo|errI]; [|now apply Hstop].
  destruct (shouldRefreshYesterday yesterdayInfo); [|now apply Hstop].
  cbv zeta.
  set (wC := resume env 1 _).
  assert (HC : upstreamCalls wC = upstreamCalls wB
               /\ sleeps wC = (sleeps w ++ [15000%Z])%list
               /\ userRequestInProgress (flags wC) = busyAt env 1).
  { subst wC. cbn. rewrite Hs1, HAs. auto. }
  destruct HC as (HCc & HCs & HCb).
  destruct (userRequestInProgress (flags wC)) eqn:HbC; [now apply Hstop|].
  destruct (fetchAndStoreDay_effect env wC userId (today - 1)%Z "AD_UNIT")
    as (_ & Hs2 & Hc2 & _ & _).
  set (wD := fst (fetchAndStoreDay env wC userId (today - 1)%Z "AD_UNIT")) in *.
  assert (Hlast : exists calls : list (Z * Z * string),
             upstreamCalls wD = (upstreamCalls w ++ calls)%list
             /\ (length calls <= 2)%nat
             /\ (forall call,
                    In call calls ->
                    flags w = mkFlags false false
                    /\ exists userId others,
                        adminUsers env = Resolved (userId :: others)
                        /\ (call = (userId, today, "AD_UNIT") /\ busyAt env 0 = false
                            \/ call = (userId, (today - 1)%Z, "AD_UNIT")
                               /\ (3 <= hour <= 6)%Z
                               /\ busyAt env 1 = false
                               /\ sleeps wD = (sleeps w ++ [15000%Z])%list))).
  { destruct Hc2 as [Hc2|[_ Hc2]].
    - rewrite Hs2, Hc2. destruct (Hstop wC HCc) as (calls & H1 & H2 & H3).
      exists calls. rewrite HCs in H3. rewrite HCs. auto.
    - exists (callsB ++ [(userId, (today - 1)%Z, "AD_UNIT")])%list.
      rewrite Hc2, HCc, HBc, app_assoc. split; [reflexivity|]. split.
      + rewrite length_app. destruct HBcase as [->|[-> _]]; simpl; lia.
      + intros call Hin. split; [exact Hflags|]. exists userId, others.
        split; [exact Hadmin|]. apply in_app_iff in Hin as [Hin|[<-|[]]].
        * left. destruct HBcase as [->|[-> Hb]]; [destruct Hin|].
          destruct Hin as [<-|[]]. auto.
        * right. split; [reflexivity|]. split.
          { apply andb_true_iff in Hhour as [H1 H2].
            apply Z.leb_le in H1, H2. lia. }
          split; [congruence|]. rewrite Hs2. exact HCs. }
  subst wD.
  destruct (fetchAndStoreDay env wC userId (today - 1)%Z "AD_UNIT") as [wD [rD|eD]];
    exact Hlast.
Qed.

End StoreFacts.

(* ====================================================================== *)
(** ** Facts about the aggregation over accounts *)
(* ====================================================================== *)

Module GamFacts.
Import Js Data Gam JsObject JsObjectFacts JsFacts.
Open Scope Qc_scope.

(** *** The loops of [aggregateMetrics] *)







(** *** Revenue and currency *)


(** *** Group keys *)

Lemma append_inj_l (p a b : string) : (p ++ a = p ++ b)%string -> a = b.
Proof. induction p as [|c p IH]; simpl; [auto|]. intros [= H]. auto. Qed.

Lemma length_append (a b : string) :
  String.length (a ++ b) = (String.length a + String.length b)%nat.
Proof. induction a as [|c a IH]; simpl; auto. Qed.

Lemma append_inj_r (a b s : string) :
  (a ++ s = b ++ s)%string -> a = b.
Proof.
  intros H.
  assert (Hlen : String.length a = String.length b).
  { apply (f_equal String.length) in H. rewrite !length_append in H. lia. }
  revert b H Hlen. induction a as [|c a IH]; intros [|c' b] H Hlen;
    simpl in *; try lia; auto.
  injection H as -> H. f_equal. apply IH; auto.
Qed.

Lemma groupKey_transformed extract clientDomain nowIso accountName row :
  groupKey "AD_UNIT" accountName (transformRow extract clientDomain nowIso "AD_UNIT" row)
  = ("Unknown (" ++ accountName ++ ")")%string
  /\ groupKey "ORDER" accountName (transformRow extract clientDomain nowIso "ORDER" row)
     = ("Unknown (" ++ accountName ++ ")")%string
  /\ groupKey "LINE_ITEM" accountName
              (transformRow extract clientDomain nowIso "LINE_ITEM" row)
     = ("Unknown (" ++ accountName ++ ")")%string.
Proof. repeat split. Qed.

(** C5.  For the dimensions AD_UNIT, ORDER and LINE_ITEM the key of a row
    that [transformReportData] produced is ["Unknown (" ++ account ++
    ")"], whatever the name of its ad unit, order or line item: the key is
    built from [ad_unit_name], [order_name], [line_item_name] or [name],
    and the rows carry [adUnitName], [orderName] or [lineItemName].  Rows of
    accounts with different names never share a key, but all rows of one
    account do: an account with the ad units [site-a.com_top] (100
    impressions) and [site-b.com_side] (40 impressions) yields a single row
    of 140 impressions under the name of the first. *)
Theorem groupKey_of_transformed_rows :
  (forall extract clientDomain nowIso accountName row,
      groupKey "AD_UNIT" accountName
               (transformRow extract clientDomain nowIso "AD_UNIT" row)
      = ("Unknown (" ++ accountName ++ ")")%string
      /\ groupKey "ORDER" accountName
                  (transformRow extract clientDomain nowIso "ORDER" row)
         = ("Unknown (" ++ accountName ++ ")")%string
      /\ groupKey "LINE_ITEM" accountName
                  (transformRow extract clientDomain nowIso "LINE_ITEM" row)
         = ("Unknown (" ++ accountName ++ ")")%string)
  /\ (forall extract clientDomain nowIso account account' row row',
         groupKey "AD_UNIT" account
                  (transformRow extract clientDomain nowIso "AD_UNIT" row)
         = groupKey "AD_UNIT" account'
                    (transformRow extract clientDomain nowIso "AD_UNIT" row') ->
         account = account')
  /\ (exists merged,
         ag_data (aggregateMetrics fallbackRates Samples.twoAdUnits "AD_UNIT") = [merged]
         /\ r_adUnitName merged = Some "site-a.com_top"
         /\ r_impressions merged = Some (num 140)
         /\ r_accounts merged = Some ["Conta A"; "Conta A"]).
Proof.
  split; [intros; apply groupKey_transformed|].
  split.
  { intros extract clientDomain nowIso account account' row row' H.
    destruct (groupKey_transformed extract clientDomain nowIso account row) as [H1 _].
    destruct (groupKey_transformed extract clientDomain nowIso account' row') as [H2 _].
    rewrite H1, H2 in H. apply append_inj_l in H. now apply append_inj_r in H. }
  eexists. split; [reflexivity|].
  split; [reflexivity|]. split; [apply Qc_Some_eq; reflexivity|reflexivity].
Qed.

(** *** Totals *)


(** The formula of [active_view] in [aggregateMetrics]. *)
Lemma aggregateMetrics_active_view rates accountsData dimensionType :
  let totals := ag_totals (aggregateMetrics rates accountsData dimensionType) in
  t_active_view totals =
  (if decide (0 < t_impressions totals)
   then toFixed2 ((t_impressions totals - t_unfilled_impressions totals)
                  / t_impressions totals * num 100)
   else 0).
Proof.
  cbv zeta. unfold aggregateMetrics, totalsOfSums, rate.
  cbn [ag_totals t_impressions t_unfilled_impressions t_active_view].
  now rewrite toFixed2_0.
Qed.


(** *** One account: retries *)

Lemma batchLoop_cons fetch fuel a accounts :
  batchLoop fetch (S fuel) (a :: accounts) =
  (map fetch (firstn BATCH_SIZE (a :: accounts))
     ++ fst (batchLoop fetch fuel (skipn BATCH_SIZE (a :: accounts))),
   match skipn BATCH_SIZE (a :: accounts) with [] => [] | _ => [BATCH_DELAY_MS] end
     ++ snd (batchLoop fetch fuel (skipn BATCH_SIZE (a :: accounts))))%list.
Proof.
  cbn [batchLoop].
  now destruct (batchLoop fetch fuel (skipn BATCH_SIZE (a :: accounts))).
Qed.

Lemma batchLoop_map fetch accounts fuel :
  (length accounts <= fuel)%nat ->
  fst (batchLoop fetch fuel accounts) = map fetch accounts.
Proof.
  revert accounts. induction fuel as [|fuel IH]; intros accounts Hlen.
  - destruct accounts; [reflexivity|simpl in Hlen; lia].
  - destruct accounts as [|a accounts]; [reflexivity|].
    rewrite batchLoop_cons. cbn [fst].
    rewrite IH.
    + now rewrite <- map_app, firstn_skipn.
    + rewrite length_skipn. unfold BATCH_SIZE. simpl in *. lia.
Qed.



(** Three runs of the loop: the rate limit at every attempt, an error of
    another kind, and the rate limit at the first attempt only. *)
Example getAccountStatistics_always_limited :
  getAccountStatistics Samples.alwaysRateLimited Samples.contaA
  = (failureResult Samples.contaA (Thrown Samples.rateLimited),
     mkFetchLog 3 [5000%Z; 10000%Z]).
Proof. reflexivity. Qed.

Example getAccountStatistics_forbidden :
  getAccountStatistics (fun _ => Threw Samples.forbidden) Samples.contaA
  = (failureResult Samples.contaA (Thrown Samples.forbidden), mkFetchLog 1 []).
Proof. reflexivity. Qed.

Example getAccountStatistics_limited_once :
  getAccountStatistics Samples.rateLimitedOnce Samples.contaA
  = (successResult Samples.contaA Samples.goodStats, mkFetchLog 2 [5000%Z]).
Proof. reflexivity. Qed.

(** *** All accounts of a user *)

Lemma failureOf_succeeded account result :
  failureOf account result = None <-> is_Some (succeeded result).
Proof.
  unfold failureOf, succeeded. destruct result as [value|reason].
  - destruct (ar_success value); split; eauto; try discriminate.
    intros [x Hx]. discriminate.
  - split; [discriminate|]. intros [x Hx]. discriminate.
Qed.

Lemma failuresOf_map fetch accounts :
  failuresOf accounts (map fetch accounts) =
  omap (fun account => failureOf account (fetch account)) accounts.
Proof.
  unfold failuresOf. induction accounts as [|a l IH]; [reflexivity|].
  cbn [map zip zip_with omap list_omap fst snd].
  destruct (failureOf a (fetch a)); now rewrite IH.
Qed.

Lemma outcomes_partition fetch accounts :
  (length (omap succeeded (map fetch accounts))
   + length (failuresOf accounts (map fetch accounts)) = length accounts)%nat.
Proof.
  rewrite failuresOf_map. induction accounts as [|a l IH]; [reflexivity|].
  cbn [map omap list_omap].
  destruct (failureOf a (fetch a)) eqn:Hf.
  - destruct (succeeded (fetch a)) eqn:Hs.
    + assert (Hnone : failureOf a (fetch a) = None)
        by (apply failureOf_succeeded; rewrite Hs; eauto).
      congruence.
    + simpl. lia.
  - apply failureOf_succeeded in Hf. destruct Hf as [x ->]. simpl. lia.
Qed.

Lemma failure_listed fetch accounts account :
  In account accounts ->
  succeeded (fetch account) = None ->
  exists failure,
    In failure (failuresOf accounts (map fetch accounts))
    /\ fa_account failure = account_name account.
Proof.
  intros Hin Hnone. rewrite failuresOf_map.
  destruct (failureOf account (fetch account)) as [failure|] eqn:Hf.
  - exists failure. split.
    + apply list_elem_of_In, list_elem_of_omap. exists account.
      split; [now apply list_elem_of_In|exact Hf].
    + unfold failureOf in Hf. destruct (fetch account) as [value|reason].
      * destruct (ar_success value); [discriminate|]. now injection Hf as <-.
      * now injection Hf as <-.
  - apply failureOf_succeeded in Hf. destruct Hf as [x Hx]. congruence.
Qed.

(** C7.  [getMultiAccountStatistics] answers with status 500 exactly when
    the query for the user's accounts fails.  Otherwise it answers with
    [success: true]; when the user has accounts, every account is fetched,
    [accountCount] is their number, [successfulAccounts] and
    [failedAccounts] count the fetches that succeeded and those that did
    not, the data and totals are the aggregate of the successful ones, and
    [errors] has one entry, under the account's name, for every fetch that
    did not succeed. *)
Theorem getMultiAccountStatistics_partial_failure env dimensionType :
  match activeAccounts env with
  | Rejected error =>
      fst (getMultiAccountStatistics env dimensionType)
      = Status 500 (errorBody (e_message error))
  | Resolved accounts =>
      exists body,
        fst (getMultiAccountStatistics env dimensionType) = Json body
        /\ rep_success body = true
        /\ rep_error body = None
        /\ (accounts <> [] ->
            let good := omap succeeded (map (fetchAccount env) accounts) in
            let aggregate := aggregateMetrics (rates env) good dimensionType in
            rep_accountCount body = Some (Z.of_nat (length accounts))
            /\ rep_successfulAccounts body = Some (Z.of_nat (length good))
            /\ rep_failedAccounts body
               = Some (Z.of_nat (length accounts - length good))
            /\ rep_data body = Some (ag_data aggregate)
            /\ rep_totals body = Some (ag_totals aggregate)
            /\ length (default [] (rep_errors body))
               = (length accounts - length good)%nat
            /\ (forall account,
                   In account accounts ->
                   succeeded (fetchAccount env account) = None ->
                   exists failure,
                     In failure (default [] (rep_errors body))
                     /\ fa_account failure = account_name account))
  end.
Proof.
  unfold getMultiAccountStatistics.
  destruct (activeAccounts env) as [accounts|error]; [|reflexivity].
  destruct accounts as [|a accounts].
  { eexists. split; [reflexivity|]. split; [reflexivity|]. split; [reflexivity|].
    congruence. }
  set (all := a :: accounts).
  pose proof (batchLoop_map (fetchAccount env) all (length all) (le_n _)) as Hmap.
  destruct (batchLoop (fetchAccount env) (length all) all) as [results pauses].
  cbn [fst] in Hmap. subst results.
  eexists. split; [reflexivity|].
  cbn [rep_success rep_error rep_accountCount rep_successfulAccounts rep_failedAccounts
       rep_data rep_totals rep_errors].
  split; [reflexivity|]. split; [reflexivity|]. intros _. cbv zeta.
  pose proof (outcomes_partition (fetchAccount env) all) as Hpart.
  assert (Herrors :
            default [] (match failuresOf all (map (fetchAccount env) all) with
                        | [] => None
                        | _ => Some (failuresOf all (map (fetchAccount env) all))
                        end)
            = failuresOf all (map (fetchAccount env) all)).
  { now destruct (failuresOf all (map (fetchAccount env) all)). }
  rewrite Herrors.
  split; [reflexivity|]. split; [reflexivity|].
  split; [do 2 f_equal; lia|].
  split; [reflexivity|]. split; [reflexivity|].
  split; [lia|].
  intros account Hin Hnone. now apply failure_listed.
Qed.

(** With two accounts of which one fails, the answer is a success that
    counts both and lists the failure. *)
Example getMultiAccountStatistics_one_of_two :
  exists body,
    getMultiAccountStatistics Samples.oneOfTwoFails "AD_UNIT" = (Json body, [])
    /\ rep_success body = true
    /\ rep_accountCount body = Some 2%Z
    /\ rep_successfulAccounts body = Some 1%Z
    /\ rep_failedAccounts body = Some 1%Z
    /\ rep_accounts body = Some [mkAccountInfo 1 "Conta A" true 1]
    /\ rep_errors body
       = Some [mkFailedAccount "Conta B"
                               (ErrText "Request failed with status code 429")].
Proof. eexists. repeat split. Qed.

(** *** The rows of the aggregate *)

Import SumFacts.






(** *** Pauses between batches *)

Lemma batchLoop_pauses fetch fuel accounts :
  (length accounts <= fuel)%nat ->
  snd (batchLoop fetch fuel accounts)
  = repeat BATCH_DELAY_MS ((length accounts - 1) / BATCH_SIZE).
Proof.
  revert accounts. induction fuel as [|fuel IH]; intros accounts Hlen.
  - destruct accounts; [reflexivity|simpl in Hlen; lia].
  - destruct accounts as [|a accounts]; [reflexivity|].
    rewrite batchLoop_cons. cbn [snd].
    rewrite IH by (rewrite length_skipn; unfold BATCH_SIZE; simpl in *; lia).
    rewrite length_skipn. unfold BATCH_SIZE.
    destruct (skipn 3 (a :: accounts)) as [|b rest] eqn:Hskip.
    + apply (f_equal (@length _)) in Hskip. rewrite length_skipn in Hskip.
      cbn [length] in *.
      replace (S (length accounts) - 3 - 1)%nat with 0%nat by lia.
      replace ((S (length accounts) - 1) / 3)%nat with 0%nat; [reflexivity|].
      symmetry. apply Nat.div_small. lia.
    + apply (f_equal (@length _)) in Hskip. rewrite length_skipn in Hskip.
      cbn [length] in *.
      replace (S (length accounts) - 1)%nat
        with ((S (length accounts) - 3 - 1) + 1 * 3)%nat by lia.
      rewrite Nat.div_add by lia. rewrite Nat.add_comm. reflexivity.
Qed.

(** The accounts are fetched three at a time, with a pause of 6 seconds
    after every batch but the last: for [n] accounts, [n] at least 1, that
    is [ceil(n / 3) - 1] pauses; no pause is taken when the account query
    fails or finds no account. *)
Theorem getMultiAccountStatistics_pauses env dimensionType :
  snd (getMultiAccountStatistics env dimensionType)
  = match activeAccounts env with
    | Resolved accounts => repeat 6000%Z ((length accounts - 1) / 3)
    | Rejected _ => []
    end.
Proof.
  unfold getMultiAccountStatistics.
  destruct (activeAccounts env) as [[|a accounts]|error]; try reflexivity.
  pose proof (batchLoop_pauses (fetchAccount env) (length (a :: accounts))
                               (a :: accounts) (le_n _)) as Hp.
  destruct (batchLoop (fetchAccount env) (length (a :: accounts)) (a :: accounts))
    as [results pauses].
  cbn [snd] in *. exact Hp.
Qed.

(** *** The domain of an ad unit *)

Import JsString.

Lemma separator_lowerChar c : separator (lowerChar c) = separator c.
Proof. each_char c. Qed.

Lemma lowerChar_idem c : lowerChar (lowerChar c) = lowerChar c.
Proof. each_char c. Qed.

Lemma toLowerCase_idem s : toLowerCase (toLowerCase s) = toLowerCase s.
Proof.
  induction s as [|c s IH]; cbn [toLowerCase]; [reflexivity|].
  now rewrite lowerChar_idem, IH.
Qed.

Lemma toLowerCase_app a b :
  toLowerCase (a ++ b) = (toLowerCase a ++ toLowerCase b)%string.
Proof.
  induction a as [|c a IH]; simpl; [reflexivity|].
  now rewrite IH.
Qed.

Lemma length_toLowerCase s : String.length (toLowerCase s) = String.length s.
Proof.
  induction s as [|c s IH]; cbn [toLowerCase String.length]; congruence.
Qed.

Lemma toLowerCase_empty s : String.eqb (toLowerCase s) "" = String.eqb s "".
Proof. now destruct s. Qed.

Lemma toLowerCase_substring n m s :
  toLowerCase (substring n m s) = substring n m (toLowerCase s).
Proof.
  revert n m. induction s as [|c s IH]; intros n m.
  - now destruct n, m.
  - destruct n as [|n]; destruct m as [|m]; cbn [substring toLowerCase]; auto.
    now rewrite IH.
Qed.

Lemma leading_toLowerCase s : leading (toLowerCase s) = toLowerCase (leading s).
Proof.
  induction s as [|c s IH]; cbn [toLowerCase leading]; [reflexivity|].
  rewrite separator_lowerChar. destruct (separator c); [reflexivity|].
  cbn [toLowerCase]. now rewrite IH.
Qed.

Lemma leading_app site c rest :
  leading site = site -> separator c = true ->
  leading (site ++ String c rest) = site.
Proof.
  intros Hsite Hc. induction site as [|a site IH]; simpl.
  - now rewrite Hc.
  - simpl in Hsite. destruct (separator a); [discriminate|].
    injection Hsite as Hsite. now rewrite IH.
Qed.

(** Texts in lower case stay so when a suffix or a language prefix is cut
    off. *)
Lemma dropTld_lower s : toLowerCase s = s -> toLowerCase (dropTld s) = dropTld s.
Proof.
  intros Hs. unfold dropTld, withoutSuffix.
  repeat (destruct (endsWith _ s);
          [now rewrite toLowerCase_substring, Hs|]).
  exact Hs.
Qed.

Lemma dropLanguage_lower s :
  toLowerCase s = s -> toLowerCase (dropLanguage s) = dropLanguage s.
Proof.
  intros Hs. unfold dropLanguage.
  destruct s as [|a [|b [|c rest]]]; auto.
  destruct (Ascii.eqb_spec c "."%char) as [->|Hc].
  - destruct (isLowerLetter a && isLowerLetter b); [|exact Hs].
    cbn [toLowerCase] in Hs. congruence.
  - assert (Hsame : (match c with
                     | "."%char =>
                         if isLowerLetter a && isLowerLetter b then rest
                         else String a (String b (String c rest))
                     | _ => String a (String b (String c rest))
                     end) = String a (String b (String c rest))).
    { each_char c. all: try now destruct (isLowerLetter a && isLowerLetter b).
      all: now contradiction Hc. }
    rewrite Hsame. exact Hs.
Qed.

Lemma accountSite_lower accountDomain :
  toLowerCase (accountSite accountDomain) = accountSite accountDomain.
Proof. apply dropTld_lower, toLowerCase_idem. Qed.

(** The extraction does not look at the case of letters: an ad unit name and
    its lower-case form give the same domain, and so do an account domain and
    its lower-case form when the ad unit has a name; the domain of an ad unit
    that has a name is in lower case. *)
Theorem extractDomainFromAdUnit_ignores_case adUnitName accountDomain :
  extractDomainFromAdUnit (toLowerCase adUnitName) accountDomain
  = extractDomainFromAdUnit adUnitName accountDomain
  /\ (adUnitName <> "" ->
      toLowerCase (extractDomainFromAdUnit adUnitName accountDomain)
      = extractDomainFromAdUnit adUnitName accountDomain)
  /\ (adUnitName <> "" ->
      extractDomainFromAdUnit adUnitName (option_map toLowerCase accountDomain)
      = extractDomainFromAdUnit adUnitName accountDomain).
Proof.
  split; [|split].
  - unfold extractDomainFromAdUnit.
    rewrite toLowerCase_empty, toLowerCase_idem, length_toLowerCase.
    rewrite leading_toLowerCase, toLowerCase_empty, toLowerCase_idem.
    reflexivity.
  - intros Hne. unfold extractDomainFromAdUnit.
    destruct (String.eqb_spec adUnitName ""); [contradiction|].
    destruct (truthyStr accountDomain && _); [apply accountSite_lower|].
    cbv zeta. destruct (negb _).
    + destruct (truthyStr accountDomain && _); [apply accountSite_lower|].
      apply dropLanguage_lower, toLowerCase_idem.
    + destruct (truthyStr accountDomain); [apply accountSite_lower|].
      apply toLowerCase_idem.
  - intros Hne. unfold extractDomainFromAdUnit.
    destruct (String.eqb_spec adUnitName ""); [contradiction|].
    assert (Htruthy : truthyStr (option_map toLowerCase accountDomain)
                      = truthyStr accountDomain).
    { destruct accountDomain as [d|]; [|reflexivity].
      cbn [option_map truthyStr]. now rewrite toLowerCase_empty. }
    assert (Hsite : accountSite (option_map toLowerCase accountDomain)
                    = accountSite accountDomain).
    { unfold accountSite. destruct accountDomain as [d|]; [|reflexivity].
      cbn [option_map default]. unfold Datatypes.id. now rewrite toLowerCase_idem. }
    rewrite Htruthy, Hsite. reflexivity.
Qed.

(** The domain depends on the ad unit name only through what comes before
    its first underscore or white space: for a site name of two characters
    or more without either, every ad unit named by the site name, a
    separator and anything else has the domain of the site, which is the
    site name in lower case without a language prefix, or the account's
    domain when that reads [default] or [unknown] and the account has a
    domain. *)
Theorem extractDomainFromAdUnit_prefix site c rest accountDomain :
  (2 <= String.length site)%nat ->
  leading site = site ->
  separator c = true ->
  extractDomainFromAdUnit (site ++ String c rest) accountDomain
  = let extracted := dropLanguage (toLowerCase site) in
    if truthyStr accountDomain
       && (String.eqb extracted "default" || String.eqb extracted "unknown")
    then accountSite accountDomain
    else extracted.
Proof.
  intros Hlen Hsite Hc. unfold extractDomainFromAdUnit.
  assert (Hname : String.eqb (site ++ String c rest) "" = false).
  { destruct site; [simpl in Hlen; lia|reflexivity]. }
  assert (Hdefault : String.eqb (toLowerCase (site ++ String c rest)) "default" = false).
  { apply String.eqb_neq. intros H.
    pose proof (f_equal leading H) as Hl.
    rewrite leading_toLowerCase, leading_app in Hl by assumption.
    apply (f_equal String.length) in H, Hl.
    rewrite length_toLowerCase in H, Hl. rewrite length_append in H.
    change (String.length (leading "default")) with 7%nat in Hl.
    change (String.length "default") with 7%nat in H.
    cbn [String.length] in H. lia. }
  assert (Hshort : (String.length (site ++ String c rest) <? 3)%nat = false).
  { apply Nat.ltb_ge. rewrite length_append. cbn [String.length]. lia. }
  rewrite Hname, Hdefault, Hshort, orb_false_r, andb_false_r.
  cbv zeta. rewrite leading_app by assumption.
  destruct site as [|a site']; [simpl in Hlen; lia|].
  cbn [String.eqb negb].
  replace (String.eqb (String a site') "") with false by (now destruct a).
  reflexivity.
Qed.

(** (witness) The ad unit of the comment in the source. *)
Lemma extractDomainFromAdUnit_prefix_witness :
  extractDomainFromAdUnit "Brasilinvest360_WEB_Content1_20251028" None
  = "brasilinvest360".
Proof.
  exact (extractDomainFromAdUnit_prefix
           "Brasilinvest360" "_"%char "WEB_Content1_20251028" None
           ltac:(simpl; lia) eq_refl eq_refl).
Defined.

(** The other two ad units of that comment, and a name with a language
    prefix. *)
Example extractDomainFromAdUnit_samples :
  extractDomainFromAdUnit "redeamplo.com_Content1" None = "redeamplo.com"
  /\ extractDomainFromAdUnit "Copablog_Mobile_Banner" None = "copablog"
  /\ extractDomainFromAdUnit "es.finkerr_top" None = "finkerr"
  /\ extractDomainFromAdUnit "Default" (Some "Finkerr.com.br") = "finkerr"
  /\ extractDomainFromAdUnit "" None = "unknown".
Proof. repeat split. Qed.

(** *** Currency conversion *)


(** *** Access tokens *)

(** A token that [getAccessToken] returned is the client's token from then
    on, and is returned again, without a request and whatever the token
    endpoint would answer, at every call made before the expiry time the
    client holds.  When the token came from a request, that time is the
    arrival of the answer plus the lifetime it announced less 5 minutes. *)
Theorem getAccessToken_reuse env c c' requested token :
  getAccessToken env c = (c', requested, Resolved (Some token)) ->
  token <> "" ->
  accessToken c' = Some token
  /\ (requested = true ->
      exists data,
        tokenEndpoint env = Resolved data
        /\ tokenExpiry c'
           = option_map (fun e => (answeredAt env + (e - 300) * 1000)%Z)
                        (expires_in data))
  /\ (forall env' expiry,
         tokenExpiry c' = Some expiry ->
         expiry <> 0%Z ->
         (calledAt env' < expiry)%Z ->
         getAccessToken env' c' = (c', false, Resolved (Some token))).
Proof.
  intros Hcall Htoken.
  assert (Hstate : accessToken c' = Some token
                   /\ (requested = true ->
                       exists data,
                         tokenEndpoint env = Resolved data
                         /\ tokenExpiry c'
                            = option_map (fun e => (answeredAt env + (e - 300) * 1000)%Z)
                                         (expires_in data))).
  { unfold getAccessToken in Hcall.
    destruct (tokenValid (accessToken c) (tokenExpiry c) (calledAt env)).
    - injection Hcall as <- <- Hc. split; [exact Hc|discriminate].
    - destruct (tokenEndpoint env) as [data|error]; [|discriminate].
      injection Hcall as <- <- Hd. cbn [accessToken tokenExpiry].
      split; [exact Hd|]. intros _. exists data. split; reflexivity. }
  destruct Hstate as [Hacc Hexp]. split; [exact Hacc|]. split; [exact Hexp|].
  intros env' expiry Hexpiry Hnz Hnow. unfold getAccessToken, tokenValid.
  rewrite Hacc, Hexpiry. cbn [truthyStr].
  destruct (String.eqb_spec token ""); [contradiction|].
  destruct (Z.eqb_spec expiry 0); [contradiction|].
  destruct (Z.ltb_spec (calledAt env') expiry); [reflexivity|lia].
Qed.

(** (witness) A token of one hour obtained at time 0 and asked for again
    after 54 minutes. *)
Lemma getAccessToken_reuse_witness :
  getAccessToken (mkTokenEnv 3240000 (Rejected authError) 3240000)
                 (mkClient (Some "ya29.a") (Some 3300000%Z))
  = (mkClient (Some "ya29.a") (Some 3300000%Z), false, Resolved (Some "ya29.a")).
Proof.
  destruct (getAccessToken_reuse
              (mkTokenEnv 0 (Resolved (mkTokenData (Some "ya29.a") (Some 3600%Z))) 0)
              (mkClient None None) _ true "ya29.a" eq_refl ltac:(discriminate))
    as (_ & _ & Hreuse).
  apply (Hreuse (mkTokenEnv 3240000 (Rejected authError) 3240000) 3300000%Z eq_refl);
    simpl; lia.
Defined.

(** What [getValidAccessToken] hands to the client of an attempt.  While the
    clock is more than 5 minutes before the expiry time of the row, it
    returns the token of the row without a request and without touching the
    table, and the client built from it asks for no token during the
    following 5 minutes.  Otherwise it asks the token endpoint: a refusal is
    rethrown as it is and a failed write rejects, the table unchanged; else
    the row of the account holds the new token with the arrival time of the
    answer plus its lifetime as expiry time, and the new token is returned.
    The client built from it keeps the expiry time of the row as it was
    read: when that time is missing or has passed, the first call of the
    client asks for a token again. *)
Theorem getValidAccessToken_then_client env accountId account db env' :
  let '(db', requested, result) := getValidAccessToken env accountId account db in
  match result with
  | Rejected error =>
      db' = db /\ requested = true
      /\ (tokenEndpoint env = Rejected error
          \/ accountsError db = Some error)
  | Resolved token =>
      let client := accountClient token account in
      if requested then
        (exists data,
            tokenEndpoint env = Resolved data
            /\ token = access_token data
            /\ (is_Some (credentials db !! accountId) ->
                credentials db' !! accountId
                = Some (mkCredentials
                          token
                          (option_map (fun e => (answeredAt env + e * 1000)%Z)
                                      (expires_in data))))
            /\ (forall other, other <> accountId ->
                              credentials db' !! other = credentials db !! other))
        /\ (match cr_token_expiry account with
            | Some t => (t <= calledAt env')%Z
            | None => True
            end ->
            snd (fst (getAccessToken env' client)) = true)
      else
        db' = db
        /\ token = cr_access_token account
        /\ ((calledAt env' <= calledAt env + 300000)%Z ->
            getAccessToken env' client = (client, false, Resolved token))
  end.
Proof.
  unfold getValidAccessToken.
  destruct (truthyStr (cr_access_token account)) eqn:Htok; cbn [andb].
  - destruct (cr_token_expiry account) as [t|] eqn:Hexp.
    + destruct (Z.eqb_spec t 0) as [Hz|Hz]; cbn [negb andb].
      * unfold refreshAccountToken.
        destruct (tokenEndpoint env) as [data|error]; [|auto].
        destruct (accountsError db) as [error|] eqn:Herr; [auto|].
        cbv zeta. split.
        { exists data. split; [reflexivity|]. split; [reflexivity|].
          cbn [credentials cr_access_token]. split.
          - intros [old Hold]. rewrite Hold. apply lookup_insert_eq.
          - intros other Hne. destruct (credentials db !! accountId); [|reflexivity].
            now apply lookup_insert_ne. }
        intros _. unfold getAccessToken, accountClient, tokenValid.
        cbn [accessToken tokenExpiry]. rewrite Hexp, Hz. cbn [Z.eqb negb andb].
        rewrite andb_false_r. now destruct (tokenEndpoint env').
      * destruct (Z.ltb_spec (calledAt env) (t - 300000)) as [Hlt|Hge].
        { cbv zeta. split; [reflexivity|]. split; [reflexivity|].
          intros Hsoon. unfold getAccessToken, accountClient, tokenValid.
          cbn [accessToken tokenExpiry]. rewrite Htok, Hexp.
          destruct (Z.eqb_spec t 0); [contradiction|].
          destruct (Z.ltb_spec (calledAt env') t); [reflexivity|lia]. }
        unfold refreshAccountToken.
        destruct (tokenEndpoint env) as [data|error]; [|auto].
        destruct (accountsError db) as [error|] eqn:Herr; [auto|].
        cbv zeta. split.
        { exists data. split; [reflexivity|]. split; [reflexivity|].
          cbn [credentials cr_access_token]. split.
          - intros [old Hold]. rewrite Hold. apply lookup_insert_eq.
          - intros other Hne. destruct (credentials db !! accountId); [|reflexivity].
            now apply lookup_insert_ne. }
        intros Hpast. unfold getAccessToken, accountClient, tokenValid.
        cbn [accessToken tokenExpiry]. rewrite Hexp.
        destruct (Z.ltb_spec (calledAt env') t); [lia|].
        rewrite !andb_false_r. now destruct (tokenEndpoint env').
    + unfold refreshAccountToken.
      destruct (tokenEndpoint env) as [data|error]; [|auto].
      destruct (accountsError db) as [error|] eqn:Herr; [auto|].
      cbv zeta. split.
      { exists data. split; [reflexivity|]. split; [reflexivity|].
        cbn [credentials cr_access_token]. split.
        - intros [old Hold]. rewrite Hold. apply lookup_insert_eq.
        - intros other Hne. destruct (credentials db !! accountId); [|reflexivity].
          now apply lookup_insert_ne. }
      intros _. unfold getAccessToken, accountClient, tokenValid.
      cbn [accessToken tokenExpiry]. rewrite Hexp.
      rewrite andb_false_r. now destruct (tokenEndpoint env').
  - unfold refreshAccountToken.
    destruct (tokenEndpoint env) as [data|error]; [|auto].
    destruct (accountsError db) as [error|] eqn:Herr; [auto|].
    cbv zeta. split.
    { exists data. split; [reflexivity|]. split; [reflexivity|].
      cbn [credentials cr_access_token]. split.
      - intros [old Hold]. rewrite Hold. apply lookup_insert_eq.
      - intros other Hne. destruct (credentials db !! accountId); [|reflexivity].
        now apply lookup_insert_ne. }
    intros Hpast. unfold getAccessToken, accountClient, tokenValid.
    cbn [accessToken tokenExpiry].
    destruct (cr_token_expiry account) as [t|].
    + destruct (Z.ltb_spec (calledAt env') t); [lia|].
      rewrite !andb_false_r. now destruct (tokenEndpoint env').
    + rewrite andb_false_r. now destruct (tokenEndpoint env').
Qed.

(** *** Polling *)

Lemma pollLoop_spec get remaining attempt log :
  let result := fst (pollLoop get remaining attempt log) in
  let log' := snd (pollLoop get remaining attempt log) in
  exists pending,
    (pending <= remaining)%nat
    /\ (forall j, (j < pending)%nat ->
                  exists data, get (attempt + j)%nat = Resolved data
                               /\ op_done data = false)
    /\ waits log' = (waits log ++ repeat 1000%Z pending)%list
    /\ (pending = remaining
        /\ result = Rejected pollTimeout
        /\ attempts log' = (attempts log + pending)%nat
        \/ (pending < remaining)%nat
           /\ attempts log' = (attempts log + pending + 1)%nat
           /\ ((exists data, get (attempt + pending)%nat = Resolved data
                             /\ op_done data = true
                             /\ result = Resolved data)
               \/ (exists error, get (attempt + pending)%nat = Rejected error
                                 /\ result = Rejected error))).
Proof.
  cbv zeta. revert attempt log.
  induction remaining as [|remaining IH]; intros attempt log.
  - exists 0%nat. cbn [pollLoop fst snd repeat]. rewrite app_nil_r.
    split; [lia|]. split; [intros j Hj; lia|]. split; [reflexivity|].
    left. repeat split. lia.
  - cbn [pollLoop]. destruct (get attempt) as [data|error] eqn:Hget.
    + destruct (op_done data) eqn:Hdone.
      * exists 0%nat. cbn [fst snd repeat attempts waits]. rewrite app_nil_r.
        split; [lia|]. split; [intros j Hj; lia|]. split; [reflexivity|].
        right. split; [lia|]. split; [lia|]. left.
        exists data. rewrite Nat.add_0_r. auto.
      * cbn [attempts waits].
        destruct (IH (S attempt) (mkFetchLog (S (attempts log)) (waits log ++ [1000%Z])))
          as (pending & Hle & Hpending & Hwaits & Hcase).
        cbn [attempts waits] in Hwaits, Hcase.
        exists (S pending). split; [lia|]. split.
        { intros [|j] Hj.
          - rewrite Nat.add_0_r. eauto.
          - destruct (Hpending j) as (d & Hd & Hdd); [lia|].
            exists d. rewrite <- Hd. split; [f_equal; lia|exact Hdd]. }
        split.
        { rewrite Hwaits. cbn [repeat]. now rewrite <- app_assoc. }
        replace (attempt + S pending)%nat with (S attempt + pending)%nat by lia.
        destruct Hcase as [(-> & Hres & Hatt)|(Hlt & Hatt & Hres)].
        -- left. split; [reflexivity|]. split; [exact Hres|]. rewrite Hatt. lia.
        -- right. split; [lia|]. split; [rewrite Hatt; lia|exact Hres].
    + exists 0%nat. cbn [fst snd repeat attempts waits]. rewrite app_nil_r.
      split; [lia|]. split; [intros j Hj; lia|]. split; [reflexivity|].
      right. split; [lia|]. split; [lia|]. right.
      exists error. rewrite Nat.add_0_r. auto.
Qed.

(** [pollOperation] asks for the state of the operation until an answer
    says [done] or a request fails, [maxAttempts] times at most, and waits
    one second after every answer that does not say [done], the last one
    included.  With [pending] the number of such answers before anything
    else happens: when [pending] reaches [maxAttempts] the call fails with
    the timeout error, after [maxAttempts] requests and as many seconds;
    otherwise it made [pending + 1] requests, waited [pending] seconds and
    returns the answer that says [done], or fails with the error of the
    request that failed.  When no access token can be had it fails before
    any request. *)
Theorem pollOperation_bounds env c get maxAttempts :
  let result := fst (snd (pollOperation env c get maxAttempts)) in
  let log := snd (snd (pollOperation env c get maxAttempts)) in
  match snd (getAccessToken env c) with
  | Rejected error => result = Rejected error /\ attempts log = 0%nat /\ waits log = []
  | Resolved _ =>
      exists pending,
        (pending <= maxAttempts)%nat
        /\ (forall j, (1 <= j <= pending)%nat ->
                      exists data, get j = Resolved data /\ op_done data = false)
        /\ waits log = repeat 1000%Z pending
        /\ (pending = maxAttempts
            /\ result = Rejected pollTimeout
            /\ attempts log = maxAttempts
            \/ (pending < maxAttempts)%nat
               /\ attempts log = (pending + 1)%nat
               /\ ((exists data, get (pending + 1)%nat = Resolved data
                                 /\ op_done data = true
                                 /\ result = Resolved data)
                   \/ (exists error, get (pending + 1)%nat = Rejected error
                                     /\ result = Rejected error)))
  end.
Proof.
  cbv zeta. unfold pollOperation.
  destruct (getAccessToken env c) as [[c' requested] [token|error]]; cbn [fst snd];
    [|repeat split].
  destruct (pollLoop_spec get maxAttempts 1 (mkFetchLog 0 []))
    as (pending & Hle & Hpending & Hwaits & Hcase).
  cbv zeta in Hwaits, Hcase. cbn [waits attempts app] in Hwaits, Hcase.
  exists pending. split; [exact Hle|]. split.
  { intros j Hj. destruct (Hpending (j - 1)%nat) as (d & Hd & Hdd); [lia|].
    exists d. rewrite <- Hd. split; [f_equal; lia|exact Hdd]. }
  split; [exact Hwaits|].
  replace (pending + 1)%nat with (1 + pending)%nat by lia.
  destruct Hcase as [(Heq & Hres & Hatt)|(Hlt & Hatt & Hres)].
  - left. split; [exact Heq|]. split; [exact Hres|]. rewrite Hatt. lia.
  - right. split; [exact Hlt|]. split; [rewrite Hatt; lia|exact Hres].
Qed.

End GamFacts.

(* ====================================================================== *)
(** ** Facts about the tiered cache *)
(* ====================================================================== *)

Module CacheFacts.
Import Js Cache.

Section Degrade.
Context {V : Type}.
Variable parse : string -> option V.
Variable stringify : V -> string.
Variable truthy : V -> bool.
Variable now : Z.

Lemma getFromRedis_down r cacheKey :
  available r = false \/ throws r (OpGet cacheKey) = true ->
  getFromRedis parse now r cacheKey = None.
Proof.
  unfold getFromRedis. intros [H|H].
  - now rewrite H.
  - rewrite H. now destruct (negb (available r)).
Qed.

Lemma saveToRedis_flags r cacheKey data ttl :
  let r' := saveToRedis stringify now r cacheKey data ttl in
  available r' = available r /\ throws r' = throws r.
Proof.
  cbv zeta. unfold saveToRedis.
  destruct (negb (available r)); [auto|].
  destruct (throws r (OpSetEx cacheKey)); auto.
Qed.

Lemma getCachedData_rejects t userId startDate endDate dimensionType err :
  snd (getCachedData parse stringify truthy now t userId startDate endDate dimensionType)
  = Rejected err ->
  sqliteError (sqlite t) = Some err.
Proof.
  unfold getCachedData.
  destruct (present truthy _); [discriminate|].
  unfold getFromSQLite. destruct (sqliteError (sqlite t)) as [e|].
  - cbn. congruence.
  - destruct (table (sqlite t) !! _) as [row|]; [|discriminate].
    destruct (_ && _); discriminate.
Qed.

Lemma clearUserCache_rejects t userId err :
  snd (clearUserCache t userId) = Rejected err ->
  sqliteError (sqlite t) = Some err.
Proof.
  unfold clearUserCache.
  destruct (sqliteError (sqlite t)) as [e|]; cbn; congruence.
Qed.

(** C10.  When the hot tier cannot serve a key (Redis is disabled, has no
    client, or the [get] command throws), [getCachedData] resolves to what
    the durable tier holds for the key and leaves the durable tier as it
    is.  Whatever Redis does, [setCachedData] writes the durable tier and
    resolves when that write succeeds, and the value written is read back by
    [getCachedData] while the hot tier is still failing.  No operation
    rejects unless SQLite itself reports an error. *)
Theorem hot_tier_failure_degrades t userId startDate endDate dimensionType :
  let cacheKey := generateCacheKey userId startDate endDate dimensionType in
  available (redis t) = false \/ throws (redis t) (OpGet cacheKey) = true ->
  snd (getCachedData parse stringify truthy now t userId startDate endDate dimensionType)
  = getFromSQLite parse now (sqlite t) userId cacheKey
  /\ sqlite (fst (getCachedData parse stringify truthy now t userId startDate endDate
                                dimensionType))
     = sqlite t
  /\ (forall data ttl,
         match saveToSQLite stringify now (sqlite t) userId cacheKey data
                            startDate endDate dimensionType ttl with
         | Resolved s =>
             snd (setCachedData stringify now t userId startDate endDate dimensionType
                                data ttl) = Resolved tt
             /\ sqlite (fst (setCachedData stringify now t userId startDate endDate
                                           dimensionType data ttl)) = s
         | Rejected err =>
             snd (setCachedData stringify now t userId startDate endDate dimensionType
                                data ttl) = Rejected err
             /\ sqliteError (sqlite t) = Some err
         end)
  /\ (forall data ttl,
         sqliteError (sqlite t) = None -> (0 < ttl)%Z ->
         parse (stringify data) = Some data ->
         snd (getCachedData parse stringify truthy now
                (fst (setCachedData stringify now t userId startDate endDate
                                    dimensionType data ttl))
                userId startDate endDate dimensionType)
         = Resolved (Some data))
  /\ (forall err,
         snd (getCachedData parse stringify truthy now t userId startDate endDate
                            dimensionType) = Rejected err
         \/ snd (clearUserCache t userId) = Rejected err ->
         sqliteError (sqlite t) = Some err).
Proof.
  intros cacheKey Hdown.
  assert (Hget : forall t',
             available (redis t') = false \/ throws (redis t') (OpGet cacheKey) = true ->
             snd (getCachedData parse stringify truthy now t' userId startDate endDate
                                dimensionType)
             = getFromSQLite parse now (sqlite t') userId cacheKey
             /\ sqlite (fst (getCachedData parse stringify truthy now t' userId startDate
                                           endDate dimensionType)) = sqlite t').
  { intros t' Hd. unfold getCachedData. fold cacheKey.
    rewrite (getFromRedis_down _ _ Hd). cbn [present].
    destruct (getFromSQLite parse now (sqlite t') userId cacheKey); split; reflexivity. }
  destruct (Hget t Hdown) as [Hg1 Hg2].
  split; [exact Hg1|]. split; [exact Hg2|].
  split.
  { intros data ttl. unfold setCachedData. fold cacheKey.
    unfold saveToSQLite. destruct (sqliteError (sqlite t)) as [err|]; split; reflexivity. }
  split.
  { intros data ttl Herr Httl Hparse.
    set (t' := fst (setCachedData stringify now t userId startDate endDate
                                  dimensionType data ttl)).
    assert (Hd' : available (redis t') = false
                  \/ throws (redis t') (OpGet cacheKey) = true).
    { subst t'. unfold setCachedData. fold cacheKey. unfold saveToSQLite.
      rewrite Herr. cbn [fst redis].
      destruct (saveToRedis_flags (redis t) cacheKey data ttl) as [Ha Ht].
      rewrite Ha, Ht. exact Hdown. }
    destruct (Hget t' Hd') as [-> _].
    subst t'. unfold setCachedData. fold cacheKey. unfold saveToSQLite.
    rewrite Herr. cbn [fst sqlite]. unfold getFromSQLite. cbn [sqliteError table].
    rewrite lookup_insert_eq. cbn [c_user_id c_expires_at c_data].
    rewrite Z.eqb_refl. replace (now <? now + ttl * 1000)%Z with true
      by (symmetry; apply Z.ltb_lt; lia).
    cbn. now rewrite Hparse. }
  intros err [H|H].
  - eapply getCachedData_rejects; eauto.
  - eapply clearUserCache_rejects; eauto.
Qed.

End Degrade.

(** C10 (witness): a Redis client that throws at every command, over an
    empty durable tier. *)
Lemma hot_tier_failure_degrades_witness :
  snd (getCachedData Samples.textParse Samples.textStringify Samples.textTruthy 0
         (fst (setCachedData Samples.textStringify 0 Samples.brokenHotTier
                             1 "2025-01-01" "2025-01-07" "AD_UNIT" "report" 300))
         1 "2025-01-01" "2025-01-07" "AD_UNIT")
  = Resolved (Some "report").
Proof.
  destruct (hot_tier_failure_degrades
              Samples.textParse Samples.textStringify Samples.textTruthy 0
              Samples.brokenHotTier 1 "2025-01-01" "2025-01-07" "AD_UNIT"
              (or_intror eq_refl))
    as (_ & _ & _ & Hback & _).
  apply Hback; [reflexivity|lia|reflexivity].
Defined.

(** *** Lifetime of an entry *)

Section Lifetimes.
Context {V : Type}.
Variable parse : string -> option V.
Variable stringify : V -> string.
Variable truthy : V -> bool.

Lemma saveToRedis_contents now r cacheKey (data : V) ttl :
  let r' := saveToRedis stringify now r cacheKey data ttl in
  available r' = available r
  /\ throws r' = throws r
  /\ redisEnabled r' = redisEnabled r
  /\ (contents r' = contents r
      /\ (available r = false \/ throws r (OpSetEx cacheKey) = true)
      \/ contents r' = <[cacheKey := (stringify data, (now + ttl * 1000)%Z)]> (contents r)
         /\ available r = true /\ throws r (OpSetEx cacheKey) = false).
Proof.
  cbv zeta. unfold saveToRedis.
  destruct (available r) eqn:Ha; cbn [negb]; [|auto 10].
  destruct (throws r (OpSetEx cacheKey)) eqn:Ht; [auto 10|].
  cbn [contents throws redisEnabled]. unfold available in *.
  cbn [redisEnabled redisClient]. auto 10.
Qed.

(** A value written by [setCachedData] is what [getCachedData] returns for
    the same user, range and dimension during the [ttlSeconds] that follow,
    and is not returned from then on: the read resolves to [null].  This
    supposes that the hot tier took the write, or is out of use, or held
    nothing under the key. *)
Theorem setCachedData_lifetime now t userId startDate endDate dimensionType data ttl t1 :
  let cacheKey := generateCacheKey userId startDate endDate dimensionType in
  setCachedData stringify now t userId startDate endDate dimensionType data ttl
  = (t1, Resolved tt) ->
  available (redis t) = false
  \/ throws (redis t) (OpSetEx cacheKey) = false
  \/ contents (redis t) !! cacheKey = None ->
  forall now',
    snd (getCachedData parse stringify truthy now' t1 userId startDate endDate
                       dimensionType)
    = if (now' <? now + ttl * 1000)%Z then Resolved (parse (stringify data))
      else Resolved None.
Proof.
  intros cacheKey Hset Hhot now'.
  unfold setCachedData in Hset. fold cacheKey in Hset.
  unfold saveToSQLite in Hset.
  destruct (sqliteError (sqlite t)) as [err|] eqn:Herr; [discriminate|].
  injection Hset as <-.
  destruct (saveToRedis_contents now (redis t) cacheKey data ttl)
    as (Ha & Ht & _ & Hc).
  cbv zeta in Ha, Ht, Hc.
  set (r1 := saveToRedis stringify now (redis t) cacheKey data ttl) in *.
  unfold getCachedData. fold cacheKey. cbn [redis sqlite].
  assert (Hdurable : getFromSQLite parse now'
                       (mkSqlite (<[cacheKey := mkCacheRow userId (stringify data) startDate
                                                          endDate dimensionType
                                                          (now + ttl * 1000)%Z]>
                                    (table (sqlite t))) None)
                       userId cacheKey
                     = if (now' <? now + ttl * 1000)%Z
                       then Resolved (parse (stringify data)) else Resolved None).
  { unfold getFromSQLite. cbn [sqliteError table]. rewrite lookup_insert_eq.
    cbn [c_user_id c_expires_at c_data]. rewrite Z.eqb_refl. reflexivity. }
  assert (Hhotread : getFromRedis parse now' r1 cacheKey = None
                     \/ (now' <? now + ttl * 1000)%Z = true
                        /\ getFromRedis parse now' r1 cacheKey = parse (stringify data)).
  { unfold getFromRedis. rewrite Ha, Ht.
    destruct (available (redis t)) eqn:Hav; cbn [negb]; [|now left].
    destruct (throws (redis t) (OpGet cacheKey)); [now left|].
    destruct Hc as [[Hc [Hx|Hx]]|[Hc [_ Hx]]]; [discriminate| |].
    - destruct Hhot as [H|[H|H]]; [discriminate|congruence|].
      rewrite Hc, H. now left.
    - rewrite Hc, lookup_insert_eq.
      destruct (now' <? now + ttl * 1000)%Z; [|now left].
      cbn [andb]. destruct (negb (String.eqb (stringify data) "")); [now right|now left]. }
  destruct Hhotread as [Hmiss|[Hlive Hhit]].
  - rewrite Hmiss. cbn [present]. rewrite Hdurable.
    destruct (now' <? now + ttl * 1000)%Z; reflexivity.
  - rewrite Hhit, Hlive.
    destruct (present truthy (parse (stringify data))); [reflexivity|].
    rewrite Hdurable, Hlive. reflexivity.
Qed.

(** Nothing out of date and nothing of another user is ever served: a value
    that [getCachedData] returns is, parsed, the text of an entry of the hot
    tier under the key of the request that has not expired, or of a row of
    the durable tier under that key that belongs to the user and has not
    expired. *)
Theorem getCachedData_fresh now t userId startDate endDate dimensionType v :
  snd (getCachedData parse stringify truthy now t userId startDate endDate
                     dimensionType)
  = Resolved (Some v) ->
  let cacheKey := generateCacheKey userId startDate endDate dimensionType in
  (exists text expires,
      contents (redis t) !! cacheKey = Some (text, expires)
      /\ (now < expires)%Z
      /\ parse text = Some v)
  \/ (exists row,
         table (sqlite t) !! cacheKey = Some row
         /\ c_user_id row = userId
         /\ (now < c_expires_at row)%Z
         /\ parse (c_data row) = Some v).
Proof.
  intros Hget cacheKey. unfold getCachedData in Hget. fold cacheKey in Hget.
  assert (Hhot : forall x, getFromRedis parse now (redis t) cacheKey = Some x ->
                           exists text expires,
                             contents (redis t) !! cacheKey = Some (text, expires)
                             /\ (now < expires)%Z /\ parse text = Some x).
  { intros x. unfold getFromRedis.
    destruct (negb (available (redis t))); [discriminate|].
    destruct (throws (redis t) (OpGet cacheKey)); [discriminate|].
    destruct (contents (redis t) !! cacheKey) as [[text expires]|]; [|discriminate].
    destruct (Z.ltb_spec now expires); cbn [andb]; [|discriminate].
    destruct (negb (String.eqb text "")); [|discriminate].
    intros Hp. exists text, expires. auto. }
  destruct (present truthy (getFromRedis parse now (redis t) cacheKey)).
  - cbn [snd] in Hget. injection Hget as Hget. left. now apply Hhot.
  - right. unfold getFromSQLite in Hget.
    destruct (sqliteError (sqlite t)); [discriminate|].
    destruct (table (sqlite t) !! cacheKey) as [row|]; [|discriminate].
    destruct (Z.eqb_spec (c_user_id row) userId); cbn [andb] in Hget; [|discriminate].
    destruct (Z.ltb_spec now (c_expires_at row)); [|discriminate].
    cbn [snd] in Hget. injection Hget as Hget. exists row. auto.
Qed.

End Lifetimes.

(** (witness) A report written at time 0 for 300 seconds into an empty
    cache whose hot tier works, and read one minute later. *)
Lemma setCachedData_lifetime_witness :
  snd (getCachedData Samples.textParse Samples.textStringify Samples.textTruthy 60000
         (fst (setCachedData Samples.textStringify 0 Samples.emptyTiers
                             1 "2025-01-01" "2025-01-07" "AD_UNIT" "report" 300))
         1 "2025-01-01" "2025-01-07" "AD_UNIT")
  = Resolved (Some "report").
Proof.
  exact (setCachedData_lifetime
           Samples.textParse Samples.textStringify Samples.textTruthy 0
           Samples.emptyTiers 1 "2025-01-01" "2025-01-07" "AD_UNIT" "report" 300 _
           eq_refl (or_intror (or_introl eq_refl)) 60000%Z).
Defined.

(** (witness) The same report, found in the hot tier. *)
Lemma getCachedData_fresh_witness :
  exists text expires,
    contents (redis (fst (setCachedData Samples.textStringify 0 Samples.emptyTiers
                                        1 "2025-01-01" "2025-01-07" "AD_UNIT"
                                        "report" 300)))
    !! generateCacheKey 1 "2025-01-01" "2025-01-07" "AD_UNIT" = Some (text, expires)
    /\ (60000 < expires)%Z
    /\ Samples.textParse text = Some "report".
Proof.
  destruct (getCachedData_fresh
              Samples.textParse Samples.textStringify Samples.textTruthy 60000
              (fst (setCachedData Samples.textStringify 0 Samples.emptyTiers
                                  1 "2025-01-01" "2025-01-07" "AD_UNIT" "report" 300))
              1 "2025-01-01" "2025-01-07" "AD_UNIT" "report" eq_refl)
    as [Hhot|(row & Hrow & _)].
  - exact Hhot.
  - eexists _, _. split; [reflexivity|]. split; [reflexivity|reflexivity].
Defined.

(** *** Warming the hot tier *)

Section Warm.
Context {V : Type}.
Variable parse : string -> option V.
Variable stringify : V -> string.
Variable truthy : V -> bool.

(** A value found in the durable tier only is copied to the hot tier for 5
    minutes, the durable tier staying as it is; during these 5 minutes the
    value is served from the hot tier, whatever has become of the durable
    tier, SQLite errors included. *)
Theorem getCachedData_warms_hot_tier now t userId startDate endDate dimensionType v :
  let cacheKey := generateCacheKey userId startDate endDate dimensionType in
  available (redis t) = true ->
  throws (redis t) (OpSetEx cacheKey) = false ->
  present truthy (getFromRedis parse now (redis t) cacheKey) = false ->
  getFromSQLite parse now (sqlite t) userId cacheKey = Resolved (Some v) ->
  truthy v = true ->
  let t1 := fst (getCachedData parse stringify truthy now t userId startDate endDate
                               dimensionType) in
  contents (redis t1) !! cacheKey = Some (stringify v, (now + 300000)%Z)
  /\ sqlite t1 = sqlite t
  /\ (parse (stringify v) = Some v ->
      stringify v <> "" ->
      throws (redis t) (OpGet cacheKey) = false ->
      forall now' durable,
        (now' < now + 300000)%Z ->
        snd (getCachedData parse stringify truthy now' (mkTiers (redis t1) durable)
                           userId startDate endDate dimensionType)
        = Resolved (Some v)).
Proof.
  intros cacheKey Hav Hset Hmiss Hdurable Htruthy. cbv zeta.
  unfold getCachedData. fold cacheKey. rewrite Hmiss, Hdurable, Htruthy.
  assert (Hen : redisEnabled (redis t) = true).
  { unfold available in Hav. now apply andb_true_iff in Hav as [-> _]. }
  rewrite Hen. cbn [andb fst redis sqlite].
  assert (Hsaved : saveToRedis stringify now (redis t) cacheKey v 300
                   = mkRedis (redisEnabled (redis t)) (redisClient (redis t))
                             (<[cacheKey := (stringify v, (now + 300 * 1000)%Z)]>
                                (contents (redis t)))
                             (throws (redis t))).
  { unfold saveToRedis. now rewrite Hav, Hset. }
  rewrite Hsaved. cbn [contents].
  split; [now rewrite lookup_insert_eq|]. split; [reflexivity|].
  intros Hparse Htext Hget now' durable Hnow.
  assert (Hhit : getFromRedis parse now'
                   (mkRedis (redisEnabled (redis t)) (redisClient (redis t))
                            (<[cacheKey := (stringify v, (now + 300 * 1000)%Z)]>
                               (contents (redis t)))
                            (throws (redis t)))
                   cacheKey = Some v).
  { unfold getFromRedis, available. cbn [redisEnabled redisClient throws contents].
    unfold available in Hav. rewrite Hav, Hget. cbn [negb].
    rewrite lookup_insert_eq.
    destruct (Z.ltb_spec now' (now + 300 * 1000)); [|lia].
    destruct (String.eqb_spec (stringify v) ""); [contradiction|].
    exact Hparse. }
  rewrite Hhit. cbn [present]. rewrite Htruthy. reflexivity.
Qed.

End Warm.

(** (witness) A report that only the durable tier holds. *)
Lemma getCachedData_warms_hot_tier_witness :
  contents (redis (fst (getCachedData Samples.textParse Samples.textStringify
                                      Samples.textTruthy 0 Samples.coldTiers
                                      1 "2025-01-01" "2025-01-07" "AD_UNIT")))
  !! generateCacheKey 1 "2025-01-01" "2025-01-07" "AD_UNIT"
  = Some ("report", 300000%Z).
Proof.
  exact (proj1 (getCachedData_warms_hot_tier
                  Samples.textParse Samples.textStringify Samples.textTruthy 0
                  Samples.coldTiers 1 "2025-01-01" "2025-01-07" "AD_UNIT" "report"
                  eq_refl eq_refl eq_refl eq_refl eq_refl)).
Defined.

(** *** Clearing *)

Lemma size_filter_split {K A} `{Countable K} (P : K * A -> Prop)
      `{!forall x, Decision (P x)} (m : gmap K A) :
  (size (filter P m) + size (filter (fun x => ~ P x) m) = size m)%nat.
Proof.
  rewrite <- map_size_disj_union by apply map_disjoint_filter_complement.
  now rewrite map_filter_union_complement.
Qed.

Section Clear.
Context {V : Type}.
Variable parse : string -> option V.

(** [clearExpiredCache] deletes the rows that expired before now and no
    other, and reports how many they were; no answer of [getFromSQLite] at
    that time is changed by it. *)
Theorem clearExpiredCache_keeps_live now s s' n :
  clearExpiredCache now s = (s', Resolved n) ->
  (forall key row,
      table s' !! key = Some row <->
      table s !! key = Some row /\ (now <= c_expires_at row)%Z)
  /\ (n + size (table s') = size (table s))%nat
  /\ (forall userId key,
         getFromSQLite parse now s' userId key = getFromSQLite parse now s userId key).
Proof.
  unfold clearExpiredCache.
  destruct (sqliteError s) as [err|] eqn:Herr; [discriminate|].
  intros [= <- <-]. cbn [table].
  assert (Hkept : forall key row,
             filter (fun kv => ~ (c_expires_at (snd kv) < now)%Z) (table s) !! key
             = Some row <->
             table s !! key = Some row /\ (now <= c_expires_at row)%Z).
  { intros key row. rewrite map_lookup_filter_Some. cbn [snd]. intuition lia. }
  split; [exact Hkept|]. split.
  - pose proof (map_subseteq_size _ _
                  (map_filter_subseteq (fun kv => ~ (c_expires_at (snd kv) < now)%Z)
                                       (table s))).
    lia.
  - intros userId key. unfold getFromSQLite. cbn [sqliteError table]. rewrite Herr.
    destruct (table s !! key) as [row|] eqn:Hrow.
    + destruct (Z.ltb_spec now (c_expires_at row)) as [Hlive|Hdead].
      * assert (Hk : filter (fun kv => ~ (c_expires_at (snd kv) < now)%Z) (table s) !! key
                     = Some row) by (apply Hkept; split; [exact Hrow|lia]).
        rewrite Hk. destruct (Z.ltb_spec now (c_expires_at row)); [reflexivity|lia].
      * rewrite andb_false_r.
        destruct (filter _ (table s) !! key) as [row'|] eqn:Hk; [|reflexivity].
        apply Hkept in Hk as [Hk _]. rewrite Hrow in Hk. injection Hk as <-.
        destruct (Z.ltb_spec now (c_expires_at row)); [lia|].
        now rewrite andb_false_r.
    + destruct (filter _ (table s) !! key) as [row'|] eqn:Hk; [|reflexivity].
      apply Hkept in Hk as [Hk _]. congruence.
Qed.

(** [getCacheStats] counts the rows of the user: when there is one at
    least, every one of them is either valid or expired, so that [total] is
    [valid] plus [expired]; when there is none, [total] is 0 and [valid] and
    [expired] are [null].  The promise rejects only when SQLite reports an
    error. *)
Theorem getCacheStats_counts now s userId :
  match getCacheStats now s userId with
  | Rejected err => sqliteError s = Some err
  | Resolved stats =>
      cs_total stats
      = size (filter (fun kv : string * CacheRow => c_user_id (snd kv) = userId) (table s))
      /\ match cs_valid stats, cs_expired stats with
         | Some valid, Some expired =>
             (0 < cs_total stats)%nat /\ (valid + expired = cs_total stats)%nat
         | None, None => cs_total stats = 0%nat
         | _, _ => False
         end
  end.
Proof.
  unfold getCacheStats. destruct (sqliteError s) as [err|]; [reflexivity|].
  set (rows := filter (fun kv : string * CacheRow => c_user_id (snd kv) = userId) (table s)).
  destruct (decide (size rows = 0%nat)) as [Hz|Hnz];
    cbn [cs_total cs_valid cs_expired]; [auto|].
  split; [reflexivity|]. split; [lia|].
  rewrite <- (size_filter_split (fun kv => (now < c_expires_at (snd kv))%Z) rows).
  f_equal. f_equal. apply map_filter_ext. intros key row _. cbn [snd]. lia.
Qed.

End Clear.

(** (witness) The sample row, which expires at 600000, cleared at 700000. *)
Lemma clearExpiredCache_keeps_live_witness :
  (1 + size (table (fst (clearExpiredCache 700000 (sqlite Samples.coldTiers))))
   = size (table (sqlite Samples.coldTiers)))%nat.
Proof.
  exact (proj1 (proj2 (clearExpiredCache_keeps_live
                         Samples.textParse 700000 (sqlite Samples.coldTiers) _ 1%nat
                         eq_refl))).
Defined.

(** *** Keys *)

Lemma append_nil (s : string) : ("" ++ s)%string = s.
Proof. reflexivity. Qed.

Lemma append_cons c (a s : string) : (String c a ++ s)%string = String c (a ++ s).
Proof. reflexivity. Qed.

Lemma colon_split a b x y :
  hasColon a = false -> hasColon b = false ->
  (a ++ ":" ++ x = b ++ ":" ++ y)%string -> a = b /\ x = y.
Proof.
  revert b. induction a as [|c a IH]; intros [|c' b] Ha Hb H;
    rewrite ?append_cons, ?append_nil in H; cbn [hasColon] in Ha, Hb.
  - injection H as ->. auto.
  - injection H as <- _. discriminate.
  - injection H as -> _. discriminate.
  - injection H as -> H. apply orb_false_iff in Ha as [_ Ha], Hb as [_ Hb].
    destruct (IH b Ha Hb H) as [-> ->]. auto.
Qed.

Lemma prefix_colon a b rest :
  hasColon a = false -> hasColon b = false ->
  String.prefix (a ++ ":") (b ++ ":" ++ rest) = true -> a = b.
Proof.
  revert b. induction a as [|c a IH]; intros [|c' b] Ha Hb H;
    rewrite ?append_cons, ?append_nil in H; cbn [hasColon String.prefix] in Ha, Hb, H.
  - reflexivity.
  - destruct (ascii_dec ":" c') as [<-|]; [discriminate|discriminate].
  - destruct (ascii_dec c ":") as [->|]; [discriminate|discriminate].
  - destruct (ascii_dec c c') as [->|]; [|discriminate].
    apply orb_false_iff in Ha as [_ Ha], Hb as [_ Hb].
    f_equal. now apply IH.
Qed.

Lemma prefix_append a b : String.prefix a (a ++ b) = true.
Proof.
  induction a as [|c a IH]; rewrite ?append_cons, ?append_nil.
  - now destruct b.
  - cbn [String.prefix]. destruct (ascii_dec c c); [exact IH|contradiction].
Qed.

Lemma pretty_N_go_colon x s : hasColon s = false -> hasColon (pretty_N_go x s) = false.
Proof.
  revert s. induction (N.lt_wf_0 x) as [x _ IH]; intros s Hs.
  destruct (decide (x = 0)%N) as [->|Hx]; [now rewrite pretty_N_go_0|].
  rewrite pretty_N_go_step by lia. apply IH.
  - apply N.div_lt; lia.
  - cbn [hasColon]. rewrite Hs, orb_false_r.
    unfold pretty_N_char. now repeat case_match.
Qed.

Lemma pretty_Z_colon (z : Z) : hasColon (pretty z) = false.
Proof.
  assert (Hpos : forall p : positive, hasColon (pretty p) = false).
  { intros p. unfold pretty, pretty_positive, pretty, pretty_N.
    case_decide; [reflexivity|]. now apply pretty_N_go_colon. }
  destruct z as [|p|p]; unfold pretty, pretty_Z; [reflexivity|apply Hpos|].
  rewrite append_cons, append_nil. cbn [hasColon]. now rewrite Hpos.
Qed.

(** The key of an entry tells the user, the range and the dimension: two
    requests whose dates hold no colon have the same key only when they are
    the same request. *)
Theorem generateCacheKey_injective userId startDate endDate dimensionType
        userId' startDate' endDate' dimensionType' :
  hasColon startDate = false -> hasColon endDate = false ->
  hasColon startDate' = false -> hasColon endDate' = false ->
  generateCacheKey userId startDate endDate dimensionType
  = generateCacheKey userId' startDate' endDate' dimensionType' ->
  userId = userId' /\ startDate = startDate' /\ endDate = endDate'
  /\ dimensionType = dimensionType'.
Proof.
  intros Hs He Hs' He' Hkey. unfold generateCacheKey in Hkey.
  apply GamFacts.append_inj_l in Hkey.
  apply colon_split in Hkey as [Hu Hkey]; try apply pretty_Z_colon.
  apply colon_split in Hkey as [-> Hkey]; try assumption.
  apply colon_split in Hkey as [-> ->]; try assumption.
  apply (inj pretty) in Hu. auto.
Qed.

(** (witness) Two weeks of the same user. *)
Lemma generateCacheKey_injective_witness :
  hasColon "2025-01-01" = false
  /\ hasColon "2025-01-07" = false
  /\ (1%Z = 1%Z /\ "2025-01-01" = "2025-01-01" /\ "2025-01-07" = "2025-01-07"
      /\ "AD_UNIT" = "AD_UNIT").
Proof.
  split; [reflexivity|]. split; [reflexivity|].
  exact (generateCacheKey_injective 1 "2025-01-01" "2025-01-07" "AD_UNIT"
                                    1 "2025-01-01" "2025-01-07" "AD_UNIT"
                                    eq_refl eq_refl eq_refl eq_refl eq_refl).
Defined.

(** The hypothesis on the dates is needed: a colon in a date can pass for
    the separator. *)
Example generateCacheKey_colon :
  generateCacheKey 1 "a:b" "c" "AD_UNIT" = generateCacheKey 1 "a" "b:c" "AD_UNIT".
Proof. reflexivity. Qed.

Lemma append_assoc (a b c : string) : ((a ++ b) ++ c = a ++ b ++ c)%string.
Proof.
  induction a as [|x a IH]; rewrite ?append_cons, ?append_nil; [reflexivity|].
  now rewrite IH.
Qed.

Lemma userKey_own userId startDate endDate dimensionType :
  userKey userId (generateCacheKey userId startDate endDate dimensionType) = true.
Proof.
  unfold userKey, generateCacheKey.
  replace ("gam:" ++ pretty userId ++ ":" ++ startDate ++ ":" ++ endDate ++ ":"
             ++ dimensionType)%string
    with (("gam:" ++ pretty userId ++ ":")
            ++ startDate ++ ":" ++ endDate ++ ":" ++ dimensionType)%string.
  - apply prefix_append.
  - now rewrite !append_assoc.
Qed.

Lemma userKey_other userId other startDate endDate dimensionType :
  other <> userId ->
  userKey userId (generateCacheKey other startDate endDate dimensionType) = false.
Proof.
  intros Hne. destruct (userKey _ _) eqn:Hkey; [|reflexivity].
  exfalso. apply Hne. unfold userKey, generateCacheKey in Hkey. simpl in Hkey.
  apply prefix_colon in Hkey; try apply pretty_Z_colon.
  symmetry. now apply (inj pretty).
Qed.

Section ClearUser.
Context {V : Type}.
Variable parse : string -> option V.
Variable stringify : V -> string.
Variable truthy : V -> bool.

(** [clearUserCache] deletes from the durable tier the rows of the user and
    no other, and reports how many they were; it leaves in the hot tier
    every entry of every other user.  When the hot tier is out of use, or
    its [keys] and [del] commands work, nothing is left of the user: every
    read of the user resolves to [null] afterwards. *)
Theorem clearUserCache_isolates t userId t' n :
  clearUserCache t userId = (t', Resolved n) ->
  (forall key row,
      table (sqlite t') !! key = Some row <->
      table (sqlite t) !! key = Some row /\ c_user_id row <> userId)
  /\ (n + size (table (sqlite t')) = size (table (sqlite t)))%nat
  /\ (forall other startDate endDate dimensionType,
         other <> userId ->
         contents (redis t') !! generateCacheKey other startDate endDate dimensionType
         = contents (redis t) !! generateCacheKey other startDate endDate dimensionType)
  /\ (available (redis t) = false
      \/ throws (redis t) (OpKeys ("gam:" ++ pretty userId ++ ":*")%string) = false
         /\ throws (redis t) OpDel = false ->
      forall now startDate endDate dimensionType,
        snd (getCachedData parse stringify truthy now t' userId startDate endDate
                           dimensionType)
        = Resolved None).
Proof.
  unfold clearUserCache.
  destruct (sqliteError (sqlite t)) as [err|] eqn:Herr; [discriminate|].
  set (r' := if negb (available (redis t)) then redis t else _).
  intros [= <- <-]. cbn [sqlite redis table].
  assert (Hkept : forall key row,
             filter (fun kv => c_user_id (snd kv) <> userId) (table (sqlite t)) !! key
             = Some row <->
             table (sqlite t) !! key = Some row /\ c_user_id row <> userId).
  { intros key row. rewrite map_lookup_filter_Some. reflexivity. }
  assert (Hother : forall key,
             userKey userId key = false -> contents r' !! key = contents (redis t) !! key).
  { intros key Hkey. subst r'.
    destruct (negb (available (redis t))); [reflexivity|].
    destruct (throws (redis t) (OpKeys _)); [reflexivity|].
    destruct (0 <? size _)%nat; [|reflexivity].
    destruct (throws (redis t) OpDel); [reflexivity|]. cbn [contents].
    destruct (contents (redis t) !! key) as [x|] eqn:Hx.
    - apply map_lookup_filter_Some. auto.
    - apply map_lookup_filter_None. now left. }
  assert (Hflags : available r' = available (redis t) /\ throws r' = throws (redis t)).
  { subst r'. destruct (negb (available (redis t))); [auto|].
    destruct (throws (redis t) (OpKeys _)); [auto|].
    destruct (0 <? size _)%nat; [|auto].
    destruct (throws (redis t) OpDel); auto. }
  split; [exact Hkept|]. split; [|split].
  - pose proof (map_subseteq_size _ _
                  (map_filter_subseteq (fun kv => c_user_id (snd kv) <> userId)
                                       (table (sqlite t)))).
    lia.
  - intros other startDate endDate dimensionType Hne.
    apply Hother. now apply userKey_other.
  - intros Hhot now startDate endDate dimensionType.
    unfold getCachedData. cbn [redis sqlite].
    pose proof (userKey_own userId startDate endDate dimensionType) as Hown.
    set (cacheKey := generateCacheKey userId startDate endDate dimensionType) in *.
    assert (Hmiss : getFromRedis parse now r' cacheKey = None).
    { unfold getFromRedis. destruct Hflags as [Ha Ht]. rewrite Ha, Ht.
      destruct (available (redis t)) eqn:Hav; cbn [negb]; [|reflexivity].
      destruct Hhot as [Hhot|[Hkeys Hdel]]; [discriminate|].
      destruct (throws (redis t) (OpGet cacheKey)); [reflexivity|].
      assert (Hgone : contents r' !! cacheKey = None).
      { subst r'. rewrite Hkeys, Hdel.
        destruct (contents (redis t) !! cacheKey) as [x|] eqn:Hx.
        - assert (Hin : filter (fun kv => userKey userId (fst kv) = true)
                               (contents (redis t)) !! cacheKey = Some x).
          { apply map_lookup_filter_Some. split; [exact Hx|exact Hown]. }
          destruct (Nat.ltb_spec 0 (size (filter (fun kv => userKey userId (fst kv) = true)
                                                 (contents (redis t))))) as [Hpos|Hzero].
          + cbn [contents]. apply map_lookup_filter_None. right.
            intros y Hy. cbn [fst]. rewrite Hown. discriminate.
          + assert (Hsize : size (filter (fun kv => userKey userId (fst kv) = true)
                                         (contents (redis t))) = 0%nat) by lia.
            apply map_size_empty_iff in Hsize. rewrite Hsize in Hin.
            now rewrite lookup_empty in Hin.
        - destruct (0 <? size _)%nat; [|exact Hx].
          cbn [contents]. apply map_lookup_filter_None. now left. }
      now rewrite Hgone. }
    rewrite Hmiss. cbn [present]. unfold getFromSQLite. cbn [sqliteError table].
    destruct (filter _ (table (sqlite t)) !! cacheKey) as [row|] eqn:Hrow;
      [|reflexivity].
    apply Hkept in Hrow as [_ Hrow].
    destruct (Z.eqb_spec (c_user_id row) userId); [contradiction|reflexivity].
Qed.

End ClearUser.

(** (witness) The sample cache cleared for user 1. *)
Lemma clearUserCache_isolates_witness :
  snd (getCachedData Samples.textParse Samples.textStringify Samples.textTruthy 0
         (fst (clearUserCache Samples.coldTiers 1))
         1 "2025-01-01" "2025-01-07" "AD_UNIT")
  = Resolved None.
Proof.
  destruct (clearUserCache_isolates
              Samples.textParse Samples.textStringify Samples.textTruthy
              Samples.coldTiers 1 _ 1%nat eq_refl)
    as (_ & _ & _ & Hgone).
  apply Hgone. right. split; reflexivity.
Defined.

End CacheFacts.

(* ====================================================================== *)
(** ** Facts about the in-memory cache *)
(* ====================================================================== *)

Module FbCacheFacts.
Import Js JsObject JsObjectFacts FbCache.

(** *** Keys *)

Lemma get_Permutation {V} (o o' : JsObject.t V) k :
  NoDup (map fst o) -> o ≡ₚ o' -> get k o = get k o'.
Proof.
  intros Hnd Hperm.
  assert (Hnd' : NoDup (map fst o')).
  { assert (Hkeys : map fst o ≡ₚ map fst o') by (now apply fmap_Permutation).
    now rewrite <- Hkeys. }
  destruct (get k o) as [v|] eqn:Hv.
  - symmetry. apply In_get; [exact Hnd'|].
    apply get_In in Hv. apply list_elem_of_In. rewrite <- Hperm.
    now apply list_elem_of_In.
  - destruct (get k o') as [v'|] eqn:Hv'; [|reflexivity].
    apply get_In in Hv'. assert (Hin : In (k, v') o).
    { apply list_elem_of_In. rewrite Hperm. now apply list_elem_of_In. }
    apply In_get in Hin; [congruence|exact Hnd].
Qed.

(** The key does not depend on the order in which the parameters were
    written: two objects with the same properties, in whatever order, give
    the same key. *)
Theorem generateCacheKey_order_independent {V} (stringify : V -> string) prefix
        (params params' : JsObject.t V) :
  NoDup (map fst params) ->
  params ≡ₚ params' ->
  generateCacheKey stringify prefix params = generateCacheKey stringify prefix params'.
Proof.
  intros Hnd Hperm. unfold generateCacheKey.
  assert (Hkeys : sortedKeys params = sortedKeys params').
  { unfold sortedKeys. apply (Sorted_unique String.le).
    - apply Sorted_merge_sort; apply _.
    - apply Sorted_merge_sort; apply _.
    - rewrite !merge_sort_Permutation.
      apply fmap_Permutation.
      now rewrite !entries_Permutation. }
  rewrite <- Hkeys.
  assert (Hrender : map (renderParam stringify params) (sortedKeys params)
                    = map (renderParam stringify params') (sortedKeys params)).
  { apply map_ext. intros key. unfold renderParam.
    now rewrite (get_Permutation params params' key Hnd Hperm). }
  now rewrite Hrender.
Qed.

(** (witness) The parameters of a statistics request, written in two
    orders. *)
Lemma generateCacheKey_order_independent_witness :
  generateCacheKey (fun s : string => s) "gam_stats"
                   [("startDate", "2025-01-01"); ("endDate", "2025-01-07")]
  = generateCacheKey (fun s : string => s) "gam_stats"
                     [("endDate", "2025-01-07"); ("startDate", "2025-01-01")].
Proof.
  apply generateCacheKey_order_independent.
  - cbn [map fst]. apply NoDup_cons. split; [|apply NoDup_singleton].
    intros H. apply list_elem_of_singleton in H. discriminate.
  - apply Permutation_swap.
Defined.

Example generateCacheKey_sample :
  generateCacheKey (fun s : string => s) "gam_stats"
                   [("startDate", "2025-01-01"); ("endDate", "2025-01-07")]
  = "gam_stats:endDate=2025-01-07&startDate=2025-01-01"
  /\ generateCacheKey (fun s : string => s) "gam_stats" [] = "gam_stats".
Proof. split; reflexivity. Qed.

(** *** Requests *)

Section Requests.
Context {V : Type}.
Implicit Types (st : State (V := V)) (c : gmap string (V * Z)).

Lemma cacheOf_withCache l c st : cacheOf l (withCache l c st) = c.
Proof. now destruct l. Qed.

Lemma cacheOf_withCache_other l l' c st :
  l <> l' -> cacheOf l' (withCache l c st) = cacheOf l' st.
Proof. destruct l, l'; intros H; try reflexivity; now contradiction H. Qed.

Lemma cacheOf_withStats l l' s st : cacheOf l' (withStats l s st) = cacheOf l' st.
Proof. now destruct l, l'. Qed.

Lemma statsOf_withStats l s st : statsOf l (withStats l s st) = s.
Proof. now destruct l. Qed.

Lemma statsOf_withCache l l' c st : statsOf l' (withCache l c st) = statsOf l' st.
Proof. now destruct l, l'. Qed.

Lemma withCache_same l st : withCache l (cacheOf l st) st = st.
Proof. now destruct l, st. Qed.

Lemma ttl_pos l : (0 < ttl l)%Z.
Proof. destruct l; reflexivity. Qed.

(** Once [cachedRequest] has stored the result of [fn] under a key, every
    call for that key made during the lifetime of the cache is answered
    with this result, marked as cached, without calling [fn]: it counts as
    a hit and leaves the cache as it is.  The first call after the lifetime
    is a miss again and calls [fn]. *)
Theorem cachedRequest_serves_from_cache now st cacheType key result settledAt st1 level :
  levelOf cacheType = Some level ->
  (0 <= settledAt)%Z ->
  cachedRequest now st cacheType key (Resolved result) settledAt
  = (st1, true, Resolved (Fresh result)) ->
  (forall now' fn' settledAt',
      (now' <= settledAt + ttl level * 1000)%Z ->
      cachedRequest now' st1 cacheType key fn' settledAt'
      = (withStats level (mkStats (S (hits (statsOf level st1)))
                                  (misses (statsOf level st1))) st1,
         false, Resolved (Cached result cacheType now')))
  /\ (forall now' fn' settledAt',
         (settledAt + ttl level * 1000 < now')%Z ->
         snd (fst (cachedRequest now' st1 cacheType key fn' settledAt')) = true).
Proof.
  intros Hlevel Hclock Hcall.
  assert (Hentry : cacheOf level st1 !! key
                   = Some (result, (settledAt + ttl level * 1000)%Z)).
  { unfold cachedRequest in Hcall. rewrite Hlevel in Hcall.
    destruct (ncGet now key (cacheOf level st)) as [cache [value|]]; [discriminate|].
    injection Hcall as <-. rewrite cacheOf_withCache. unfold ncSet.
    rewrite cacheOf_withStats, cacheOf_withCache.
    rewrite lookup_insert_eq.
    pose proof (ttl_pos level).
    destruct (Z.eqb_spec (ttl level) 0); [lia|reflexivity]. }
  pose proof (ttl_pos level) as Hpos.
  split.
  - intros now' fn' settledAt' Hnow. unfold cachedRequest. rewrite Hlevel.
    unfold ncGet. rewrite Hentry.
    destruct (Z.ltb_spec (settledAt + ttl level * 1000) now'); [lia|].
    rewrite andb_false_r. now rewrite withCache_same.
  - intros now' fn' settledAt' Hnow. unfold cachedRequest. rewrite Hlevel.
    unfold ncGet. rewrite Hentry.
    destruct (Z.ltb_spec (settledAt + ttl level * 1000) now'); [|lia].
    destruct (Z.eqb_spec (settledAt + ttl level * 1000) 0) as [Hz|Hz]; [lia|].
    cbn [negb andb]. now destruct fn'.
Qed.

(** With a pattern, [clearCache] deletes from the cache it is told the
    entries whose key holds the pattern and no other, and counts them; the
    other caches and the counters of hits and misses stay as they are. *)
Theorem clearCache_pattern st cacheType level pattern :
  levelOf cacheType = Some level ->
  pattern <> "" ->
  let st' := fst (clearCache (Some cacheType) (Some pattern) st) in
  let cleared := snd (clearCache (Some cacheType) (Some pattern) st) in
  (forall key,
      cacheOf level st' !! key
      = if strIncludes pattern key then None else cacheOf level st !! key)
  /\ (forall other, other <> level -> cacheOf other st' = cacheOf other st)
  /\ (forall l, statsOf l st' = statsOf l st)
  /\ (total cleared + size (cacheOf level st') = size (cacheOf level st))%nat
  /\ byType cleared = [(cacheType, total cleared)].
Proof.
  intros Hlevel Hpattern. cbv zeta. unfold clearCache.
  assert (Htype : String.eqb cacheType "" = false).
  { destruct cacheType; [discriminate|reflexivity]. }
  rewrite Htype. cbn [fold_left]. unfold clearOne. rewrite Hlevel.
  destruct (String.eqb_spec pattern ""); [contradiction|].
  cbn [fst snd total byType JsObject.set]. rewrite cacheOf_withCache.
  split; [|split; [|split; [|split]]].
  - intros key. destruct (strIncludes pattern key) eqn:Hinc.
    + apply map_lookup_filter_None. right. intros x _. cbn [fst]. now rewrite Hinc.
    + destruct (cacheOf level st !! key) as [x|] eqn:Hx.
      * apply map_lookup_filter_Some. split; [exact Hx|]. cbn [fst]. now rewrite Hinc.
      * apply map_lookup_filter_None. now left.
  - intros other Hne. apply cacheOf_withCache_other. congruence.
  - intros l. apply statsOf_withCache.
  - rewrite <- (CacheFacts.size_filter_split
                  (fun kv => strIncludes pattern (fst kv) = true) (cacheOf level st)).
    reflexivity.
  - reflexivity.
Qed.

End Requests.

(** (witness) A report stored at time 1000 in the short cache, asked for
    again 5 minutes later. *)
Lemma cachedRequest_serves_from_cache_witness :
  snd (cachedRequest 301000 (fst (fst (cachedRequest 0 Samples.emptyCaches "short" "k"
                                                     (Resolved "report") 1000)))
                     "short" "k" (Rejected Gam.authError) 301000)
  = Resolved (Cached "report" "short" 301000).
Proof.
  exact (f_equal snd
           (proj1 (cachedRequest_serves_from_cache
                     0 Samples.emptyCaches "short" "k" "report" 1000 _ Short eq_refl
                     ltac:(lia) eq_refl)
                  301000%Z (Rejected Gam.authError) 301000%Z ltac:(simpl; lia))).
Defined.

(** (witness) The short cache holding a key of the statistics route,
    cleared of the keys with [gam_]. *)
Lemma clearCache_pattern_witness :
  cacheOf Short
          (fst (clearCache (Some "short") (Some "gam_")
                           (fst (fst (cachedRequest 0 Samples.emptyCaches "short"
                                                    "gam_stats" (Resolved "report")
                                                    1000)))))
  !! "gam_stats" = None.
Proof.
  destruct (clearCache_pattern
              (fst (fst (cachedRequest 0 Samples.emptyCaches "short" "gam_stats"
                                       (Resolved "report") 1000)))
              "short" Short "gam_" eq_refl ltac:(discriminate))
    as [Hgone _].
  exact (Hgone "gam_stats").
Defined.

(** *** Counters *)

Section Calls.
Context {V : Type}.
Implicit Types (st : State (V := V)) (c : gmap string (V * Z)).

Lemma statsOf_withStats_other l l' s st :
  l <> l' -> statsOf l' (withStats l s st) = statsOf l' st.
Proof. destruct l, l'; intros H; try reflexivity; now contradiction H. Qed.

Lemma Level_cases (l l' : Level) : l = l' \/ l <> l'.
Proof. destruct l, l'; auto; now right. Qed.

Lemma levelOf_levelName cacheType l :
  levelOf cacheType = Some l <-> cacheType = levelName l.
Proof.
  unfold levelOf. split.
  - destruct (String.eqb_spec cacheType "short") as [->|_]; [now intros [= <-]|].
    destruct (String.eqb_spec cacheType "medium") as [->|_]; [now intros [= <-]|].
    destruct (String.eqb_spec cacheType "long") as [->|_]; [now intros [= <-]|].
    destruct (String.eqb_spec cacheType "insights") as [->|_]; [now intros [= <-]|].
    discriminate.
  - intros ->. now destruct l.
Qed.

Lemma ncGet_size now key c :
  (size (fst (ncGet now key c)) <= size c)%nat
  /\ (snd (ncGet now key c) = None ->
      fst (ncGet now key c) !! key = None).
Proof.
  unfold ncGet. destruct (c !! key) as [[v t]|] eqn:Hk.
  - destruct (negb (t =? 0)%Z && (t <? now)%Z); cbn [fst snd].
    + split; [|intros _; apply lookup_delete_eq].
      rewrite map_size_delete, Hk. lia.
    + split; [lia|discriminate].
  - cbn [fst snd]. split; [lia|auto].
Qed.

(** One call of [cachedRequest] for the cache [l] adds one to the hits or
    to the misses of [l], and an entry at most with a miss. *)
Lemma cachedRequest_counted now st cacheType key (fn : Settled V JsError) settledAt l :
  let st' := fst (fst (cachedRequest now st cacheType key fn settledAt)) in
  let n := if String.eqb cacheType (levelName l) then 1%nat else 0%nat in
  (hits (statsOf l st') + misses (statsOf l st')
   = hits (statsOf l st) + misses (statsOf l st) + n)%nat
  /\ (misses (statsOf l st) <= misses (statsOf l st'))%nat
  /\ (size (cacheOf l st') + misses (statsOf l st)
      <= size (cacheOf l st) + misses (statsOf l st'))%nat.
Proof.
  cbv zeta. unfold cachedRequest.
  destruct (levelOf cacheType) as [l'|] eqn:Hlevel.
  - apply levelOf_levelName in Hlevel as ->.
    destruct (ncGet_size now key (cacheOf l' st)) as [Hsize Hgone].
    destruct (ncGet now key (cacheOf l' st)) as [cache [value|]]; cbn [fst snd] in *.
    + destruct (Level_cases l' l) as [->|Hne].
      * rewrite String.eqb_refl, statsOf_withStats, cacheOf_withStats,
          cacheOf_withCache, statsOf_withCache.
        cbn [hits misses]. lia.
      * assert (String.eqb (levelName l') (levelName l) = false) as ->.
        { apply String.eqb_neq. now destruct l', l. }
        rewrite statsOf_withStats_other, statsOf_withCache, cacheOf_withStats,
          cacheOf_withCache_other by exact Hne.
        lia.
    + specialize (Hgone eq_refl).
      destruct (Level_cases l' l) as [->|Hne].
      * rewrite String.eqb_refl.
        destruct fn as [result|error]; cbn [fst].
        -- rewrite statsOf_withCache, statsOf_withStats, cacheOf_withCache,
             statsOf_withCache.
           cbn [hits misses]. unfold ncSet.
           rewrite cacheOf_withStats, cacheOf_withCache.
           rewrite map_size_insert, Hgone. lia.
        -- rewrite statsOf_withStats, cacheOf_withStats, cacheOf_withCache,
             statsOf_withCache.
           cbn [hits misses]. lia.
      * assert (String.eqb (levelName l') (levelName l) = false) as ->.
        { apply String.eqb_neq. now destruct l', l. }
        destruct fn as [result|error]; cbn [fst].
        -- rewrite statsOf_withCache, statsOf_withStats_other, statsOf_withCache,
             cacheOf_withCache_other, cacheOf_withStats, cacheOf_withCache_other
             by exact Hne.
           lia.
        -- rewrite statsOf_withStats_other, statsOf_withCache, cacheOf_withStats,
             cacheOf_withCache_other by exact Hne.
           lia.
  - assert (String.eqb cacheType (levelName l) = false) as ->.
    { apply String.eqb_neq. intros ->. now destruct l. }
    cbn [fst]. lia.
Qed.

Lemma clearOne_shrinks pattern (acc : State (V := V) * Cleared) cacheType l :
  statsOf l (fst (clearOne pattern acc cacheType)) = statsOf l (fst acc)
  /\ (size (cacheOf l (fst (clearOne pattern acc cacheType)))
      <= size (cacheOf l (fst acc)))%nat.
Proof.
  destruct acc as [st cleared]. unfold clearOne. cbn [fst].
  destruct (levelOf cacheType) as [l'|]; [|cbn [fst]; split; [reflexivity|lia]].
  assert (Hany : forall c,
             (size c <= size (cacheOf l' st))%nat ->
             statsOf l (withCache l' c st) = statsOf l st
             /\ (size (cacheOf l (withCache l' c st)) <= size (cacheOf l st))%nat).
  { intros c Hc. rewrite statsOf_withCache. split; [reflexivity|].
    destruct (Level_cases l' l) as [->|Hne].
    - now rewrite cacheOf_withCache.
    - rewrite cacheOf_withCache_other by exact Hne. lia. }
  destruct pattern as [p|].
  - destruct (String.eqb p ""); cbn [fst]; apply Hany.
    + rewrite map_size_empty. lia.
    + apply map_subseteq_size, map_filter_subseteq.
  - cbn [fst]. apply Hany. rewrite map_size_empty. lia.
Qed.

Lemma clearCache_shrinks type pattern st l :
  statsOf l (fst (clearCache type pattern st)) = statsOf l st
  /\ (size (cacheOf l (fst (clearCache type pattern st))) <= size (cacheOf l st))%nat.
Proof.
  unfold clearCache.
  set (typesToClear := match type with Some t => _ | None => _ end).
  clearbody typesToClear.
  change st with (fst (st, mkCleared 0 [])) at 2 4.
  generalize (st, mkCleared 0 []). clear st.
  induction typesToClear as [|t ts IH]; intros acc; cbn [fold_left].
  - split; [reflexivity|lia].
  - destruct (IH (clearOne pattern acc t)) as [Hs Hc].
    destruct (clearOne_shrinks pattern acc t l) as [Hs' Hc'].
    split; [congruence|lia].
Qed.

Lemma step_counted st (call : Call (V := V)) l :
  let n := if asks l call then 1%nat else 0%nat in
  (hits (statsOf l (step st call)) + misses (statsOf l (step st call))
   = hits (statsOf l st) + misses (statsOf l st) + n)%nat
  /\ (misses (statsOf l st) <= misses (statsOf l (step st call)))%nat
  /\ (size (cacheOf l (step st call)) + misses (statsOf l st)
      <= size (cacheOf l st) + misses (statsOf l (step st call)))%nat.
Proof.
  destruct call as [now cacheType key fn settledAt|type pattern]; cbn [step asks].
  - apply cachedRequest_counted.
  - destruct (clearCache_shrinks type pattern st l) as [-> Hc]. cbv zeta. lia.
Qed.

(** Whatever calls the module has served since it was loaded, each of its
    caches holds at most as many entries as it has counted misses, and its
    hits and misses add up to the calls of [cachedRequest] made for it:
    every such call is counted once, as a hit or as a miss, also when [fn]
    fails, and [clearCache] resets no counter. *)
Theorem caches_bounded_by_misses (calls : list (Call (V := V))) l :
  let st := run calls in
  (size (cacheOf l st) <= misses (statsOf l st))%nat
  /\ (hits (statsOf l st) + misses (statsOf l st)
      = length (List.filter (asks l) calls))%nat.
Proof.
  cbv zeta. unfold run.
  assert (Hfrom : forall st,
             (size (cacheOf l st) <= misses (statsOf l st))%nat ->
             (size (cacheOf l (fold_left step calls st))
              <= misses (statsOf l (fold_left step calls st)))%nat
             /\ (hits (statsOf l (fold_left step calls st))
                 + misses (statsOf l (fold_left step calls st))
                 = hits (statsOf l st) + misses (statsOf l st)
                   + length (List.filter (asks l) calls))%nat).
  { induction calls as [|call calls IH]; intros st Hst; cbn [fold_left List.filter].
    - cbn [length]. lia.
    - destruct (step_counted st call l) as (Hsum & Hmiss & Hsize). cbv zeta in Hsum.
      destruct (IH (step st call)) as [Hb Hc]; [lia|].
      split; [exact Hb|]. rewrite Hc, Hsum.
      destruct (asks l call); cbn [length]; lia. }
  destruct (Hfrom initial) as [Hb Hc].
  { destruct l; cbn; rewrite map_size_empty; lia. }
  split; [exact Hb|]. rewrite Hc. now destruct l.
Qed.

End Calls.

End FbCacheFacts.

(* ====================================================================== *)
(** ** Facts about the statistics route *)
(* ====================================================================== *)

Module RouteFacts.
Import Js Data Cache Route.

Section Handler.
Variable parse : string -> option Report.
Variable stringify : Report -> string.

(** *** The steps of the handler *)

Lemma caught_effect w message :
  let w' := fst (caught w message) in
  Store.flags (store w')
  = Store.mkFlags (Store.workerRunning (Store.flags (store w))) false
  /\ Store.db (store w') = Store.db (store w)
  /\ tiers w' = tiers w
  /\ fetched w' = fetched w
  /\ (snd (caught w message) = Failed 504 tooLong true
      \/ snd (caught w message) = Failed 500 message false).
Proof.
  cbv zeta. unfold caught. cbn [fst snd withStore store tiers fetched].
  repeat split. destruct (strIncludes "TIMEOUT" message); auto.
Qed.

(** A read of the cache that finds nothing leaves both tiers as they are,
    and SQLite has answered. *)
Lemma getCachedData_miss now t userId startDate endDate dimensionType t' :
  getCachedData parse stringify truthy now t userId startDate endDate dimensionType
  = (t', Resolved None) ->
  t' = mkTiers (redis t) (sqlite t) /\ sqliteError (sqlite t) = None.
Proof.
  unfold getCachedData.
  destruct (present truthy (getFromRedis parse now (redis t) _)) eqn:Hp.
  - intros [= <- Hr]. rewrite Hr in Hp. discriminate.
  - unfold getFromSQLite. destruct (sqliteError (sqlite t)) as [err|]; [discriminate|].
    destruct (table (sqlite t) !! _) as [row|].
    + destruct (_ && _).
      * destruct (parse (c_data row)); [discriminate|]. now intros [= <-].
      * now intros [= <-].
    + now intros [= <-].
Qed.

(** What a read of the cache returns for a key whose row is known, when the
    hot tier is out of use, holds nothing under the key or holds the text
    of the row with the same time of expiry. *)
Lemma getCachedData_entry now t userId startDate endDate dimensionType row :
  let cacheKey := generateCacheKey userId startDate endDate dimensionType in
  sqliteError (sqlite t) = None ->
  table (sqlite t) !! cacheKey = Some row ->
  c_user_id row = userId ->
  available (redis t) = false
  \/ contents (redis t) !! cacheKey = None
  \/ contents (redis t) !! cacheKey = Some (c_data row, c_expires_at row) ->
  snd (getCachedData parse stringify truthy now t userId startDate endDate dimensionType)
  = if (now <? c_expires_at row)%Z then Resolved (parse (c_data row))
    else Resolved None.
Proof.
  intros cacheKey Herr Hrow Huser Hhot.
  assert (Hdurable : getFromSQLite parse now (sqlite t) userId cacheKey
                     = if (now <? c_expires_at row)%Z then Resolved (parse (c_data row))
                       else Resolved None).
  { unfold getFromSQLite. rewrite Herr, Hrow, Huser, Z.eqb_refl. reflexivity. }
  assert (Hhit : getFromRedis parse now (redis t) cacheKey = None
                 \/ (now <? c_expires_at row)%Z = true
                    /\ getFromRedis parse now (redis t) cacheKey = parse (c_data row)).
  { unfold getFromRedis. destruct Hhot as [Ha|[Hc|Hc]].
    - rewrite Ha. now left.
    - destruct (negb _); [now left|]. destruct (throws _ _); [now left|].
      rewrite Hc. now left.
    - destruct (negb _); [now left|]. destruct (throws _ _); [now left|].
      rewrite Hc. destruct (now <? c_expires_at row)%Z; [|now left].
      destruct (negb (String.eqb _ _)); [now right|now left]. }
  unfold getCachedData. fold cacheKey.
  destruct Hhit as [Hmiss|[Hlive Hhit]].
  - rewrite Hmiss. cbn [present]. rewrite Hdurable.
    destruct (now <? c_expires_at row)%Z; reflexivity.
  - rewrite Hhit, Hdurable, Hlive.
    destruct (present truthy (parse (c_data row))); reflexivity.
Qed.

Lemma requestedRange_explicit now req startDate endDate :
  q_startDate req = Some startDate ->
  q_endDate req = Some endDate ->
  requestedRange now req = Resolved (startDate, endDate).
Proof.
  intros Hs He. unfold requestedRange. rewrite Hs, He.
  now destruct (q_days req).
Qed.

(** The path of an answer that is not served from the store or the cache:
    both were read and had nothing, the upstream answered in time, and its
    result went to the cache and, for a single day, to the day store. *)
Lemma statistics_fresh env w req w1 report dataInfo cacheType stamp :
  statistics parse stringify env w req
  = (w1, Sent report dataInfo (mkCacheInfo false cacheType stamp)) ->
  exists start end_ result,
    let userId := user_id req in
    let dimensionType := default "DATE" (q_dimensionType req) in
    let cacheKey :=
      generateCacheKey userId (isoDate start) (isoDate end_) dimensionType in
    let settledAt := (nowMs env + elapsed env)%Z in
    requestedRange (nowMs env) req = Resolved (start, end_)
    /\ Store.getDataForRange (nowMs env) (Store.db (store w)) userId start end_
                             dimensionType = Resolved None
    /\ sqliteError (sqlite (tiers w)) = None
    /\ raced env req = Resolved result
    /\ report = Some result
    /\ tiers w1
       = mkTiers (saveToRedis stringify settledAt (redis (tiers w)) cacheKey result 300)
                 (mkSqlite (<[cacheKey := mkCacheRow userId (stringify result)
                                                     (isoDate start) (isoDate end_)
                                                     dimensionType
                                                     (settledAt + 300 * 1000)%Z]>
                              (table (sqlite (tiers w))))
                           None)
    /\ Store.flags (store w1)
       = Store.mkFlags (Store.workerRunning (Store.flags (store w))) false
    /\ fetched w1 = (fetched w ++ [req])%list
    /\ Store.db (store w1)
       = if (start =? end_)%Z
         then match Store.saveDayData (settledAt / 1000) (Store.db (store w)) userId
                                      start dimensionType result with
              | Resolved db' => db'
              | Rejected _ => Store.db (store w)
              end
         else Store.db (store w).
Proof.
  unfold statistics.
  destruct (requestedRange (nowMs env) req) as [[start end_]|error];
    [|unfold caught; destruct (strIncludes _ _); discriminate].
  destruct (Store.getDataForRange _ _ _ _ _ _) as [[persistentData|]|error] eqn:Hstore;
    [discriminate| |unfold caught; destruct (strIncludes _ _); discriminate].
  destruct (getCachedData _ _ _ _ _ _ _ _ _) as [t [[cachedData|]|error]] eqn:Hcache;
    [discriminate| |unfold caught; destruct (strIncludes _ _); discriminate].
  apply getCachedData_miss in Hcache as [-> Herr].
  destruct (raced env req) as [result|error];
    [|unfold caught; destruct (strIncludes _ _); discriminate].
  unfold setCachedData, saveToSQLite.
  cbn [withTiers tiers store fetched redis sqlite]. rewrite Herr.
  cbn [withTiers tiers store fetched].
  unfold withStore, withTiers, withDb, Store.setUserRequestActive, Store.setFlags.
  cbn [store tiers fetched Store.flags Store.db Store.upstreamCalls Store.cacheWrites
       Store.sleeps Store.workerRunning Store.userRequestInProgress].
  intros Heq. exists start, end_, result. cbv zeta.
  split; [reflexivity|]. split; [exact Hstore|]. split; [reflexivity|].
  split; [reflexivity|].
  destruct (start =? end_)%Z.
  - destruct (Store.saveDayData _ _ _ _ _ _) as [db'|err];
      cbn [store tiers fetched Store.flags Store.db Store.upstreamCalls
           Store.cacheWrites Store.sleeps Store.workerRunning
           Store.userRequestInProgress] in Heq;
      injection Heq as <- <- _ _ _; repeat split.
  - cbn [store tiers fetched Store.flags Store.db Store.upstreamCalls
         Store.cacheWrites Store.sleeps Store.workerRunning
         Store.userRequestInProgress] in Heq.
    injection Heq as <- <- _ _ _. repeat split.
Qed.


Lemma caught_released w0 w req message :
  Store.workerRunning (Store.flags (store w0))
  = Store.workerRunning (Store.flags (store w)) ->
  fetched w0 = fetched w \/ fetched w0 = (fetched w ++ [req])%list ->
  let w' := fst (caught w0 message) in
  Store.workerRunning (Store.flags (store w'))
  = Store.workerRunning (Store.flags (store w))
  /\ match snd (caught w0 message) with
     | Sent _ _ info =>
         if cached info
         then store w' = store w /\ fetched w' = fetched w
         else Store.userRequestInProgress (Store.flags (store w')) = false
              /\ fetched w' = (fetched w ++ [req])%list
     | Failed code error timeout =>
         Store.userRequestInProgress (Store.flags (store w')) = false
         /\ (fetched w' = fetched w \/ fetched w' = (fetched w ++ [req])%list)
         /\ (code = 504%Z /\ timeout = true /\ error = tooLong
             \/ code = 500%Z /\ timeout = false)
     end.
Proof.
  intros Hworker Hfetched.
  destruct (caught_effect w0 message) as (Hflags & _ & _ & Hsame & Hreply).
  cbv zeta in *. rewrite Hflags, Hsame. cbn [Store.workerRunning Store.userRequestInProgress].
  split; [exact Hworker|].
  destruct Hreply as [-> | ->]; auto 10.
Qed.

(** What has been read of the store and of the cache decides whether the
    upstream is asked. *)
Lemma statistics_cache_hit env w req start end_ cachedData :
  requestedRange (nowMs env) req = Resolved (start, end_) ->
  Store.getDataForRange (nowMs env) (Store.db (store w)) (user_id req) start end_
                        (default "DATE" (q_dimensionType req)) = Resolved None ->
  snd (getCachedData parse stringify truthy (nowMs env) (tiers w) (user_id req)
                     (isoDate start) (isoDate end_)
                     (default "DATE" (q_dimensionType req)))
  = Resolved (Some cachedData) ->
  snd (statistics parse stringify env w req)
  = Sent (Some cachedData) None (mkCacheInfo true "redis_or_sqlite" (nowMs env))
  /\ fetched (fst (statistics parse stringify env w req)) = fetched w.
Proof.
  intros Hrange Hstore Hcache. unfold statistics. rewrite Hrange, Hstore.
  destruct (getCachedData _ _ _ _ _ _ _ _ _) as [t cachedData'].
  cbn [snd] in Hcache. subst cachedData'. split; reflexivity.
Qed.

Lemma statistics_all_miss env w req start end_ :
  requestedRange (nowMs env) req = Resolved (start, end_) ->
  Store.getDataForRange (nowMs env) (Store.db (store w)) (user_id req) start end_
                        (default "DATE" (q_dimensionType req)) = Resolved None ->
  snd (getCachedData parse stringify truthy (nowMs env) (tiers w) (user_id req)
                     (isoDate start) (isoDate end_)
                     (default "DATE" (q_dimensionType req)))
  = Resolved None ->
  fetched (fst (statistics parse stringify env w req)) = (fetched w ++ [req])%list.
Proof.
  intros Hrange Hstore Hcache. unfold statistics. rewrite Hrange, Hstore.
  destruct (getCachedData _ _ _ _ _ _ _ _ _) as [t cachedData'].
  cbn [snd] in Hcache. subst cachedData'.
  destruct (raced env req) as [result|error]; [|reflexivity].
  destruct (setCachedData _ _ _ _ _ _ _ _ _) as [t' [[]|error]]; [|reflexivity].
  destruct (start =? end_)%Z; [|reflexivity].
  now destruct (Store.saveDayData _ _ _ _ _ _).
Qed.

(** *** The flag of the foreground request *)

(** The handler cannot leave [userRequestInProgress] set: the flag is
    cleared by every answer that is not a hit and by every failure, also by
    a failure that comes before the handler has set it.  A hit, in the day
    store or in the cache, leaves the variables of the day store as they
    are and asks nothing of the upstream; no request is handed to the
    upstream more than once; [workerRunning] is never written; a failure is
    a 504 with [timeout] and the fixed text, or a 500. *)
Theorem statistics_releases_flag env w req :
  let w' := fst (statistics parse stringify env w req) in
  Store.workerRunning (Store.flags (store w'))
  = Store.workerRunning (Store.flags (store w))
  /\ match snd (statistics parse stringify env w req) with
     | Sent _ _ info =>
         if cached info
         then store w' = store w /\ fetched w' = fetched w
         else Store.userRequestInProgress (Store.flags (store w')) = false
              /\ fetched w' = (fetched w ++ [req])%list
     | Failed code error timeout =>
         Store.userRequestInProgress (Store.flags (store w')) = false
         /\ (fetched w' = fetched w \/ fetched w' = (fetched w ++ [req])%list)
         /\ (code = 504%Z /\ timeout = true /\ error = tooLong
             \/ code = 500%Z /\ timeout = false)
     end.
Proof.
  cbv zeta. unfold statistics.
  destruct (requestedRange (nowMs env) req) as [[start end_]|error];
    [|apply caught_released; auto].
  destruct (Store.getDataForRange _ _ _ _ _ _) as [[persistentData|]|error];
    [split; [reflexivity|split; reflexivity]| |apply caught_released; auto].
  destruct (getCachedData _ _ _ _ _ _ _ _ _) as [t [[cachedData|]|error]];
    [split; [reflexivity|split; reflexivity]| |apply caught_released; auto].
  destruct (raced env req) as [result|error];
    [|apply caught_released; [reflexivity|now right]].
  destruct (setCachedData _ _ _ _ _ _ _ _ _) as [t' [[]|error]];
    [|apply caught_released; [reflexivity|now right]].
  destruct (start =? end_)%Z; [|split; [reflexivity|split; reflexivity]].
  destruct (Store.saveDayData _ _ _ _ _ _); split; try reflexivity; split; reflexivity.
Qed.

(** *** The limit of 90 seconds *)


(** *** What a fresh answer leaves behind *)

(** A day that the handler has fetched once is served from the day store
    from then on: after a fresh answer for a single day, the same request
    gets the same report, marked [persistent_store], with the time of that
    fetch as [updated_at], at whatever time it comes back and whatever the
    cache holds by then, as long as the row is in the table and SQLite
    answers.  The upstream is not asked and nothing is written. *)
Theorem statistics_single_day_kept env w req day w1 report dataInfo cacheType stamp :
  requestedRange (nowMs env) req = Resolved (day, day) ->
  statistics parse stringify env w req
  = (w1, Sent report dataInfo (mkCacheInfo false cacheType stamp)) ->
  forall env' w2,
    requestedRange (nowMs env') req = Resolved (day, day) ->
    Store.dayTable (Store.db (store w2))
    !! (user_id req, day, default "DATE" (q_dimensionType req))
    = Store.dayTable (Store.db (store w1))
      !! (user_id req, day, default "DATE" (q_dimensionType req)) ->
    Store.dbError (Store.db (store w2)) = None ->
    let updated := ((nowMs env + elapsed env) / 1000)%Z in
    let age := Store.ageMinutes (nowMs env') updated in
    statistics parse stringify env' w2 req
    = (w2, Sent report
                (Some (Store.mkDataInfo updated age
                                        ((day =? nowMs env' / 86400000)%Z
                                         && (20 <? age)%Z)
                                        true None))
                (mkCacheInfo true "persistent_store" (nowMs env'))).
Proof.
  intros Hrange Hfresh env' w2 Hrange' Hrow Herr.
  apply statistics_fresh in Hfresh
    as (start & end_ & result & Hrange1 & Hstore & _ & _ & -> & _ & _ & _ & Hdb).
  cbv zeta in Hrange1, Hstore, Hdb.
  rewrite Hrange in Hrange1. injection Hrange1 as <- <-.
  rewrite Z.eqb_refl in Hdb.
  assert (Hhealthy : Store.dbError (Store.db (store w)) = None).
  { unfold Store.getDataForRange in Hstore. rewrite Z.eqb_refl in Hstore.
    unfold Store.getDayData in Hstore.
    now destruct (Store.dbError (Store.db (store w))). }
  unfold Store.saveDayData in Hdb. rewrite Hhealthy in Hdb.
  rewrite Hdb in Hrow. cbn [Store.dayTable] in Hrow.
  rewrite lookup_insert_eq in Hrow.
  cbv zeta. unfold statistics. rewrite Hrange'.
  unfold Store.getDataForRange. rewrite Z.eqb_refl.
  unfold Store.getDayData. rewrite Herr, Hrow.
  cbn [Store.dr_data Store.dr_updated_at Store.dres_updated_at Store.dres_data
       Store.rr_report Store.rr_info].
  reflexivity.
Qed.

(** A range that the handler has fetched is served from the cache for the
    5 minutes that follow, and fetched again afterwards.  After a fresh
    answer, as long as the day store has no answer for the range: a request
    made less than 300 seconds after the upstream answered gets the same
    report, marked [redis_or_sqlite], and the upstream is not asked; a
    request made later is handed to the upstream again.  This supposes that
    the hot tier took the write, or is out of use, or held nothing under
    the key, and that the report survives [JSON.stringify] and
    [JSON.parse]. *)
Theorem statistics_range_then_cache env w req start end_ w1 report dataInfo
        cacheType stamp :
  let userId := user_id req in
  let dimensionType := default "DATE" (q_dimensionType req) in
  let cacheKey := generateCacheKey userId (isoDate start) (isoDate end_) dimensionType in
  requestedRange (nowMs env) req = Resolved (start, end_) ->
  statistics parse stringify env w req
  = (w1, Sent report dataInfo (mkCacheInfo false cacheType stamp)) ->
  available (redis (tiers w)) = false
  \/ throws (redis (tiers w)) (OpSetEx cacheKey) = false
  \/ contents (redis (tiers w)) !! cacheKey = None ->
  exists result,
    report = Some result
    /\ forall env',
        requestedRange (nowMs env') req = Resolved (start, end_) ->
        Store.getDataForRange (nowMs env') (Store.db (store w1)) userId start end_
                              dimensionType = Resolved None ->
        ((nowMs env' < nowMs env + elapsed env + 300000)%Z ->
         parse (stringify result) = Some result ->
         snd (statistics parse stringify env' w1 req)
         = Sent (Some result) None (mkCacheInfo true "redis_or_sqlite" (nowMs env'))
         /\ fetched (fst (statistics parse stringify env' w1 req)) = fetched w1)
        /\ ((nowMs env + elapsed env + 300000 <= nowMs env')%Z ->
            fetched (fst (statistics parse stringify env' w1 req))
            = (fetched w1 ++ [req])%list).
Proof.
  intros userId dimensionType cacheKey Hrange Hfresh Hhot.
  apply statistics_fresh in Hfresh
    as (start' & end' & result & Hrange1 & _ & _ & _ & -> & Htiers & _ & _ & _).
  cbv zeta in Hrange1, Htiers.
  rewrite Hrange in Hrange1. injection Hrange1 as <- <-.
  fold userId dimensionType cacheKey in Htiers.
  exists result. split; [reflexivity|]. intros env' Hrange' Hstore'.
  assert (Hread : snd (getCachedData parse stringify truthy (nowMs env') (tiers w1)
                                     userId (isoDate start) (isoDate end_)
                                     dimensionType)
                  = if (nowMs env' <? nowMs env + elapsed env + 300000)%Z
                    then Resolved (parse (stringify result))
                    else Resolved None).
  { replace (nowMs env + elapsed env + 300000)%Z
      with (c_expires_at (mkCacheRow userId (stringify result) (isoDate start)
                                     (isoDate end_) dimensionType
                                     (nowMs env + elapsed env + 300 * 1000)%Z))
      by (cbn [c_expires_at]; lia).
    rewrite Htiers.
    apply (getCachedData_entry (nowMs env') _ userId (isoDate start) (isoDate end_)
                               dimensionType).
    - reflexivity.
    - cbn [sqlite table]. fold cacheKey. apply lookup_insert_eq.
    - reflexivity.
    - cbn [redis c_data c_expires_at]. fold cacheKey.
      destruct (CacheFacts.saveToRedis_contents
                  stringify (nowMs env + elapsed env) (redis (tiers w)) cacheKey
                  result 300)
        as (Ha & _ & _ & [[Hc Hno]|[Hc _]]); cbv zeta in Ha, Hc.
      + destruct Hhot as [Hav|[Hset|Hnone]].
        * left. now rewrite Ha.
        * destruct Hno as [Hav|Hthrows]; [left; now rewrite Ha|congruence].
        * right. left. now rewrite Hc.
      + right. right. rewrite Hc. apply lookup_insert_eq. }
  split.
  - intros Hsoon Hcodec.
    destruct (Z.ltb_spec (nowMs env') (nowMs env + elapsed env + 300000)) as [_|Hle];
      [|lia].
    rewrite Hcodec in Hread.
    now apply (statistics_cache_hit env' w1 req start end_ result).
  - intros Hlate.
    destruct (Z.ltb_spec (nowMs env') (nowMs env + elapsed env + 300000)) as [Hlt|_];
      [lia|].
    now apply (statistics_all_miss env' w1 req start end_).
Qed.

End Handler.


(** (witness) The sample request for 2025-01-15, fetched at 00:00 and asked
    for again at 01:00. *)
Lemma statistics_single_day_kept_witness :
  snd (statistics Samples.parseOneRow Samples.stringifyOneRow Samples.laterEnv
                  (fst (statistics Samples.parseOneRow Samples.stringifyOneRow
                                   Samples.routeEnv Samples.routeWorld
                                   Samples.todayRequest))
                  Samples.todayRequest)
  = Sent (Some Samples.oneRow)
         (Some (Store.mkDataInfo 1736899202 59 true true None))
         (mkCacheInfo true "persistent_store" 1736902800000).
Proof.
  exact (f_equal snd
           (statistics_single_day_kept
              Samples.parseOneRow Samples.stringifyOneRow Samples.routeEnv
              Samples.routeWorld Samples.todayRequest 20103
              (fst (statistics Samples.parseOneRow Samples.stringifyOneRow
                               Samples.routeEnv Samples.routeWorld
                               Samples.todayRequest))
              (Some Samples.oneRow) None "fresh" 1736899202000
              eq_refl eq_refl Samples.laterEnv _ eq_refl eq_refl eq_refl)).
Defined.

(** (witness) The sample request for four days, fetched at 00:00 and asked
    for again one minute later. *)
Lemma statistics_range_then_cache_witness :
  snd (statistics Samples.parseOneRow Samples.stringifyOneRow Samples.soonEnv
                  (fst (statistics Samples.parseOneRow Samples.stringifyOneRow
                                   Samples.routeEnv Samples.routeWorld
                                   Samples.rangeRequest))
                  Samples.rangeRequest)
  = Sent (Some Samples.oneRow) None
         (mkCacheInfo true "redis_or_sqlite" 1736899260000).
Proof.
  destruct (statistics_range_then_cache
              Samples.parseOneRow Samples.stringifyOneRow Samples.routeEnv
              Samples.routeWorld Samples.rangeRequest 20100 20103
              (fst (statistics Samples.parseOneRow Samples.stringifyOneRow
                               Samples.routeEnv Samples.routeWorld
                               Samples.rangeRequest))
              (Some Samples.oneRow) None "fresh" 1736899202000
              eq_refl eq_refl (or_intror (or_introl eq_refl)))
    as (result & Hresult & Hnext).
  injection Hresult as <-.
  exact (proj1 (proj1 (Hnext Samples.soonEnv eq_refl eq_refl)
                      ltac:(vm_compute; reflexivity) eq_refl)).
Defined.

End RouteFacts.
